(** * Sun * Moon * Tide calendar: the page layout of [cal_draw.py]

    A shallow embedding of [src/cal_draw.py]: the two date generators
    [days_in_month] and [months_in_year], the day-cell renderer
    [_plot_a_date], the page composer [month_page] and the document loop
    [generate_annual_calendar], together with the properties of the grid
    layout, of the axis limits and of the error paths.

    The pandas, calendar and matplotlib primitives the module calls are
    modelled in the first part of the file; the code of [cal_draw.py] itself
    follows, statement by statement. *)

From Stdlib Require Import ZArith QArith Lia String Ascii List Bool.
From stdpp Require Import gmap strings list fin_maps.
From Equations Require Import Equations.

Open Scope Z_scope.

(** ** Exceptions and results *)

(** The Python exceptions that can travel through [cal_draw.py].
    [KeyError] carries the missing key, as Python's does.  [OtherException]
    stands for any further subclass of [Exception] (an [OSError] of the logo
    read, a time zone error of [tz_localize], ...); [KeyboardInterrupt] and
    [SystemExit] derive from [BaseException] only. *)
Inductive exc : Type :=
| KeyError (key : string)
| IndexError
| TypeError
| ValueError
| AttributeError
| OutOfBoundsDatetime
| IllegalMonthError
| OtherException (name : string)
| KeyboardInterrupt
| SystemExit.

(** [isinstance(e, Exception)]. *)
Definition is_Exception (e : exc) : bool :=
  match e with
  | KeyboardInterrupt | SystemExit => false
  | _ => true
  end.

Inductive result (A : Type) : Type :=
| Return (a : A)
| Raise (e : exc).
Arguments Return {A} a.
Arguments Raise {A} e.

#[export] Instance result_ret : MRet result := fun A a => Return a.
#[export] Instance result_bind : MBind result := fun A B f m =>
  match m with
  | Return a => f a
  | Raise e => Raise e
  end.

(** ** The proleptic Gregorian calendar ([calendar], [datetime]) *)

(** [calendar.isleap]. *)
Definition isleap (year : Z) : bool :=
  (year mod 4 =? 0) && (negb (year mod 100 =? 0) || (year mod 400 =? 0)).

(** [calendar.mdays], the lengths of the months of a common year. *)
Definition mdays (month : Z) : Z :=
  match month with
  | 1 => 31 | 2 => 28 | 3 => 31 | 4 => 30 | 5 => 31 | 6 => 30
  | 7 => 31 | 8 => 31 | 9 => 30 | 10 => 31 | 11 => 30 | 12 => 31
  | _ => 0
  end.

(** The number of days of a month: [mdays[month] + (month == 2 and isleap)]. *)
Definition month_length (year month : Z) : Z :=
  mdays month + (if (month =? 2) && isleap year then 1 else 0).

(** [datetime._days_before_year]. *)
Definition days_before_year (year : Z) : Z :=
  let y := year - 1 in y * 365 + y / 4 - y / 100 + y / 400.

(** [datetime._DAYS_BEFORE_MONTH]. *)
Definition DAYS_BEFORE_MONTH (month : Z) : Z :=
  match month with
  | 1 => 0 | 2 => 31 | 3 => 59 | 4 => 90 | 5 => 120 | 6 => 151
  | 7 => 181 | 8 => 212 | 9 => 243 | 10 => 273 | 11 => 304 | 12 => 334
  | _ => 365
  end.

Definition days_before_month_leap (leap : bool) (month : Z) : Z :=
  DAYS_BEFORE_MONTH month + (if (month >? 2) && leap then 1 else 0).

Definition days_before_month (year month : Z) : Z :=
  days_before_month_leap (isleap year) month.

(** [datetime._ymd2ord]: the ordinal of a date, 0001-01-01 being day 1. *)
Definition ymd2ord (year month day : Z) : Z :=
  days_before_year year + days_before_month year month + day.

(** The tail of [datetime._ord2ymd], on the zero-based day number within a
    400-year cycle; the year it returns counts from 1 within the cycle. *)
Definition ord2ymd_cycle (n : Z) : Z * Z * Z :=
  let n100 := n / 36524 in
  let n := n mod 36524 in
  let n4 := n / 1461 in
  let n := n mod 1461 in
  let n1 := n / 365 in
  let n := n mod 365 in
  let year := 1 + n100 * 100 + n4 * 4 + n1 in
  if (n1 =? 4) || (n100 =? 4) then (year - 1, 12, 31)
  else
    let leapyear := (n1 =? 3) && (negb (n4 =? 24) || (n100 =? 3)) in
    let month := Z.shiftr (n + 50) 5 in
    let preceding := days_before_month_leap leapyear month in
    if preceding >? n then
      let month' := month - 1 in
      let preceding' :=
        preceding - (mdays month' + (if (month' =? 2) && leapyear then 1 else 0)) in
      (year, month', n - preceding' + 1)
    else (year, month, n - preceding + 1).

(** [datetime._ord2ymd]. *)
Definition ord2ymd (n : Z) : Z * Z * Z :=
  let n := n - 1 in
  let n400 := n / 146097 in
  let '(y, m, d) := ord2ymd_cycle (n mod 146097) in
  (n400 * 400 + y, m, d).

(** ** Timestamps ([pandas.Timestamp], [pandas.DateOffset]) *)

(** A naive timestamp is its [value]: the minutes elapsed since the midnight
    that starts ordinal day 0.  Every timestamp [cal_draw.py] builds is a
    whole number of minutes.  Comparison and the addition of days act on the
    value; the calendar fields are read off it. *)
Record Timestamp : Type := mkTimestamp { value : Z }.

Definition toordinal (t : Timestamp) : Z := value t / 1440.
Definition minute_of_day (t : Timestamp) : Z := value t mod 1440.

Definition ts_year (t : Timestamp) : Z := (ord2ymd (toordinal t)).1.1.
Definition ts_month (t : Timestamp) : Z := (ord2ymd (toordinal t)).1.2.
Definition ts_day (t : Timestamp) : Z := (ord2ymd (toordinal t)).2.
Definition ts_hour (t : Timestamp) : Z := minute_of_day t / 60.
Definition ts_minute (t : Timestamp) : Z := minute_of_day t mod 60.

(** [Timestamp.dayofweek]: Monday = 0, ..., Sunday = 6. *)
Definition dayofweek (t : Timestamp) : Z := (toordinal t + 6) mod 7.

(** [Timestamp.min] and [Timestamp.max] of the nanosecond resolution,
    1677-09-21 00:12:43.145224193 and 2262-04-11 23:47:16.854775807, rounded
    inwards to whole minutes. *)
Definition TS_MIN : Z := ymd2ord 1677 9 21 * 1440 + 13.
Definition TS_MAX : Z := ymd2ord 2262 4 11 * 1440 + (23 * 60 + 47).

Definition in_bounds (v : Z) : bool := (TS_MIN <=? v) && (v <=? TS_MAX).

Definition make_timestamp (v : Z) : result Timestamp :=
  if in_bounds v then Return (mkTimestamp v) else Raise OutOfBoundsDatetime.

Definition timestamp_of_fields (year month day hour minute : Z) : result Timestamp :=
  make_timestamp (ymd2ord year month day * 1440 + hour * 60 + minute).

(** [t1 < t2]. *)
Definition ts_ltb (t1 t2 : Timestamp) : bool := value t1 <? value t2.

(** [pd.DateOffset(n)] is [n] days; [pd.DateOffset(months=n)] is [n]
    calendar months. *)
Inductive DateOffset : Type :=
| OffsetDays (n : Z)
| OffsetMonths (months : Z).

(** [Timestamp + DateOffset].  Days are added to the value.  Months move
    the month field and clip the day to the length of the target month, the
    time of day being kept. *)
Definition ts_add (t : Timestamp) (o : DateOffset) : result Timestamp :=
  match o with
  | OffsetDays n => make_timestamp (value t + n * 1440)
  | OffsetMonths k =>
      let '(y, m, d) := ord2ymd (toordinal t) in
      let total := m - 1 + k in
      let y' := y + total / 12 in
      let m' := total mod 12 + 1 in
      let d' := Z.min d (month_length y' m') in
      make_timestamp (ymd2ord y' m' d' * 1440 + minute_of_day t)
  end.

(** [calendar.monthrange]: the weekday of the first day and the length. *)
Definition monthrange (year month : Z) : result (Z * Z) :=
  if (1 <=? month) && (month <=? 12)
  then Return ((ymd2ord year month 1 + 6) mod 7, month_length year month)
  else Raise IllegalMonthError.

(** ** Date strings ([Timestamp.strftime], [pd.to_datetime]) *)

Definition digit_char (n : Z) : ascii := ascii_of_N (Z.to_N (48 + n mod 10)).

(** [%m], [%d]: two digits, zero padded. *)
Definition pad2 (n : Z) : string :=
  String (digit_char (n / 10)) (String (digit_char n) EmptyString).

(** [%Y]: four digits for the years a timestamp can hold. *)
Definition pad4 (n : Z) : string :=
  String (digit_char (n / 1000)) (String (digit_char (n / 100))
    (String (digit_char (n / 10)) (String (digit_char n) EmptyString))).

(** [calendar.month_name], for [%B]. *)
Definition month_name (month : Z) : string :=
  match month with
  | 1 => "January" | 2 => "February" | 3 => "March" | 4 => "April"
  | 5 => "May" | 6 => "June" | 7 => "July" | 8 => "August"
  | 9 => "September" | 10 => "October" | 11 => "November" | 12 => "December"
  | _ => ""
  end%string.

Definition directive (c : ascii) (t : Timestamp) : string :=
  if Ascii.eqb c "Y" then pad4 (ts_year t)
  else if Ascii.eqb c "m" then pad2 (ts_month t)
  else if Ascii.eqb c "d" then pad2 (ts_day t)
  else if Ascii.eqb c "B" then month_name (ts_month t)
  else String "%" (String c EmptyString).

(** [t.strftime(format)] for the directives the module uses. *)
Fixpoint strftime (format : string) (t : Timestamp) : string :=
  match format with
  | EmptyString => EmptyString
  | String c rest =>
      if Ascii.eqb c "%" then
        match rest with
        | EmptyString => String c EmptyString
        | String d rest' => directive d t +:+ strftime rest' t
        end
      else String c (strftime rest t)
  end.

Definition digit_of (c : ascii) : option Z :=
  let n := Z.of_N (N_of_ascii c) in
  if (48 <=? n) && (n <=? 57) then Some (n - 48) else None.

Definition num2 (a b : ascii) : option Z :=
  x ← digit_of a; y ← digit_of b; Some (10 * x + y).

Definition num4 (a b c d : ascii) : option Z :=
  x ← num2 a b; y ← num2 c d; Some (100 * x + y).

(** The ISO 8601 forms the module hands to [pd.to_datetime]: [YYYY-MM],
    [YYYY-MM-DD] and [YYYY-MM-DD HH:MM], as year, month, day, hour and
    minute.  A missing day is day 1 and a missing time is midnight. *)
Definition parse_time (s : string) : option (Z * Z) :=
  match s with
  | String sp (String h1 (String h0 (String co (String i1 (String i0 EmptyString))))) =>
      if Ascii.eqb sp " " && Ascii.eqb co ":" then
        h ← num2 h1 h0; i ← num2 i1 i0; Some (h, i)
      else None
  | _ => None
  end.

Definition parse_day (s : string) : option (Z * Z * Z) :=
  match s with
  | EmptyString => Some (1, 0, 0)
  | String da (String d1 (String d0 rest)) =>
      if Ascii.eqb da "-" then
        d ← num2 d1 d0;
        match rest with
        | EmptyString => Some (d, 0, 0)
        | _ => '(h, i) ← parse_time rest; Some (d, h, i)
        end
      else None
  | _ => None
  end.

Definition parse_iso (s : string) : option (Z * Z * Z * Z * Z) :=
  match s with
  | String y3 (String y2 (String y1 (String y0 (String da (String m1 (String m0 rest)))))) =>
      if Ascii.eqb da "-" then
        y ← num4 y3 y2 y1 y0;
        m ← num2 m1 m0;
        '(d, h, i) ← parse_day rest;
        Some (y, m, d, h, i)
      else None
  | _ => None
  end.

(** [pd.to_datetime(s)] on those forms.  A string that is not one of them,
    or that names no date of the calendar, is a [ValueError]; a date outside
    [Timestamp.min .. Timestamp.max] is an [OutOfBoundsDatetime]. *)
Definition to_datetime (s : string) : result Timestamp :=
  match parse_iso s with
  | Some (y, m, d, h, i) =>
      if (1 <=? y) && (1 <=? m) && (m <=? 12) && (1 <=? d) && (d <=? month_length y m)
         && (h <=? 23) && (i <=? 59)
      then timestamp_of_fields y m d h i
      else Raise ValueError
  | None => Raise ValueError
  end.

(** ** Facts about the calendar

    [ymd2ord] and [ord2ymd] are inverse to each other.  Both functions are
    periodic in the 400-year cycle of 146097 days, so each direction is
    checked by evaluation over one cycle and then shifted. *)

(** [forall_range n lo f]: [f] holds on [lo, lo + n). *)
Fixpoint forall_range (n : nat) (lo : Z) (f : Z -> bool) : bool :=
  match n with
  | O => true
  | S k => if f lo then forall_range k (lo + 1) f else false
  end.

Lemma forall_range_spec n : forall lo f,
  forall_range n lo f = true ->
  forall z, lo <= z < lo + Z.of_nat n -> f z = true.
Proof.
  induction n as [|k IH]; intros lo f H z Hz; [lia|].
  simpl in H. destruct (f lo) eqn:E; [|discriminate].
  destruct (decide (z = lo)) as [->|Hne]; [exact E|].
  apply (IH (lo + 1) f H). lia.
Qed.

Lemma isleap_period y q : isleap (y + 400 * q) = isleap y.
Proof.
  unfold isleap.
  replace ((y + 400 * q) mod 4) with (y mod 4) by (Z.div_mod_to_equations; lia).
  replace ((y + 400 * q) mod 100) with (y mod 100) by (Z.div_mod_to_equations; lia).
  replace ((y + 400 * q) mod 400) with (y mod 400) by (Z.div_mod_to_equations; lia).
  reflexivity.
Qed.

Lemma days_before_year_period y q :
  days_before_year (y + 400 * q) = days_before_year y + 146097 * q.
Proof.
  unfold days_before_year. cbv zeta.
  Z.div_mod_to_equations. lia.
Qed.

Lemma month_length_period y q m : month_length (y + 400 * q) m = month_length y m.
Proof. unfold month_length. by rewrite isleap_period. Qed.

Lemma ymd2ord_period y q m d :
  ymd2ord (y + 400 * q) m d = ymd2ord y m d + 146097 * q.
Proof.
  unfold ymd2ord, days_before_month.
  rewrite isleap_period, days_before_year_period. lia.
Qed.

Definition triple_eqb (a b : Z * Z * Z) : bool :=
  (a.1.1 =? b.1.1) && (a.1.2 =? b.1.2) && (a.2 =? b.2).

Lemma triple_eqb_eq a b : triple_eqb a b = true -> a = b.
Proof.
  destruct a as [[a1 a2] a3], b as [[b1 b2] b3]. unfold triple_eqb. simpl.
  rewrite !andb_true_iff, !Z.eqb_eq. intros [[-> ->] ->]. reflexivity.
Qed.

Definition check_date (y m d : Z) : bool :=
  let n := ymd2ord y m d - 1 in
  (0 <=? n) && (n <? 146097) && triple_eqb (ord2ymd_cycle n) (y, m, d).

Lemma check_dates_true :
  forall_range 400 1 (fun y =>
    forall_range 12 1 (fun m =>
      forall_range (Z.to_nat (month_length y m)) 1 (check_date y m))) = true.
Proof. vm_cast_no_check (@eq_refl bool true). Qed.

Definition check_ordinal (r : Z) : bool :=
  let '(y, m, d) := ord2ymd_cycle r in
  (1 <=? y) && (y <=? 400) && (1 <=? m) && (m <=? 12) && (1 <=? d)
  && (d <=? month_length y m) && (ymd2ord y m d =? r + 1).

Lemma check_ordinals_true : forall_range (Z.to_nat 146097) 0 check_ordinal = true.
Proof. vm_cast_no_check (@eq_refl bool true). Qed.

Lemma ord2ymd_ymd2ord y m d :
  1 <= m <= 12 -> 1 <= d <= month_length y m ->
  ord2ymd (ymd2ord y m d) = (y, m, d).
Proof.
  intros Hm Hd.
  set (q := (y - 1) / 400). set (y0 := (y - 1) mod 400 + 1).
  assert (Hy : y = y0 + 400 * q) by (unfold y0, q; Z.div_mod_to_equations; lia).
  assert (Hy0 : 1 <= y0 < 1 + Z.of_nat 400) by (unfold y0; Z.div_mod_to_equations; lia).
  clearbody q y0. subst y.
  rewrite month_length_period in Hd.
  pose proof check_dates_true as C.
  pose proof (forall_range_spec _ _ _ C y0 Hy0) as C1. cbv beta in C1.
  pose proof (forall_range_spec _ _ _ C1 m ltac:(lia)) as C2. cbv beta in C2.
  pose proof (forall_range_spec _ _ _ C2 d ltac:(lia)) as C3. cbv beta in C3.
  unfold check_date in C3. cbv zeta in C3.
  rewrite !andb_true_iff in C3. destruct C3 as [[C3a C3b] C3c].
  apply triple_eqb_eq in C3c. apply Z.leb_le in C3a. apply Z.ltb_lt in C3b.
  clear C C1 C2.
  unfold ord2ymd. rewrite ymd2ord_period. cbv zeta.
  generalize dependent (ymd2ord y0 m d). intros a Ha1 Ha2 Hc.
  replace ((a + 146097 * q - 1) mod 146097) with (a - 1)
    by (clear -Ha1 Ha2; Z.div_mod_to_equations; lia).
  replace ((a + 146097 * q - 1) / 146097) with q
    by (clear -Ha1 Ha2; Z.div_mod_to_equations; lia).
  rewrite Hc. f_equal. f_equal. lia.
Qed.

Lemma ymd2ord_ord2ymd n :
  let '(y, m, d) := ord2ymd n in
  1 <= m <= 12 /\ 1 <= d <= month_length y m /\ ymd2ord y m d = n.
Proof.
  unfold ord2ymd. cbv zeta.
  set (q := (n - 1) / 146097). set (r := (n - 1) mod 146097).
  assert (Hn : n = 146097 * q + r + 1) by (unfold q, r; Z.div_mod_to_equations; lia).
  assert (Hr0 : 0 <= r < 146097) by (unfold r; Z.div_mod_to_equations; lia).
  assert (Hr : 0 <= r < 0 + Z.of_nat (Z.to_nat 146097)) by (rewrite Z2Nat.id; lia).
  clearbody q r.
  pose proof (forall_range_spec _ _ _ check_ordinals_true r Hr) as C.
  unfold check_ordinal in C.
  destruct (ord2ymd_cycle r) as [[y m] d].
  rewrite !andb_true_iff in C. destruct C as [[[[[[C1 C2] C3] C4] C5] C6] C7].
  replace (q * 400 + y) with (y + 400 * q) by lia.
  rewrite month_length_period, ymd2ord_period.
  apply Z.leb_le in C3, C4, C5, C6. apply Z.eqb_eq in C7. lia.
Qed.

Lemma days_before_year_succ y :
  days_before_year (y + 1) = days_before_year y + 365 + (if isleap y then 1 else 0).
Proof.
  unfold days_before_year, isleap. cbv zeta.
  replace (y + 1 - 1) with y by lia.
  destruct (Z.eqb_spec (y mod 4) 0), (Z.eqb_spec (y mod 100) 0), (Z.eqb_spec (y mod 400) 0);
    cbn [andb orb negb]; Z.div_mod_to_equations; lia.
Qed.

Lemma month_length_bounds y m : 1 <= m <= 12 -> 28 <= month_length y m <= 31.
Proof.
  intros Hm. unfold month_length.
  assert (m = 1 \/ m = 2 \/ m = 3 \/ m = 4 \/ m = 5 \/ m = 6 \/ m = 7 \/ m = 8
          \/ m = 9 \/ m = 10 \/ m = 11 \/ m = 12) as H by lia.
  destruct (isleap y);
    repeat (destruct H as [->|H]; [cbn; lia|]); subst; cbn; lia.
Qed.

Lemma ymd2ord_day y m d : ymd2ord y m d = ymd2ord y m 1 + (d - 1).
Proof. unfold ymd2ord. lia. Qed.

Lemma days_before_month_succ b m :
  1 <= m <= 11 ->
  days_before_month_leap b (m + 1) =
  days_before_month_leap b m + (mdays m + (if (m =? 2) && b then 1 else 0)).
Proof.
  intros Hm.
  assert (m = 1 \/ m = 2 \/ m = 3 \/ m = 4 \/ m = 5 \/ m = 6 \/ m = 7 \/ m = 8
          \/ m = 9 \/ m = 10 \/ m = 11) as H by lia.
  destruct b; repeat (destruct H as [->|H]; [reflexivity|]); subst; reflexivity.
Qed.

Lemma ymd2ord_next_month y m :
  1 <= m <= 12 ->
  ymd2ord (y + m / 12) (m mod 12 + 1) 1 = ymd2ord y m 1 + month_length y m.
Proof.
  intros Hm. destruct (decide (m = 12)) as [->|Hne].
  - change (12 / 12) with 1. change (12 mod 12 + 1) with 1.
    unfold ymd2ord, days_before_month, days_before_month_leap, month_length.
    rewrite days_before_year_succ.
    destruct (isleap y), (isleap (y + 1)); cbn; lia.
  - rewrite Z.div_small, Z.mod_small, Z.add_0_r by lia.
    unfold ymd2ord, days_before_month, month_length.
    rewrite days_before_month_succ by lia. lia.
Qed.

Lemma make_timestamp_Return v t : make_timestamp v = Return t -> value t = v.
Proof.
  unfold make_timestamp. destruct (in_bounds v); [|discriminate].
  intros [= <-]. reflexivity.
Qed.

Lemma ts_add_days_value t n t' :
  ts_add t (OffsetDays n) = Return t' -> value t' = value t + n * 1440.
Proof. apply make_timestamp_Return. Qed.

Lemma ts_add_month_increases t t' :
  ts_add t (OffsetMonths 1) = Return t' -> value t < value t'.
Proof.
  unfold ts_add. pose proof (ymd2ord_ord2ymd (toordinal t)) as H.
  destruct (ord2ymd (toordinal t)) as [[y m] d]. destruct H as (Hm & Hd & Ho).
  replace (m - 1 + 1) with m by lia.
  intros Ht. apply make_timestamp_Return in Ht. rewrite Ht.
  pose proof (ymd2ord_next_month y m Hm) as Hn.
  assert (Hm' : 1 <= m mod 12 + 1 <= 12) by (Z.div_mod_to_equations; lia).
  pose proof (month_length_bounds (y + m / 12) (m mod 12 + 1) Hm') as Hb.
  rewrite (ymd2ord_day _ _ (Z.min _ _)). rewrite Hn.
  rewrite (ymd2ord_day y m d) in Ho.
  unfold toordinal, minute_of_day in *.
  generalize dependent (ymd2ord y m 1). intros a Ho _.
  generalize dependent (month_length (y + m / 12) (m mod 12 + 1)). intros l' Hl'.
  generalize dependent (month_length y m). intros l Hl.
  clear Hm Hm'. Z.div_mod_to_equations. lia.
Qed.

(** ** The two date generators

    A run of a generator is the sequence of the items it yields, ended by
    its exhaustion ([GStop]) or by the exception that escapes from it
    ([GRaise]).  The statement after a [yield] runs when the consumer asks
    for the next item, so an exception of the increment comes after the
    item that was yielded before it. *)

Inductive Gen : Type :=
| GStop
| GRaise (e : exc)
| GYield (item : string) (rest : Gen).

Definition inspect {A : Type} (a : A) : {b : A | a = b} := exist _ a eq_refl.

Equations? days_loop (current_date end_date : Timestamp) : Gen
  by wf (Z.to_nat (value end_date - value current_date)) lt :=
  days_loop current_date end_date with inspect (ts_ltb current_date end_date) := {
    | exist _ false _ => GStop
    | exist _ true Hlt with inspect (ts_add current_date (OffsetDays 1)) := {
        | exist _ (Return next) Hnext =>
            GYield (strftime "%Y-%m-%d" current_date) (days_loop next end_date)
        | exist _ (Raise e) _ =>
            GYield (strftime "%Y-%m-%d" current_date) (GRaise e) } }.
Proof.
  apply ts_add_days_value in Hnext. unfold ts_ltb in Hlt.
  apply Z.ltb_lt in Hlt. lia.
Qed.

Equations? months_loop (current_date end_date : Timestamp) : Gen
  by wf (Z.to_nat (value end_date - value current_date)) lt :=
  months_loop current_date end_date with inspect (ts_ltb current_date end_date) := {
    | exist _ false _ => GStop
    | exist _ true Hlt with inspect (ts_add current_date (OffsetMonths 1)) := {
        | exist _ (Return next) Hnext =>
            GYield (strftime "%Y-%m" current_date) (months_loop next end_date)
        | exist _ (Raise e) _ =>
            GYield (strftime "%Y-%m" current_date) (GRaise e) } }.
Proof.
  apply ts_add_month_increases in Hnext. unfold ts_ltb in Hlt.
  apply Z.ltb_lt in Hlt. lia.
Qed.

Definition gen_bind {A : Type} (r : result A) (k : A -> Gen) : Gen :=
  match r with
  | Return a => k a
  | Raise e => GRaise e
  end.

Definition days_in_month (year_month_string : string) : Gen :=
  gen_bind (to_datetime year_month_string) (fun start_date =>
  gen_bind (monthrange (ts_year start_date) (ts_month start_date)) (fun '(_, days_in_month) =>
  gen_bind (ts_add start_date (OffsetDays days_in_month)) (fun end_date =>
  days_loop start_date end_date))).

Definition months_in_year (year_string : string) : Gen :=
  gen_bind (to_datetime (year_string +:+ "-01")) (fun start_date =>
  gen_bind (ts_add start_date (OffsetMonths 12)) (fun end_date =>
  months_loop start_date end_date)).


(** ** Python values, sequences and dictionaries *)

(** The values that the module passes to [print], to [plt.text] and to the
    [+] of the exception handler. *)
Inductive pyval : Type :=
| PyStr (s : string)
| PyInt (n : Z)
| PyExc (e : exc).

(** [a + b]: strings concatenate, integers add; a string and anything that
    is not a string have no [+]. *)
Definition py_add (a b : pyval) : result pyval :=
  match a, b with
  | PyStr x, PyStr y => Return (PyStr (x +:+ y))
  | PyInt x, PyInt y => Return (PyInt (x + y))
  | _, _ => Raise TypeError
  end.

(** [seq[i]] for a sequence of [length seq] items: a negative index counts
    from the end, an index out of range is an [IndexError]. *)
Definition py_index {A : Type} (seq : list A) (i : Z) : result A :=
  let n := Z.of_nat (length seq) in
  let j := if i <? 0 then i + n else i in
  if (0 <=? j) && (j <? n) then
    match seq !! Z.to_nat j with
    | Some x => Return x
    | None => Raise IndexError
    end
  else Raise IndexError.

(** [d[key]]. *)
Definition dict_get {A : Type} (d : gmap string A) (key : string) : result A :=
  match d !! key with
  | Some v => Return v
  | None => Raise (KeyError key)
  end.

(** [for x in gen: body]. *)
Fixpoint for_gen {S : Type} (g : Gen) (body : string -> S -> result S) (s : S)
  : result S :=
  match g with
  | GStop => Return s
  | GRaise e => Raise e
  | GYield x rest => s' ← body x s; for_gen rest body s'
  end.

(** [for i in items: body]. *)
Fixpoint for_list {A S : Type} (items : list A) (body : A -> S -> result S) (s : S)
  : result S :=
  match items with
  | [] => Return s
  | x :: rest => s' ← body x s; for_list rest body s'
  end.

(** [range(lo, hi)]. *)
Definition range (lo hi : Z) : list Z := seqZ lo (hi - lo).

(** ** The input contexts *)

(** A time-indexed series: the time zone of its index and its samples, each
    the wall-clock timestamp and the value. *)
Record Series : Type := mkSeries {
  series_tz : option string;
  samples : list (Timestamp * Q)
}.

Definition index (s : Series) : list Timestamp := (samples s).*1.
Definition values (s : Series) : list Q := (samples s).*2.

(** Modelled from the spec: the [tides.Tides] object, whose module is not
    part of the sources.  Section 6 of the specification lists its fields;
    [all_tides] is the per-day lookup from a date string to a series. *)
Record Tides : Type := mkTides {
  station_name : string;
  state : string;
  latitude : Q;
  longitude : Q;
  timezone : string;
  year : string;
  annual_min : Q;
  annual_max : Q;
  all_tides : gmap string Series
}.

(** Modelled from the spec: the [astro.Astro] object, whose module is not
    part of the sources: the per-day lookups [heights] and, for the Moon,
    [phase_day_num]. *)
Record Astro : Type := mkAstro {
  heights : gmap string Series;
  phase_day_num : gmap string Z
}.

(** ** The environment *)

(** A timestamp localized to a time zone. *)
Record AwareTimestamp : Type := mkAware {
  wall : Timestamp;
  zone : string;
  utcoffset : Z
}.

(** What the run depends on besides its arguments: the time zone database,
    matplotlib's conversion of a datetime to a number, the packaged logo
    and its decoder, whether numpy still has the alias [np.float], and the
    clock. *)
Record Env : Type := mkEnv {
  tz_utcoffset : string -> Timestamp -> result Z;
  date2num : AwareTimestamp -> Q;
  get_data : string -> string -> result (option (list Z));
  Image_open : list Z -> result (list (list Z));
  np_float : bool;
  timestamp_now : Timestamp
}.

(** [t.tz_localize(tz)] keeps the wall-clock time; the database gives the
    offset, or raises for an unknown zone and for a wall-clock time that
    does not exist or is ambiguous in the zone. *)
Definition tz_localize (env : Env) (t : Timestamp) (tz : string)
  : result AwareTimestamp :=
  off ← tz_utcoffset env tz t;
  Return (mkAware t tz off).

(** ** Figures ([matplotlib]) *)

Inductive Transform : Type :=
| transAxes (ax : nat)
| transFigure.

Record Text : Type := mkText {
  text_x : Q;
  text_y : Q;
  text_s : pyval;
  text_ha : string;
  text_fontsize : pyval;
  text_fontname : string;
  text_transform : Transform
}.

Record Fill : Type := mkFill {
  fill_x : list Timestamp;
  fill_y1 : list Q;
  fill_y2 : list Q;
  fill_color : string;
  fill_alpha : Q
}.

Inductive Side : Type := spine_top | spine_bottom | spine_left | spine_right.

(** An axes: the cell of the grid it occupies, the filled curves, the
    limits and ticks ([None] while matplotlib chooses them from the data),
    the widths that were set on its spines, the spines that were hidden, and
    the texts attached to it. *)
Record Axes : Type := mkAxes {
  subplotspec : Z;
  fills : list Fill;
  xlim : option (Q * Q);
  ylim : option (Q * Q);
  xticks : option (list Q);
  yticks : option (list Q);
  spine_linewidth : list (Side * Q);
  spine_hidden : list Side;
  texts : list Text
}.

Definition new_axes (cell : Z) : Axes :=
  mkAxes cell [] None None None None [] [] [].

(** A figure and the pyplot state around it: the axes in the order of their
    creation (an axes is referred to by its position in this list), the
    current axes, the texts and images placed on the figure itself, and the
    margins set by [subplots_adjust]. *)
Record Figure : Type := mkFigure {
  figsize : Q * Q;
  fig_axes : list Axes;
  current_axes : nat;
  fig_texts : list Text;
  fig_images : list (list (list Q) * Z * Z);
  subplotpars : option (list (string * Q))
}.

(** [plt.figure(figsize=...)]. *)
Definition plt_figure (size : Q * Q) : Figure := mkFigure size [] 0 [] [] None.

(** [gridspec.GridSpec(nrows, ncols)]. *)
Record GridSpec : Type := mkGridSpec { nrows : Z; ncols : Z }.

(** [gs[i]] with an integer [i]: the cell counted row by row; a negative
    index counts from the end, one out of range is an [IndexError]. *)
Definition gs_getitem (gs : GridSpec) (i : Z) : result Z :=
  let size := nrows gs * ncols gs in
  let j := if i <? 0 then i + size else i in
  if (0 <=? j) && (j <? size) then Return j else Raise IndexError.

(** [plt.subplot(gs[i])]: a new axes on the cell, which becomes the
    current axes. *)
Definition plt_subplot (fig : Figure) (gs : GridSpec) (i : Z) : result (Figure * nat) :=
  cell ← gs_getitem gs i;
  let ax := length (fig_axes fig) in
  Return (mkFigure (figsize fig) (fig_axes fig ++ [new_axes cell]) ax
            (fig_texts fig) (fig_images fig) (subplotpars fig), ax).

Definition update_axes (fig : Figure) (ax : nat) (f : Axes -> Axes) : Figure :=
  mkFigure (figsize fig) (alter f ax (fig_axes fig)) (current_axes fig)
    (fig_texts fig) (fig_images fig) (subplotpars fig).

Definition add_fill (x : list Timestamp) (y1 y2 : list Q) (color : string)
    (alpha : Q) (a : Axes) : Axes :=
  mkAxes (subplotspec a) (fills a ++ [mkFill x y1 y2 color alpha]) (xlim a) (ylim a)
    (xticks a) (yticks a) (spine_linewidth a) (spine_hidden a) (texts a).

Definition set_xlim (lim : Q * Q) (a : Axes) : Axes :=
  mkAxes (subplotspec a) (fills a) (Some lim) (ylim a)
    (xticks a) (yticks a) (spine_linewidth a) (spine_hidden a) (texts a).

Definition set_ylim (lim : Q * Q) (a : Axes) : Axes :=
  mkAxes (subplotspec a) (fills a) (xlim a) (Some lim)
    (xticks a) (yticks a) (spine_linewidth a) (spine_hidden a) (texts a).

Definition set_xticks (ticks : list Q) (a : Axes) : Axes :=
  mkAxes (subplotspec a) (fills a) (xlim a) (ylim a)
    (Some ticks) (yticks a) (spine_linewidth a) (spine_hidden a) (texts a).

Definition set_yticks (ticks : list Q) (a : Axes) : Axes :=
  mkAxes (subplotspec a) (fills a) (xlim a) (ylim a)
    (xticks a) (Some ticks) (spine_linewidth a) (spine_hidden a) (texts a).

(** [ax.spines[side].set_linewidth(w)]; the last width set is in front. *)
Definition set_linewidth (side : Side) (w : Q) (a : Axes) : Axes :=
  mkAxes (subplotspec a) (fills a) (xlim a) (ylim a)
    (xticks a) (yticks a) ((side, w) :: spine_linewidth a) (spine_hidden a) (texts a).

(** [ax.spines[side].set_visible(False)]. *)
Definition set_invisible (side : Side) (a : Axes) : Axes :=
  mkAxes (subplotspec a) (fills a) (xlim a) (ylim a)
    (xticks a) (yticks a) (spine_linewidth a) (side :: spine_hidden a) (texts a).

Definition add_text (t : Text) (a : Axes) : Axes :=
  mkAxes (subplotspec a) (fills a) (xlim a) (ylim a)
    (xticks a) (yticks a) (spine_linewidth a) (spine_hidden a) (texts a ++ [t]).

(** [ax.fill_between(x, y1, y2, color=..., alpha=...)] on axes number
    [ax]: the area between the curves [y1] and [y2] over [x].  Matplotlib
    raises [TypeError] for a series without samples. *)
Definition fill_between (fig : Figure) (ax : nat) (x : list Timestamp) (y1 y2 : list Q)
    (color : string) (alpha : Q) : result Figure :=
  match x with
  | [] => Raise TypeError
  | _ :: _ => Return (update_axes fig ax (add_fill x y1 y2 color alpha))
  end.

(** [plt.text(...)] adds the text to the current axes. *)
Definition plt_text (fig : Figure) (t : Text) : Figure :=
  update_axes fig (current_axes fig) (add_text t).

(** [fig.text(...)]. *)
Definition fig_text (fig : Figure) (t : Text) : Figure :=
  mkFigure (figsize fig) (fig_axes fig) (current_axes fig)
    (fig_texts fig ++ [t]) (fig_images fig) (subplotpars fig).

(** [fig.figimage(im, xo, yo)]. *)
Definition figimage (fig : Figure) (im : list (list Q)) (xo yo : Z) : Figure :=
  mkFigure (figsize fig) (fig_axes fig) (current_axes fig)
    (fig_texts fig) (fig_images fig ++ [(im, xo, yo)]) (subplotpars fig).

(** [fig.subplots_adjust(...)]. *)
Definition subplots_adjust (fig : Figure) (pars : list (string * Q)) : Figure :=
  mkFigure (figsize fig) (fig_axes fig) (current_axes fig)
    (fig_texts fig) (fig_images fig) (Some pars).

(** ** [cal_draw.py] *)

Definition moon_icon : string := "0ABCDEFGHIJKLM@NOPQRSTUVWXYZ".

Definition day_names : list string :=
  ["Sunday"; "Monday"; "Tuesday"; "Wednesday"; "Thursday"; "Friday"; "Saturday"]%string.

Section month_page.

Context (env : Env) (tide_o : Tides) (sun_o moon_o : Astro).

(** The variables of [month_page] that the nested function reads. *)
Context (gs : GridSpec) (tide_min tide_max : Q) (time_zone : string).

(** The nested function [_plot_a_date(grid_index, date)], for the figure
    being drawn: the figure with the two daily subplots, and the handles
    [ax1], [ax2]. *)
Definition _plot_a_date (fig : Figure) (grid_index : Z) (date : string)
  : result (Figure * nat * nat) :=
  day_of_sun ← dict_get (heights sun_o) date;
  day_of_moon ← dict_get (heights moon_o) date;
  day_of_tide ← dict_get (all_tides tide_o) date;
  let Si := index day_of_sun in
  let Mi := index day_of_moon in
  let Ti := index day_of_tide in
  let Sz := replicate (length Si) 0%Q in
  let Mz := replicate (length Mi) 0%Q in
  let Tz := replicate (length Ti) 0%Q in
  start_time ← to_datetime (date +:+ " 00:00");
  start_time ← tz_localize env start_time time_zone;
  let start_time := date2num env start_time in
  stop_time ← to_datetime (date +:+ " 23:59");
  stop_time ← tz_localize env stop_time time_zone;
  let stop_time := date2num env stop_time in
  '(fig, ax1) ← plt_subplot fig gs grid_index;
  fig ← fill_between fig ax1 Si (values day_of_sun) Sz "#FFEB00" 1%Q;
  fig ← fill_between fig ax1 Mi (values day_of_moon) Mz "#D7A8A8" 0.2%Q;
  let fig := update_axes fig ax1 (set_xlim (start_time, stop_time)) in
  let fig := update_axes fig ax1 (set_ylim (0%Q, 1%Q)) in
  let fig := update_axes fig ax1 (set_xticks []) in
  let fig := update_axes fig ax1 (set_yticks []) in
  let fig := foldl (fun fig axis => update_axes fig ax1 (set_linewidth axis 1.5%Q)) fig
               [spine_top; spine_left; spine_right] in
  let fig := update_axes fig ax1 (set_invisible spine_bottom) in
  first ← py_index (index day_of_sun) 0;
  let fig := plt_text fig (mkText 0.05%Q 0.73%Q (PyInt (ts_day first)) "left"
                             (PyInt 12) "Foglihten" (transAxes ax1)) in
  phase ← dict_get (phase_day_num moon_o) date;
  icon ← py_index (list_ascii_of_string moon_icon) phase;
  let fig := plt_text fig (mkText 0.96%Q 0.69%Q (PyStr (String icon EmptyString)) "right"
                             (PyInt 12) "moon phases" (transAxes ax1)) in
  '(fig, ax2) ← plt_subplot fig gs (grid_index + 7);
  fig ← fill_between fig ax2 Ti (values day_of_tide) Tz "#52ABB7" 0.8%Q;
  let fig := update_axes fig ax2 (set_xlim (start_time, stop_time)) in
  let fig := update_axes fig ax2 (set_ylim (tide_min, tide_max)) in
  let fig := update_axes fig ax2 (set_xticks []) in
  let fig := update_axes fig ax2 (set_yticks []) in
  let fig := foldl (fun fig axis => update_axes fig ax2 (set_linewidth axis 1.5%Q)) fig
               [spine_bottom; spine_left; spine_right] in
  let fig := update_axes fig ax2 (set_linewidth spine_top 0.5%Q) in
  Return (fig, ax1, ax2).

End month_page.

(** Line 172: the column of the first day, Sunday being column 0. *)
Definition init_day_of (month_string : string) : result Z :=
  first_day ← to_datetime (month_string +:+ "-01");
  Return ((dayofweek first_day + 1) mod 7).

(** Lines 177 to 180: the cursor after the day that was just plotted. *)
Definition next_gridnum (gridnum : Z) (day : string) : result Z :=
  t ← to_datetime day;
  if dayofweek t =? 5
  then Return (gridnum + 8)
  else Return (gridnum + 1).

(** One turn of the loop over the days: the state is the figure, the list
    [daily_axes] and the cursor [gridnum]. *)
Definition plot_day (env : Env) (tide_o : Tides) (sun_o moon_o : Astro) (gs : GridSpec)
    (tide_min tide_max : Q) (time_zone : string)
    (day : string) (st : Figure * list nat * Z) : result (Figure * list nat * Z) :=
  let '(fig, daily_axes, gridnum) := st in
  '(fig, ax, _) ← _plot_a_date env tide_o sun_o moon_o gs tide_min tide_max time_zone
                     fig gridnum day;
  let daily_axes := daily_axes ++ [ax] in
  gridnum ← next_gridnum gridnum day;
  Return (fig, daily_axes, gridnum).

(** The cursor alone: the loop over the days without the drawing, which
    records the value of [gridnum] at which each day is plotted. *)
Definition cursor_step (day : string) (st : list Z * Z) : result (list Z * Z) :=
  let '(cells, gridnum) := st in
  gridnum' ← next_gridnum gridnum day;
  Return (cells ++ [gridnum], gridnum').

Definition grid_indices (month_string : string) : result (list Z) :=
  init_day ← init_day_of month_string;
  '(cells, _) ← for_gen (days_in_month month_string) cursor_step ([], init_day);
  Return cells.

(** The weekday header above the axes of a date of the first week. *)
Definition weekday_header (init_day : Z) (daily_axes : list nat) (i : Z) (fig : Figure)
  : result Figure :=
  name ← py_index day_names i;
  ax ← py_index daily_axes (i - init_day);
  Return (plt_text fig (mkText 0.5%Q 1.08%Q (PyStr name) "center" (PyInt 12) "Foglihten"
                          (transAxes ax))).

(** An empty pair of boxes on the top row, before the first day. *)
Definition blank_box (gs : GridSpec) (init_day : Z) (i : Z) (fig : Figure) : result Figure :=
  '(fig, temp_ax) ← plt_subplot fig gs i;
  '(fig, temp2_ax) ← plt_subplot fig gs (i + 7);
  let fig := update_axes fig temp_ax (set_xticks []) in
  let fig := update_axes fig temp_ax (set_yticks []) in
  let fig := update_axes fig temp2_ax (set_xticks []) in
  let fig := update_axes fig temp2_ax (set_yticks []) in
  let fig := foldl (fun fig axis =>
                 update_axes (update_axes fig temp_ax (set_linewidth axis 0.5%Q))
                   temp2_ax (set_linewidth axis 0.5%Q)) fig [spine_left; spine_right] in
  let fig := if i =? 0
             then update_axes (update_axes fig temp_ax (set_linewidth spine_left 1.5%Q))
                    temp2_ax (set_linewidth spine_left 1.5%Q)
             else fig in
  let fig := if i =? init_day - 1
             then update_axes (update_axes fig temp_ax (set_linewidth spine_right 1.5%Q))
                    temp2_ax (set_linewidth spine_right 1.5%Q)
             else fig in
  let fig := update_axes fig temp_ax (set_linewidth spine_bottom 0.0%Q) in
  let fig := update_axes fig temp2_ax (set_linewidth spine_top 0.0%Q) in
  let fig := update_axes fig temp_ax (set_linewidth spine_top 1.5%Q) in
  let fig := update_axes fig temp2_ax (set_linewidth spine_bottom 1.5%Q) in
  name ← py_index day_names i;
  Return (plt_text fig (mkText 0.5%Q 1.08%Q (PyStr name) "center" (PyInt 12) "Foglihten"
                          (transAxes temp_ax))).

(** The body of the [try]: read, decode and place the logo. *)
Definition place_logo (env : Env) (fig : Figure) : result Figure :=
  logo ← get_data env "cal_draw" "graphics/logo.png";
  im ← Image_open env (default [] logo);
  im ← (if np_float env
        then Return (map (map (fun px => (inject_Z px / 255)%Q)) im)
        else Raise AttributeError);
  Return (figimage fig im 505 70).

(** [month_page] up to the [try] statement: the grid of the daily plots,
    the empty boxes, the annotations and the titles.  Nothing is printed
    here. *)
Definition month_page_layout (env : Env) (month_string : string) (tide_o : Tides)
    (sun_o moon_o : Astro) : result Figure :=
  let fig := plt_figure (8.5%Q, 11%Q) in
  let tide_min := annual_min tide_o in
  let tide_max := annual_max tide_o in
  let place_name := station_name tide_o +:+ ", " +:+ state tide_o in
  let time_zone := timezone tide_o in
  month_title ← to_datetime month_string;
  let month_title := strftime "%B" month_title in
  let year_title := year tide_o in
  let gs := mkGridSpec 12 7 in
  let daily_axes := [] in
  init_day ← init_day_of month_string;
  let gridnum := init_day in
  '(fig, daily_axes, gridnum) ←
    for_gen (days_in_month month_string)
      (plot_day env tide_o sun_o moon_o gs tide_min tide_max time_zone)
      (fig, daily_axes, gridnum);
  let fig := subplots_adjust fig
               [("left", 0.05%Q); ("right", 0.95%Q); ("bottom", 0.1%Q); ("top", 0.8%Q);
                ("hspace", 0.0%Q); ("wspace", 0.0%Q)]%string in
  fig ← for_list (range init_day 7) (weekday_header init_day daily_axes) fig;
  fig ← for_list (range 0 init_day) (blank_box gs init_day) fig;
  let fig := fig_text fig (mkText 0.05%Q 0.875%Q (PyStr month_title) "left"
                             (PyStr "72") "Foglihten" transFigure) in
  let fig := fig_text fig (mkText 0.92%Q 0.875%Q (PyStr year_title) "right"
                             (PyStr "72") "Foglihten" transFigure) in
  let fig := fig_text fig (mkText 0.92%Q 0.1%Q (PyStr place_name) "right"
                             (PyStr "16") "Foglihten" transFigure) in
  let fig := fig_text fig (mkText 0.92%Q 0.13%Q (PyStr "Sun * Moon * Tide") "right"
                             (PyStr "36") "FoglihtenNo01" transFigure) in
  Return fig.

(** [month_page]: the figure and what was printed.  The handler of the
    [try] catches the subclasses of [Exception] and prints the message it
    builds with ['Could not load logo image. Error: ' + e]. *)
Definition month_page (env : Env) (month_string : string) (tide_o : Tides)
    (sun_o moon_o : Astro) : result (Figure * list pyval) :=
  fig ← month_page_layout env month_string tide_o sun_o moon_o;
  match place_logo env fig with
  | Return fig => Return (fig, [])
  | Raise e =>
      if is_Exception e then
        message ← py_add (PyStr "Could not load logo image. Error: ") (PyExc e);
        Return (fig, [message])
      else Raise e
  end.

(** A PDF document: its pages and its information dictionary. *)
Record Pdf : Type := mkPdf {
  pdf_file_name : string;
  pdf_pages : list Figure;
  pdf_Title : string;
  pdf_Author : string;
  pdf_Subject : string;
  pdf_CreationDate : option Timestamp
}.

(** One turn of the loop over the months: the state is the pages saved so
    far and the lines printed so far. *)
Definition save_month (env : Env) (tide_obj : Tides) (sun_obj moon_obj : Astro)
    (month : string) (st : list Figure * list pyval) : result (list Figure * list pyval) :=
  let '(pages, stdout) := st in
  '(monthfig, printed) ← month_page env month tide_obj sun_obj moon_obj;
  let stdout := stdout ++ printed ++ [PyStr (month +:+ " figure created, now saving...")] in
  let pages := pages ++ [monthfig] in
  let stdout := stdout ++ [PyStr ("Saved " +:+ month)] in
  Return (pages, stdout).

(** [generate_annual_calendar]: the document written and the lines
    printed, when no exception escapes. *)
Definition generate_annual_calendar (env : Env) (tide_obj : Tides) (sun_obj moon_obj : Astro)
    (file_name : string) : result (Pdf * list pyval) :=
  '(pages, stdout) ←
    for_gen (months_in_year (year tide_obj)) (save_month env tide_obj sun_obj moon_obj)
      ([], []);
  Return (mkPdf file_name pages
            ("Sun * Moon * Tide " +:+ year tide_obj +:+ " Calendar")
            "Sara Hendrix, CruzViz"
            (station_name tide_obj +:+ ", " +:+ state tide_obj)
            (Some (timestamp_now env)), stdout).

(** ** [__main__.py] *)

(** What the script reaches besides [cal_draw]: whether a path names a
    file, and the constructors [Tides(filename)] and
    [Astro(latitude, longitude, timezone, year, name)] of the modules
    [tides] and [astro], which are not part of the sources. *)
Record World : Type := mkWorld {
  isfile : string -> bool;
  new_Tides : string -> result Tides;
  new_Astro : Q -> Q -> string -> string -> string -> result Astro
}.

(** The exception that ends a run: the [IOError] that the script raises
    itself, with its message, or one that came out of a call. *)
Inductive script_exc : Type :=
| IOError (message : string)
| Uncaught (e : exc).

(** The script from line 14 on, for the parsed argument [args.filename]: the
    exception that ends the run, or else the lines printed and the document
    written. *)
Definition main (world : World) (env : Env) (filename : string)
  : script_exc + (list pyval * Pdf) :=
  if negb (isfile world filename) then inl (IOError ("Cannot find " +:+ filename))
  else
    let stdout :=
      [PyStr (("Making Sun * Moon * Tides Calendar with " +:+ "input file ") +:+ filename)] in
    match new_Tides world filename with
    | Raise e => inl (Uncaught e)
    | Return tides =>
        let stdout := stdout ++ [PyStr ((station_name tides +:+ ", ") +:+ state tides)] in
        match new_Astro world (latitude tides) (longitude tides) (timezone tides)
                (year tides) "Sun" with
        | Raise e => inl (Uncaught e)
        | Return sun =>
            let stdout := stdout ++ [PyStr "Sun calculations complete"] in
            match new_Astro world (latitude tides) (longitude tides) (timezone tides)
                    (year tides) "Moon" with
            | Raise e => inl (Uncaught e)
            | Return moon =>
                let stdout := stdout ++ [PyStr "Moon calculations complete"] in
                let stdout := stdout ++ [PyStr "Starting to draw calendar now."] in
                match generate_annual_calendar env tides sun moon "testcal" with
                | Raise e => inl (Uncaught e)
                | Return (pdf, printed) =>
                    inr ((stdout ++ printed)
                         ++ [PyStr "Calendar complete. Find output testcal.pdf @@@@"],
                         pdf)
                end
            end
        end
    end.

(** * The vocabulary of the properties *)

(** The strings that name a month and a date, as the generators yield them. *)
Definition year_month (y m : Z) : string := pad4 y +:+ "-" +:+ pad2 m.

Definition date_string (y m d : Z) : string := year_month y m +:+ "-" +:+ pad2 d.

(** The timestamp of a calendar date and a time of day. *)
Definition timestamp_at (y m d hour minute : Z) : Timestamp :=
  mkTimestamp (ymd2ord y m d * 1440 + hour * 60 + minute).

(** The months whose first day and whose end lie in
    [Timestamp.min .. Timestamp.max]: October 1677 to March 2262. *)
Definition valid_year_month (y m : Z) : Prop :=
  1 <= m <= 12 /\ 1677 * 12 + 10 <= y * 12 + m <= 2262 * 12 + 3.

Definition gen_of_list (items : list string) : Gen := foldr GYield GStop items.

Fixpoint gen_items (g : Gen) : list string :=
  match g with
  | GYield item rest => item :: gen_items rest
  | _ => []
  end.

(** The length of a month in the words of the specification: 28 or 29 days
    for February, by the leap year rule, 30 days for April, June, September
    and November, 31 days otherwise. *)
Definition calendar_days (y m : Z) : Z :=
  if m =? 2 then
    if (y mod 4 =? 0) && (negb (y mod 100 =? 0) || (y mod 400 =? 0)) then 29 else 28
  else if (m =? 4) || (m =? 6) || (m =? 9) || (m =? 11) then 30
  else 31.

(** The cell of the day that comes [k] days after the first one, when the
    first day is in column [init_day]: week [(init_day + k) / 7] starts at
    cell [14 * week], and the column is [(init_day + k) mod 7]. *)
Definition cell_of (init_day k : Z) : Z :=
  14 * ((init_day + k) / 7) + (init_day + k) mod 7.

(** The illumination axes that [_plot_a_date] leaves on the figure. *)
Definition sun_moon_axes (cell : Z) (day_of_sun day_of_moon : Series)
    (start_time stop_time : Q) (first : Timestamp) (icon : ascii) (ax1 : nat) : Axes :=
  add_text (mkText 0.96%Q 0.69%Q (PyStr (String icon EmptyString)) "right"
              (PyInt 12) "moon phases" (transAxes ax1))
    (add_text (mkText 0.05%Q 0.73%Q (PyInt (ts_day first)) "left"
                 (PyInt 12) "Foglihten" (transAxes ax1))
       (set_invisible spine_bottom
          (set_linewidth spine_right 1.5%Q
             (set_linewidth spine_left 1.5%Q
                (set_linewidth spine_top 1.5%Q
                   (set_yticks []
                      (set_xticks []
                         (set_ylim (0%Q, 1%Q)
                            (set_xlim (start_time, stop_time)
                               (add_fill (index day_of_moon) (values day_of_moon)
                                  (replicate (length (index day_of_moon)) 0%Q) "#D7A8A8" 0.2%Q
                                  (add_fill (index day_of_sun) (values day_of_sun)
                                     (replicate (length (index day_of_sun)) 0%Q) "#FFEB00" 1%Q
                                     (new_axes cell)))))))))))).

(** The tide axes that [_plot_a_date] leaves on the figure. *)
Definition tide_axes (cell : Z) (day_of_tide : Series) (start_time stop_time : Q)
    (tide_min tide_max : Q) : Axes :=
  set_linewidth spine_top 0.5%Q
    (set_linewidth spine_right 1.5%Q
       (set_linewidth spine_left 1.5%Q
          (set_linewidth spine_bottom 1.5%Q
             (set_yticks []
                (set_xticks []
                   (set_ylim (tide_min, tide_max)
                      (set_xlim (start_time, stop_time)
                         (add_fill (index day_of_tide) (values day_of_tide)
                            (replicate (length (index day_of_tide)) 0%Q) "#52ABB7" 0.8%Q
                            (new_axes cell))))))))).

(** What [_plot_a_date] has done for [date] at the cursor [grid_index]: the
    lookups, the limits of the day and the two axes it left, the first of
    them being axes number [ax1] of the figure. *)
Definition rendered (env : Env) (tide_o : Tides) (sun_o moon_o : Astro) (gs : GridSpec)
    (tide_min tide_max : Q) (time_zone : string)
    (date : string) (grid_index : Z) (ax1 : nat) (A1 A2 : Axes) : Prop :=
  exists day_of_sun day_of_moon day_of_tide t0 t1 off0 off1 first phase icon cell1 cell2,
    heights sun_o !! date = Some day_of_sun
    /\ heights moon_o !! date = Some day_of_moon
    /\ all_tides tide_o !! date = Some day_of_tide
    /\ to_datetime (date +:+ " 00:00") = Return t0
    /\ tz_utcoffset env time_zone t0 = Return off0
    /\ to_datetime (date +:+ " 23:59") = Return t1
    /\ tz_utcoffset env time_zone t1 = Return off1
    /\ gs_getitem gs grid_index = Return cell1
    /\ py_index (index day_of_sun) 0 = Return first
    /\ phase_day_num moon_o !! date = Some phase
    /\ py_index (list_ascii_of_string moon_icon) phase = Return icon
    /\ gs_getitem gs (grid_index + 7) = Return cell2
    /\ A1 = sun_moon_axes cell1 day_of_sun day_of_moon
              (date2num env (mkAware t0 time_zone off0))
              (date2num env (mkAware t1 time_zone off1)) first icon ax1
    /\ A2 = tide_axes cell2 day_of_tide
              (date2num env (mkAware t0 time_zone off0))
              (date2num env (mkAware t1 time_zone off1)) tide_min tide_max.

(** [a'] is [a] with, at most, further texts attached. *)
Definition same_plot (a a' : Axes) : Prop :=
  subplotspec a = subplotspec a' /\ fills a = fills a'
  /\ xlim a = xlim a' /\ ylim a = ylim a'
  /\ xticks a = xticks a' /\ yticks a = yticks a'
  /\ spine_linewidth a = spine_linewidth a' /\ spine_hidden a = spine_hidden a'
  /\ texts a `prefix_of` texts a'.

(** Every axes of [fig] is still on [fig'], at its place. *)
Definition grows (fig fig' : Figure) : Prop :=
  forall (i : nat) a, fig_axes fig !! i = Some a ->
    exists a', fig_axes fig' !! i = Some a' /\ same_plot a a'.

(** Axes [l], the first ones of a figure, stay as they are. *)
Definition kept (l : list Axes) (fig : Figure) : Prop :=
  exists extra, fig_axes fig = l ++ extra.

(** The date has an entry in each of the per-day lookups. *)
Definition has_entries (tide_o : Tides) (sun_o moon_o : Astro) (date : string) : Prop :=
  is_Some (heights sun_o !! date) /\ is_Some (heights moon_o !! date)
  /\ is_Some (all_tides tide_o !! date) /\ is_Some (phase_day_num moon_o !! date).

(** What the entries of the date [y-m-d] need for [_plot_a_date] to get
    past them: the time zone of the station localizes 00:00 and 23:59 of the
    date, the two wall-clock times that the code localizes; a series that
    is there, of the Sun, of the Moon or of the tide, has at least one
    sample; and a phase index that is there is an index of the table of
    glyphs. *)
Definition well_formed (env : Env) (tide_o : Tides) (sun_o moon_o : Astro) (y m d : Z)
  : Prop :=
  let date := date_string y m d in
  (exists off, tz_utcoffset env (timezone tide_o) (timestamp_at y m d 0 0) = Return off)
  /\ (exists off, tz_utcoffset env (timezone tide_o) (timestamp_at y m d 23 59) = Return off)
  /\ (forall s, heights sun_o !! date = Some s -> samples s <> [])
  /\ (forall s, heights moon_o !! date = Some s -> samples s <> [])
  /\ (forall s, all_tides tide_o !! date = Some s -> samples s <> [])
  /\ (forall p, phase_day_num moon_o !! date = Some p -> -28 <= p < 28).

Definition example_dates : list string :=
  concat (map (fun month => gen_items (days_in_month month))
            (gen_items (months_in_year "2015"))).

(** One series for every date: two samples on the first of February. *)
Definition example_series : Series :=
  mkSeries (Some "UTC"%string)
    [(timestamp_at 2015 2 1 8 0, 0.25%Q); (timestamp_at 2015 2 1 20 0, 0.5%Q)].

Definition example_lookup {A : Type} (v : A) : gmap string A :=
  list_to_map (map (fun date => (date, v)) example_dates).

Definition example_tides : Tides :=
  mkTides "Santa Cruz" "CA" 36.9%Q (-122.0)%Q "US/Pacific" "2015" (-1.5)%Q 6.5%Q
    (example_lookup example_series).

Definition example_sun : Astro := mkAstro (example_lookup example_series) ∅.

Definition example_moon : Astro :=
  mkAstro (example_lookup example_series) (example_lookup 14).

(** The Sun context in which the series of the 14th of February begins with
    a sample of the 14th of March. *)
Definition example_sun_march : Astro :=
  mkAstro (<["2015-02-14"%string :=
               mkSeries (Some "UTC"%string) [(timestamp_at 2015 3 14 8 0, 0.25%Q)]]>
             (example_lookup example_series)) ∅.

(** The tide context whose series of the first of February has no sample. *)
Definition example_tides_empty : Tides :=
  mkTides "Santa Cruz" "CA" 36.9%Q (-122.0)%Q "US/Pacific" "2015" (-1.5)%Q 6.5%Q
    (<["2015-02-01"%string := mkSeries (Some "UTC"%string) []]>
       (example_lookup example_series)).

(** The tide context without the tenth of February. *)
Definition example_tides_gap : Tides :=
  mkTides "Santa Cruz" "CA" 36.9%Q (-122.0)%Q "US/Pacific" "2015" (-1.5)%Q 6.5%Q
    (delete "2015-02-10"%string (example_lookup example_series)).

Definition example_env : Env :=
  mkEnv (fun _ _ => Return (-480))
        (fun a => inject_Z (value (wall a) - utcoffset a))
        (fun _ _ => Return (Some [137; 80; 78; 71]))
        (fun bytes => Return [bytes])
        true
        (timestamp_at 2015 1 1 12 0).

(** The same environment without the file of the logo. *)
Definition example_env_no_logo : Env :=
  mkEnv (fun _ _ => Return (-480))
        (fun a => inject_Z (value (wall a) - utcoffset a))
        (fun _ _ => Raise (OtherException "FileNotFoundError"))
        (fun bytes => Return [bytes])
        true
        (timestamp_at 2015 1 1 12 0).

(** The name of the weekday of column [i], Sunday being column 0. *)
Definition day_name (i : Z) : string := default ""%string (day_names !! Z.to_nat i).

(** The header of a weekday column, placed in the coordinates of axes
    number [ax]. *)
Definition header_text (name : string) (ax : nat) : Text :=
  mkText 0.5%Q 1.08%Q (PyStr name) "center" (PyInt 12) "Foglihten" (transAxes ax).

(** The cells that the axes of a figure occupy, in the order in which the
    axes were created. *)
Definition cells_of (fig : Figure) : list Z := map subplotspec (fig_axes fig).

(** All the texts attached to the axes of a figure. *)
Definition axes_texts (fig : Figure) : list Text := concat (map texts (fig_axes fig)).

(** [a] after the texts [ts] were attached to it, one after the other. *)
Definition add_texts (ts : list Text) (a : Axes) : Axes :=
  foldl (fun a t => add_text t a) a ts.

(** Everything of a figure but its axes is the same in [fig']. *)
Definition same_furniture (fig fig' : Figure) : Prop :=
  figsize fig' = figsize fig /\ fig_texts fig' = fig_texts fig
  /\ fig_images fig' = fig_images fig /\ subplotpars fig' = subplotpars fig.

(** The cells of the two axes of each day, by the closed form of the
    cursor, and the cells of the empty boxes before the first day. *)
Definition day_cells (init_day n : Z) : list Z :=
  concat (map (fun k => [cell_of init_day k; cell_of init_day k + 7]) (seqZ 0 n)).

Definition blank_cells (init_day : Z) : list Z :=
  concat (map (fun i => [i; i + 7]) (seqZ 0 init_day)).

(** A world in which the tide file is there and the constructors give the
    contexts of the example. *)
Definition example_world : World :=
  mkWorld (fun path => String.eqb path "9413745_annual.txt")
          (fun _ => Return example_tides)
          (fun _ _ _ _ name => Return (if String.eqb name "Sun" then example_sun
                                        else example_moon)).

(** * Properties *)

(** ** The loops of the generators, one turn at a time *)

Lemma days_loop_unfold_step current_date end_date :
  days_loop current_date end_date =
  if ts_ltb current_date end_date then
    GYield (strftime "%Y-%m-%d" current_date)
      match ts_add current_date (OffsetDays 1) with
      | Return next => days_loop next end_date
      | Raise e => GRaise e
      end
  else GStop.
Proof.
  funelim (days_loop current_date end_date).
  - rewrite e. reflexivity.
  - rewrite Hlt, Hnext. reflexivity.
  - rewrite Hlt, e1. reflexivity.
Qed.

Lemma months_loop_unfold_step current_date end_date :
  months_loop current_date end_date =
  if ts_ltb current_date end_date then
    GYield (strftime "%Y-%m" current_date)
      match ts_add current_date (OffsetMonths 1) with
      | Return next => months_loop next end_date
      | Raise e => GRaise e
      end
  else GStop.
Proof.
  funelim (months_loop current_date end_date).
  - rewrite e. reflexivity.
  - rewrite Hlt, Hnext. reflexivity.
  - rewrite Hlt, e1. reflexivity.
Qed.

(** ** Formatting and parsing *)

Lemma digit_of_digit_char n : digit_of (digit_char n) = Some (n mod 10).
Proof.
  assert (n mod 10 = 0 \/ n mod 10 = 1 \/ n mod 10 = 2 \/ n mod 10 = 3 \/ n mod 10 = 4
          \/ n mod 10 = 5 \/ n mod 10 = 6 \/ n mod 10 = 7 \/ n mod 10 = 8 \/ n mod 10 = 9)
    as H by (pose proof (Z.mod_pos_bound n 10); lia).
  unfold digit_char.
  repeat (destruct H as [->|H]; [reflexivity|]). rewrite H. reflexivity.
Qed.

Lemma num2_pad n :
  0 <= n <= 99 -> num2 (digit_char (n / 10)) (digit_char n) = Some n.
Proof.
  intros Hn. unfold num2. rewrite !digit_of_digit_char. cbn.
  f_equal. Z.div_mod_to_equations. lia.
Qed.

Lemma num4_pad n :
  0 <= n <= 9999 ->
  num4 (digit_char (n / 1000)) (digit_char (n / 100)) (digit_char (n / 10)) (digit_char n)
  = Some n.
Proof.
  intros Hn. unfold num4.
  replace (n / 1000) with (n / 100 / 10) by (Z.div_mod_to_equations; lia).
  rewrite (num2_pad (n / 100)) by (Z.div_mod_to_equations; lia). cbn.
  unfold num2. rewrite !digit_of_digit_char. cbn.
  f_equal. Z.div_mod_to_equations. lia.
Qed.

Lemma parse_iso_year_month y m :
  0 <= y <= 9999 -> 0 <= m <= 99 ->
  parse_iso (year_month y m) = Some (y, m, 1, 0, 0).
Proof.
  intros Hy Hm. unfold year_month, pad4, pad2, parse_iso. cbv [String.append].
  change (Ascii.eqb "-" "-") with true. cbv iota.
  rewrite num4_pad, num2_pad by assumption. reflexivity.
Qed.

Lemma parse_iso_date y m d :
  0 <= y <= 9999 -> 0 <= m <= 99 -> 0 <= d <= 99 ->
  parse_iso (date_string y m d) = Some (y, m, d, 0, 0).
Proof.
  intros Hy Hm Hd. unfold date_string, year_month, pad4, pad2, parse_iso.
  cbv [String.append]. change (Ascii.eqb "-" "-") with true. cbv iota.
  rewrite num4_pad, num2_pad by assumption. cbn [mbind option_bind].
  unfold parse_day. change (Ascii.eqb "-" "-") with true. cbv iota.
  rewrite num2_pad by assumption. reflexivity.
Qed.

Lemma parse_iso_date_time y m d (h1 h0 i1 i0 : ascii) h i :
  0 <= y <= 9999 -> 0 <= m <= 99 -> 0 <= d <= 99 ->
  num2 h1 h0 = Some h -> num2 i1 i0 = Some i ->
  parse_iso (date_string y m d +:+
             String " " (String h1 (String h0 (String ":" (String i1 (String i0 ""))))))
  = Some (y, m, d, h, i).
Proof.
  intros Hy Hm Hd Hh Hi. unfold date_string, year_month, pad4, pad2, parse_iso.
  cbv [String.append]. change (Ascii.eqb "-" "-") with true. cbv iota.
  rewrite num4_pad, num2_pad by assumption. cbn [mbind option_bind].
  unfold parse_day. change (Ascii.eqb "-" "-") with true. cbv iota.
  rewrite num2_pad by assumption. cbn [mbind option_bind].
  unfold parse_time. change (Ascii.eqb " " " ") with true.
  change (Ascii.eqb ":" ":") with true. cbn [andb]. cbv iota.
  rewrite Hh, Hi. reflexivity.
Qed.

Lemma to_datetime_fields s y m d h i :
  parse_iso s = Some (y, m, d, h, i) ->
  1 <= y -> 1 <= m <= 12 -> 1 <= d <= month_length y m -> h <= 23 -> i <= 59 ->
  to_datetime s = make_timestamp (ymd2ord y m d * 1440 + h * 60 + i).
Proof.
  intros Hp Hy Hm Hd Hh Hi. unfold to_datetime. rewrite Hp.
  replace (_ && _) with true; [reflexivity|].
  symmetry. rewrite !andb_true_iff, !Z.leb_le. lia.
Qed.

(** ** The fields of a timestamp *)

Lemma toordinal_at y m d mins :
  0 <= mins < 1440 -> toordinal (mkTimestamp (ymd2ord y m d * 1440 + mins)) = ymd2ord y m d.
Proof. intros H. unfold toordinal. cbn. Z.div_mod_to_equations. lia. Qed.

Lemma minute_of_day_at y m d mins :
  0 <= mins < 1440 -> minute_of_day (mkTimestamp (ymd2ord y m d * 1440 + mins)) = mins.
Proof. intros H. unfold minute_of_day. cbn. Z.div_mod_to_equations. lia. Qed.

Lemma fields_at y m d mins t :
  1 <= m <= 12 -> 1 <= d <= month_length y m -> 0 <= mins < 1440 ->
  t = mkTimestamp (ymd2ord y m d * 1440 + mins) ->
  ts_year t = y /\ ts_month t = m /\ ts_day t = d.
Proof.
  intros Hm Hd Hmin ->. unfold ts_year, ts_month, ts_day.
  rewrite toordinal_at, ord2ymd_ymd2ord by assumption. done.
Qed.

Lemma strftime_date y m d mins :
  1 <= m <= 12 -> 1 <= d <= month_length y m -> 0 <= mins < 1440 ->
  strftime "%Y-%m-%d" (mkTimestamp (ymd2ord y m d * 1440 + mins)) = date_string y m d.
Proof.
  intros Hm Hd Hmin.
  destruct (fields_at y m d mins _ Hm Hd Hmin eq_refl) as (Hy' & Hm' & Hd').
  cbn. rewrite Hy', Hm', Hd'. reflexivity.
Qed.

Lemma strftime_year_month y m d mins :
  1 <= m <= 12 -> 1 <= d <= month_length y m -> 0 <= mins < 1440 ->
  strftime "%Y-%m" (mkTimestamp (ymd2ord y m d * 1440 + mins)) = year_month y m.
Proof.
  intros Hm Hd Hmin.
  destruct (fields_at y m d mins _ Hm Hd Hmin eq_refl) as (Hy' & Hm' & Hd').
  cbn. rewrite Hy', Hm'. reflexivity.
Qed.

(** ** The months and years that timestamps can hold *)

Lemma gen_items_of_list items : gen_items (gen_of_list items) = items.
Proof. induction items as [|x l IH]; [done|]. cbn. f_equal. exact IH. Qed.

Lemma TS_MIN_value : TS_MIN = 881871853.
Proof. reflexivity. Qed.

Lemma TS_MAX_value : TS_MAX = 1189317587.
Proof. reflexivity. Qed.

Lemma days_before_year_mono y1 y2 :
  y1 <= y2 -> days_before_year y1 <= days_before_year y2.
Proof. intros H. unfold days_before_year. cbv zeta. Z.div_mod_to_equations. lia. Qed.

Lemma days_before_month_bounds y m :
  1 <= m <= 12 -> 0 <= days_before_month y m <= 335.
Proof.
  intros Hm. unfold days_before_month.
  assert (m = 1 \/ m = 2 \/ m = 3 \/ m = 4 \/ m = 5 \/ m = 6 \/ m = 7 \/ m = 8
          \/ m = 9 \/ m = 10 \/ m = 11 \/ m = 12) as H by lia.
  destruct (isleap y);
    repeat (destruct H as [->|H]; [vm_compute; split; discriminate|]);
    subst; vm_compute; split; discriminate.
Qed.

Lemma days_before_month_mono y m1 m2 :
  1 <= m1 -> m1 <= m2 -> m2 <= 12 -> days_before_month y m1 <= days_before_month y m2.
Proof.
  intros H1 H2 H3. unfold days_before_month.
  assert (forall k : nat, m1 + Z.of_nat k <= 12 ->
            days_before_month_leap (isleap y) m1
            <= days_before_month_leap (isleap y) (m1 + Z.of_nat k)) as Hk.
  { induction k as [|k IH]; intros Hle.
    - rewrite Z.add_0_r. lia.
    - replace (m1 + Z.of_nat (S k)) with (m1 + Z.of_nat k + 1) by lia.
      rewrite days_before_month_succ by lia.
      pose proof (month_length_bounds y (m1 + Z.of_nat k) ltac:(lia)) as Hb.
      unfold month_length in Hb. specialize (IH ltac:(lia)). lia. }
  specialize (Hk (Z.to_nat (m2 - m1))). rewrite Z2Nat.id in Hk by lia.
  replace (m1 + (m2 - m1)) with m2 in Hk by lia. apply Hk. lia.
Qed.

Lemma in_bounds_within_month y m k :
  valid_year_month y m -> 0 <= k <= month_length y m * 1440 ->
  in_bounds (ymd2ord y m 1 * 1440 + k) = true.
Proof.
  intros [Hm Hym] Hk. unfold in_bounds.
  rewrite TS_MIN_value, TS_MAX_value, andb_true_iff, !Z.leb_le.
  pose proof (ymd2ord_next_month y m Hm) as Hnext.
  pose proof (month_length_bounds y m Hm) as Hlen.
  split.
  - assert (ymd2ord 1677 10 1 <= ymd2ord y m 1) as Hlo.
    { unfold ymd2ord. destruct (decide (y = 1677)) as [->|Hne].
      - pose proof (days_before_month_mono 1677 10 m ltac:(lia) ltac:(lia) ltac:(lia)). lia.
      - pose proof (days_before_year_mono 1678 y ltac:(lia)).
        pose proof (days_before_month_bounds y m Hm).
        change (days_before_year 1677 + days_before_month 1677 10 + 1) with 612421.
        change (days_before_year 1678) with 612512 in *. lia. }
    change (ymd2ord 1677 10 1) with 612421 in Hlo. lia.
  - assert (ymd2ord y m 1 + month_length y m <= ymd2ord 2262 4 1) as Hhi.
    { rewrite <- Hnext. unfold ymd2ord. destruct (decide (y = 2262)) as [->|Hne].
      - assert (m = 1 \/ m = 2 \/ m = 3) as H by lia.
        destruct H as [->|[->| ->]]; vm_compute; discriminate.
      - assert (Hm' : 1 <= m mod 12 + 1 <= 12) by (Z.div_mod_to_equations; lia).
        pose proof (days_before_month_bounds (y + m / 12) (m mod 12 + 1) Hm').
        assert (y + m / 12 <= 2262) by (Z.div_mod_to_equations; lia).
        destruct (decide (y + m / 12 = 2262)) as [E|E].
        + rewrite E. assert (m = 12) as -> by (Z.div_mod_to_equations; lia).
          vm_compute. discriminate.
        + pose proof (days_before_year_mono (y + m / 12) 2261 ltac:(lia)).
          change (days_before_year 2262 + days_before_month 2262 4 + 1) with 825904.
          change (days_before_year 2261) with 825448 in *. lia. }
    change (ymd2ord 2262 4 1) with 825904 in Hhi. lia.
Qed.

(** ** [days_in_month] *)

Lemma to_datetime_year_month y m :
  valid_year_month y m ->
  to_datetime (year_month y m) = Return (timestamp_at y m 1 0 0).
Proof.
  intros Hv. pose proof Hv as [Hm Hym].
  pose proof (month_length_bounds y m Hm) as Hlen.
  rewrite (to_datetime_fields _ y m 1 0 0); try lia.
  - unfold make_timestamp, timestamp_at.
    replace (ymd2ord y m 1 * 1440 + 0 * 60 + 0) with (ymd2ord y m 1 * 1440 + 0) by lia.
    rewrite in_bounds_within_month by (assumption || lia).
    do 2 f_equal; lia.
  - apply parse_iso_year_month; lia.
Qed.

Lemma to_datetime_date y m d h i (h1 h0 i1 i0 : ascii) :
  valid_year_month y m -> 1 <= d <= month_length y m ->
  num2 h1 h0 = Some h -> num2 i1 i0 = Some i -> 0 <= h <= 23 -> 0 <= i <= 59 ->
  to_datetime (date_string y m d) = Return (timestamp_at y m d 0 0)
  /\ to_datetime (date_string y m d +:+
        String " " (String h1 (String h0 (String ":" (String i1 (String i0 ""))))))
     = Return (timestamp_at y m d h i).
Proof.
  intros Hv Hd Hh Hi Hhr Hir. pose proof Hv as [Hm Hym].
  pose proof (month_length_bounds y m Hm) as Hlen.
  assert (forall mins, 0 <= mins < 1440 ->
            make_timestamp (ymd2ord y m d * 1440 + mins)
            = Return (mkTimestamp (ymd2ord y m d * 1440 + mins))) as Hmk.
  { intros mins Hmins. unfold make_timestamp.
    rewrite (ymd2ord_day y m d).
    replace ((ymd2ord y m 1 + (d - 1)) * 1440 + mins)
      with (ymd2ord y m 1 * 1440 + ((d - 1) * 1440 + mins)) by lia.
    rewrite in_bounds_within_month by (assumption || lia). reflexivity. }
  split.
  - rewrite (to_datetime_fields _ y m d 0 0); try lia.
    + replace (ymd2ord y m d * 1440 + 0 * 60 + 0) with (ymd2ord y m d * 1440 + 0) by lia.
      rewrite Hmk by lia. unfold timestamp_at. do 2 f_equal; lia.
    + apply parse_iso_date; lia.
  - rewrite (to_datetime_fields _ y m d h i); try lia.
    + replace (ymd2ord y m d * 1440 + h * 60 + i)
        with (ymd2ord y m d * 1440 + (h * 60 + i)) by lia.
      rewrite Hmk by lia. unfold timestamp_at. do 2 f_equal; lia.
    + apply parse_iso_date_time; (assumption || lia).
Qed.

Lemma days_loop_within_month y m (k : nat) : forall j,
  valid_year_month y m -> 0 <= j -> j + Z.of_nat k = month_length y m ->
  days_loop (mkTimestamp ((ymd2ord y m 1 + j) * 1440))
            (mkTimestamp ((ymd2ord y m 1 + month_length y m) * 1440))
  = gen_of_list (map (date_string y m) (seqZ (1 + j) (Z.of_nat k))).
Proof.
  induction k as [|k IH]; intros j Hv Hj Hjk; pose proof Hv as [Hm Hym];
    rewrite days_loop_unfold_step; unfold ts_ltb; cbn [value].
  - replace j with (month_length y m) by lia. rewrite Z.ltb_irrefl. reflexivity.
  - replace (_ <? _) with true by (symmetry; apply Z.ltb_lt; lia).
    replace ((ymd2ord y m 1 + j) * 1440) with (ymd2ord y m (1 + j) * 1440 + 0)
      by (rewrite (ymd2ord_day y m (1 + j)); lia).
    rewrite strftime_date by lia.
    rewrite seqZ_cons by lia. cbn [map gen_of_list foldr]. f_equal.
    unfold ts_add, make_timestamp. cbn [value].
    replace (ymd2ord y m (1 + j) * 1440 + 0 + 1 * 1440)
      with (ymd2ord y m 1 * 1440 + (j + 1) * 1440)
      by (rewrite (ymd2ord_day y m (1 + j)); lia).
    rewrite in_bounds_within_month by (assumption || lia).
    replace (ymd2ord y m 1 * 1440 + (j + 1) * 1440) with ((ymd2ord y m 1 + (j + 1)) * 1440)
      by lia.
    rewrite (IH (j + 1)) by (assumption || lia).
    do 3 f_equal; lia.
Qed.

Lemma days_in_month_items y m :
  valid_year_month y m ->
  days_in_month (year_month y m)
  = gen_of_list (map (date_string y m) (seqZ 1 (month_length y m))).
Proof.
  intros Hv. pose proof Hv as [Hm Hym].
  pose proof (month_length_bounds y m Hm) as Hlen.
  unfold days_in_month. rewrite to_datetime_year_month by assumption.
  cbn [gen_bind].
  destruct (fields_at y m 1 0 (timestamp_at y m 1 0 0) Hm ltac:(lia) ltac:(lia))
    as (Hy' & Hm' & _).
  { unfold timestamp_at. f_equal. lia. }
  rewrite Hy', Hm'. unfold monthrange.
  replace ((1 <=? m) && (m <=? 12)) with true
    by (symmetry; rewrite andb_true_iff, !Z.leb_le; lia).
  cbn [gen_bind]. unfold ts_add, make_timestamp, timestamp_at. cbn [value].
  replace (ymd2ord y m 1 * 1440 + 0 * 60 + 0 + month_length y m * 1440)
    with (ymd2ord y m 1 * 1440 + month_length y m * 1440) by lia.
  rewrite in_bounds_within_month by (assumption || lia). cbn [gen_bind].
  pose proof (days_loop_within_month y m (Z.to_nat (month_length y m)) 0 Hv
                ltac:(lia) ltac:(lia)) as Hloop.
  rewrite Z2Nat.id in Hloop by lia.
  replace (ymd2ord y m 1 * 1440 + 0 * 60 + 0) with ((ymd2ord y m 1 + 0) * 1440) by lia.
  replace (ymd2ord y m 1 * 1440 + month_length y m * 1440)
    with ((ymd2ord y m 1 + month_length y m) * 1440) by lia.
  exact Hloop.
Qed.

Lemma month_length_calendar_days y m :
  1 <= m <= 12 -> month_length y m = calendar_days y m.
Proof.
  intros Hm. unfold month_length, calendar_days. fold (isleap y).
  assert (m = 1 \/ m = 2 \/ m = 3 \/ m = 4 \/ m = 5 \/ m = 6 \/ m = 7 \/ m = 8
          \/ m = 9 \/ m = 10 \/ m = 11 \/ m = 12) as H by lia.
  destruct (isleap y);
    repeat (destruct H as [->|H]; [reflexivity|]); subst; reflexivity.
Qed.

(** C2. For every valid year-month identifier [YYYY-MM], [days_in_month]
    yields exactly the days of that month: as many date strings as the
    calendar gives the month (28 or 29 for February by the leap year rule,
    30 or 31 otherwise), the [i]-th one being [YYYY-MM-DD] for day [i + 1],
    ten characters long, denoting a date of that year and month, and each
    date earlier than the dates after it. *)
Theorem days_in_month_correct y m :
  valid_year_month y m ->
  exists items,
    days_in_month (year_month y m) = gen_of_list items
    /\ Z.of_nat (length items) = calendar_days y m
    /\ 28 <= calendar_days y m <= 31
    /\ (forall (i : nat) s, items !! i = Some s ->
          s = pad4 y +:+ "-" +:+ pad2 m +:+ "-" +:+ pad2 (1 + Z.of_nat i)
          /\ String.length s = 10%nat
          /\ exists t, to_datetime s = Return t
               /\ ts_year t = y /\ ts_month t = m /\ ts_day t = 1 + Z.of_nat i
               /\ minute_of_day t = 0)
    /\ (forall (i j : nat) si sj ti tj,
          (i < j)%nat -> items !! i = Some si -> items !! j = Some sj ->
          to_datetime si = Return ti -> to_datetime sj = Return tj ->
          value ti < value tj).
Proof.
  intros Hv. pose proof Hv as [Hm Hym].
  pose proof (month_length_bounds y m Hm) as Hlen.
  pose proof (month_length_calendar_days y m Hm) as Hcal.
  exists (map (date_string y m) (seqZ 1 (month_length y m))).
  assert (forall (i : nat) s,
            map (date_string y m) (seqZ 1 (month_length y m)) !! i = Some s ->
            s = date_string y m (1 + Z.of_nat i)
            /\ 1 <= 1 + Z.of_nat i <= month_length y m
            /\ to_datetime s = Return (timestamp_at y m (1 + Z.of_nat i) 0 0)) as Hitem.
  { intros i s Hi. rewrite list_lookup_fmap in Hi.
    destruct (seqZ 1 (month_length y m) !! i) as [d|] eqn:Hd; [|discriminate].
    apply lookup_seqZ in Hd as [-> Hlt]. injection Hi as <-.
    split; [reflexivity|]. split; [lia|].
    apply (to_datetime_date y m (1 + Z.of_nat i) 0 0 "0" "0" "0" "0");
      (assumption || reflexivity || lia). }
  split; [apply days_in_month_items; assumption|].
  split; [rewrite length_map, length_seqZ; lia|].
  split; [lia|]. split.
  - intros i s Hi. destruct (Hitem i s Hi) as (-> & Hd & Ht).
    split; [reflexivity|]. split; [reflexivity|].
    exists (timestamp_at y m (1 + Z.of_nat i) 0 0). split; [exact Ht|].
    destruct (fields_at y m (1 + Z.of_nat i) 0 (timestamp_at y m (1 + Z.of_nat i) 0 0)
                Hm Hd ltac:(lia)) as (Hy' & Hm' & Hd').
    { unfold timestamp_at. f_equal. lia. }
    repeat split; try assumption.
    unfold timestamp_at.
    replace (ymd2ord y m (1 + Z.of_nat i) * 1440 + 0 * 60 + 0)
      with (ymd2ord y m (1 + Z.of_nat i) * 1440 + 0) by lia.
    apply minute_of_day_at. lia.
  - intros i j si sj ti tj Hij Hi Hj Hti Htj.
    destruct (Hitem i si Hi) as (_ & _ & Hti'). destruct (Hitem j sj Hj) as (_ & _ & Htj').
    rewrite Hti' in Hti. rewrite Htj' in Htj.
    injection Hti as <-. injection Htj as <-.
    unfold timestamp_at. cbn [value].
    rewrite (ymd2ord_day y m (1 + Z.of_nat i)), (ymd2ord_day y m (1 + Z.of_nat j)). lia.
Qed.

Lemma days_in_month_correct_witness :
  exists items,
    days_in_month (year_month 2016 2) = gen_of_list items
    /\ Z.of_nat (length items) = calendar_days 2016 2
    /\ 28 <= calendar_days 2016 2 <= 31
    /\ (forall (i : nat) s, items !! i = Some s ->
          s = pad4 2016 +:+ "-" +:+ pad2 2 +:+ "-" +:+ pad2 (1 + Z.of_nat i)
          /\ String.length s = 10%nat
          /\ exists t, to_datetime s = Return t
               /\ ts_year t = 2016 /\ ts_month t = 2 /\ ts_day t = 1 + Z.of_nat i
               /\ minute_of_day t = 0)
    /\ (forall (i j : nat) si sj ti tj,
          (i < j)%nat -> items !! i = Some si -> items !! j = Some sj ->
          to_datetime si = Return ti -> to_datetime sj = Return tj ->
          value ti < value tj).
Proof. apply (days_in_month_correct 2016 2). unfold valid_year_month. lia. Defined.

(** ** [months_in_year] *)

Lemma valid_year_month_of_year y m :
  1678 <= y <= 2261 -> 1 <= m <= 12 -> valid_year_month y m.
Proof. unfold valid_year_month. lia. Qed.

Lemma make_timestamp_first y m :
  valid_year_month y m ->
  make_timestamp (ymd2ord y m 1 * 1440 + 0) = Return (timestamp_at y m 1 0 0).
Proof.
  intros Hv. pose proof Hv as [Hm Hym].
  pose proof (month_length_bounds y m Hm) as Hlen.
  unfold make_timestamp. rewrite in_bounds_within_month by (assumption || lia).
  unfold timestamp_at. do 2 f_equal; lia.
Qed.

Lemma ts_add_months_first y m k :
  1 <= m <= 12 -> 0 <= k ->
  ts_add (timestamp_at y m 1 0 0) (OffsetMonths k)
  = make_timestamp (ymd2ord (y + (m - 1 + k) / 12) ((m - 1 + k) mod 12 + 1) 1 * 1440 + 0).
Proof.
  intros Hm Hk. pose proof (month_length_bounds y m Hm) as Hlen.
  unfold ts_add, timestamp_at.
  replace (ymd2ord y m 1 * 1440 + 0 * 60 + 0) with (ymd2ord y m 1 * 1440 + 0) by lia.
  rewrite toordinal_at, minute_of_day_at, ord2ymd_ymd2ord by lia.
  assert (Hm' : 1 <= (m - 1 + k) mod 12 + 1 <= 12) by (Z.div_mod_to_equations; lia).
  pose proof (month_length_bounds (y + (m - 1 + k) / 12) ((m - 1 + k) mod 12 + 1) Hm').
  rewrite Z.min_l by lia. reflexivity.
Qed.

Lemma months_loop_within_year y (k : nat) : forall m,
  1678 <= y <= 2261 -> 1 <= m -> m + Z.of_nat k = 13 ->
  months_loop (timestamp_at y m 1 0 0) (timestamp_at (y + 1) 1 1 0 0)
  = gen_of_list (map (year_month y) (seqZ m (Z.of_nat k))).
Proof.
  induction k as [|k IH]; intros m Hy Hm Hmk;
    rewrite months_loop_unfold_step; unfold ts_ltb.
  - replace m with 13 by lia.
    replace (timestamp_at y 13 1 0 0) with (timestamp_at (y + 1) 1 1 0 0).
    + rewrite Z.ltb_irrefl. reflexivity.
    + unfold timestamp_at. f_equal.
      pose proof (ymd2ord_next_month y 12 ltac:(lia)) as H.
      change (12 / 12) with 1 in H. change (12 mod 12 + 1) with 1 in H.
      rewrite H. unfold ymd2ord, days_before_month, days_before_month_leap, month_length.
      destruct (isleap y); cbn; lia.
  - assert (Hlt : value (timestamp_at y m 1 0 0) < value (timestamp_at (y + 1) 1 1 0 0)).
    { unfold timestamp_at. cbn [value].
      pose proof (ymd2ord_next_month y 12 ltac:(lia)) as H.
      change (12 / 12) with 1 in H. change (12 mod 12 + 1) with 1 in H.
      pose proof (month_length_bounds y 12 ltac:(lia)).
      assert (ymd2ord y m 1 <= ymd2ord y 12 1).
      { unfold ymd2ord.
        pose proof (days_before_month_mono y m 12 ltac:(lia) ltac:(lia) ltac:(lia)). lia. }
      lia. }
    replace (_ <? _) with true by (symmetry; apply Z.ltb_lt; exact Hlt).
    unfold timestamp_at at 1.
    replace (ymd2ord y m 1 * 1440 + 0 * 60 + 0) with (ymd2ord y m 1 * 1440 + 0) by lia.
    rewrite strftime_year_month by (pose proof (month_length_bounds y m); lia).
    rewrite seqZ_cons by lia. cbn [map gen_of_list foldr]. f_equal.
    rewrite ts_add_months_first by lia.
    replace (m - 1 + 1) with m by lia.
    destruct (decide (m = 12)) as [->|Hne].
    + change (12 / 12) with 1. change (12 mod 12 + 1) with 1.
      rewrite (make_timestamp_first (y + 1) 1) by (unfold valid_year_month; lia).
      rewrite months_loop_unfold_step. unfold ts_ltb. rewrite Z.ltb_irrefl.
      assert (k = 0%nat) as -> by lia. reflexivity.
    + rewrite Z.div_small, Z.mod_small by lia. replace (y + 0) with y by lia.
      rewrite (make_timestamp_first y (m + 1)) by (unfold valid_year_month; lia).
      rewrite (IH (m + 1)) by lia.
      do 3 f_equal; lia.
Qed.

(** C9, as amended. For every four-digit year string whose year lies in
    1678 .. 2261, the years of which every month and the following January
    are timestamps, [months_in_year] yields exactly the twelve identifiers
    [YYYY-01], ..., [YYYY-12] of that year, in this order. *)
Theorem months_in_year_correct y :
  1678 <= y <= 2261 ->
  months_in_year (pad4 y)
  = gen_of_list (map (fun m => pad4 y +:+ "-" +:+ pad2 m) [1; 2; 3; 4; 5; 6; 7; 8; 9; 10; 11; 12])
  /\ length (gen_items (months_in_year (pad4 y))) = 12%nat.
Proof.
  intros Hy.
  assert (months_in_year (pad4 y) = gen_of_list (map (year_month y) (seqZ 1 12))) as H.
  { unfold months_in_year.
    change (pad4 y +:+ "-01") with (year_month y 1).
    rewrite to_datetime_year_month by (unfold valid_year_month; lia).
    cbn [gen_bind]. rewrite ts_add_months_first by lia.
    change ((1 - 1 + 12) / 12) with 1. change ((1 - 1 + 12) mod 12 + 1) with 1.
    rewrite (make_timestamp_first (y + 1) 1) by (unfold valid_year_month; lia).
    cbn [gen_bind]. apply (months_loop_within_year y 12 1); lia. }
  rewrite H. split; [reflexivity|].
  rewrite gen_items_of_list. reflexivity.
Qed.

Lemma months_in_year_correct_witness :
  months_in_year "2015"
  = gen_of_list ["2015-01"; "2015-02"; "2015-03"; "2015-04"; "2015-05"; "2015-06";
                 "2015-07"; "2015-08"; "2015-09"; "2015-10"; "2015-11"; "2015-12"]%string
  /\ length (gen_items (months_in_year "2015")) = 12%nat.
Proof. apply (months_in_year_correct 2015). lia. Defined.

(** The year 9999 is a four-digit year string, and [months_in_year] yields
    nothing for it: its January is beyond [Timestamp.max], and
    [pd.to_datetime] raises before the first identifier is yielded. *)
Lemma months_in_year_9999 :
  months_in_year "9999" = GRaise OutOfBoundsDatetime
  /\ gen_items (months_in_year "9999") = [].
Proof. split; vm_compute; reflexivity. Qed.

(** ** The grid cursor *)

Lemma init_day_of_year_month y m :
  valid_year_month y m ->
  init_day_of (year_month y m) = Return (ymd2ord y m 1 mod 7)
  /\ ymd2ord y m 1 mod 7 = (dayofweek (timestamp_at y m 1 0 0) + 1) mod 7.
Proof.
  intros Hv. pose proof Hv as [Hm Hym].
  pose proof (month_length_bounds y m Hm) as Hlen.
  assert (dayofweek (timestamp_at y m 1 0 0) = (ymd2ord y m 1 + 6) mod 7) as Hdow.
  { unfold dayofweek, timestamp_at.
    replace (ymd2ord y m 1 * 1440 + 0 * 60 + 0) with (ymd2ord y m 1 * 1440 + 0) by lia.
    rewrite toordinal_at by lia. reflexivity. }
  split.
  - unfold init_day_of.
    change (year_month y m +:+ "-01") with (date_string y m 1).
    destruct (to_datetime_date y m 1 0 0 "0" "0" "0" "0" Hv) as [-> _];
      try (reflexivity || lia).
    cbn [mbind result_bind]. rewrite Hdow. f_equal.
    Z.div_mod_to_equations. lia.
  - rewrite Hdow. Z.div_mod_to_equations. lia.
Qed.

Lemma dayofweek_date y m d :
  1 <= m <= 12 -> 1 <= d <= month_length y m ->
  dayofweek (timestamp_at y m d 0 0) = (ymd2ord y m 1 + (d - 1) + 6) mod 7.
Proof.
  intros Hm Hd. unfold dayofweek, timestamp_at.
  replace (ymd2ord y m d * 1440 + 0 * 60 + 0) with (ymd2ord y m d * 1440 + 0) by lia.
  rewrite toordinal_at by lia. rewrite (ymd2ord_day y m d). reflexivity.
Qed.

Lemma next_gridnum_date y m j :
  valid_year_month y m -> 0 <= j < month_length y m ->
  next_gridnum (cell_of (ymd2ord y m 1 mod 7) j) (date_string y m (1 + j))
  = Return (cell_of (ymd2ord y m 1 mod 7) (j + 1)).
Proof.
  intros Hv Hj. pose proof Hv as [Hm Hym].
  unfold next_gridnum.
  destruct (to_datetime_date y m (1 + j) 0 0 "0" "0" "0" "0" Hv) as [-> _];
    try (reflexivity || lia).
  cbn [mbind result_bind]. rewrite dayofweek_date by lia.
  replace (ymd2ord y m 1 + (1 + j - 1) + 6) with (ymd2ord y m 1 + j + 6) by lia.
  unfold cell_of. generalize (ymd2ord y m 1). intros o.
  destruct (Z.eqb_spec ((o + j + 6) mod 7) 5) as [E|E]; f_equal;
    Z.div_mod_to_equations; lia.
Qed.

Lemma cursor_step_unfold day cells gridnum :
  cursor_step day (cells, gridnum)
  = match next_gridnum gridnum day with
    | Return gridnum' => Return (cells ++ [gridnum], gridnum')
    | Raise e => Raise e
    end.
Proof. unfold cursor_step. destruct (next_gridnum gridnum day); reflexivity. Qed.

Lemma cursor_loop y m (k : nat) : forall j cells,
  valid_year_month y m -> 0 <= j -> j + Z.of_nat k <= month_length y m ->
  for_gen (gen_of_list (map (date_string y m) (seqZ (1 + j) (Z.of_nat k)))) cursor_step
    (cells, cell_of (ymd2ord y m 1 mod 7) j)
  = Return (cells ++ map (cell_of (ymd2ord y m 1 mod 7)) (seqZ j (Z.of_nat k)),
            cell_of (ymd2ord y m 1 mod 7) (j + Z.of_nat k)).
Proof.
  induction k as [|k IH]; intros j cells Hv Hj Hjk.
  - cbn. rewrite app_nil_r, Z.add_0_r. reflexivity.
  - rewrite (seqZ_cons (1 + j)), (seqZ_cons j) by lia.
    cbn [map gen_of_list foldr for_gen].
    rewrite cursor_step_unfold, next_gridnum_date by (assumption || lia).
    cbn [mbind result_bind].
    replace (Z.succ (1 + j)) with (1 + (j + 1)) by lia.
    replace (Z.pred (Z.of_nat (S k))) with (Z.of_nat k) by lia.
    fold (gen_of_list (map (date_string y m) (seqZ (1 + (j + 1)) (Z.of_nat k)))).
    rewrite (IH (j + 1)) by (assumption || lia).
    rewrite <- app_assoc. cbn [app].
    replace (Z.succ j) with (j + 1) by lia.
    do 2 f_equal. f_equal. lia.
Qed.

Lemma grid_indices_year_month y m :
  valid_year_month y m ->
  grid_indices (year_month y m)
  = Return (map (cell_of (ymd2ord y m 1 mod 7)) (seqZ 0 (month_length y m))).
Proof.
  intros Hv. pose proof Hv as [Hm Hym].
  pose proof (month_length_bounds y m Hm) as Hlen.
  unfold grid_indices. destruct (init_day_of_year_month y m Hv) as [-> _].
  cbn [mbind result_bind]. rewrite days_in_month_items by assumption.
  pose proof (cursor_loop y m (Z.to_nat (month_length y m)) 0 [] Hv ltac:(lia) ltac:(lia))
    as Hloop.
  rewrite Z2Nat.id in Hloop by lia.
  replace (cell_of (ymd2ord y m 1 mod 7) 0) with (ymd2ord y m 1 mod 7) in Hloop.
  - change (1 + 0) with 1 in Hloop. rewrite Hloop. reflexivity.
  - unfold cell_of. Z.div_mod_to_equations. lia.
Qed.

#[local] Instance cell_of_inj init_day : Inj (=) (=) (cell_of init_day).
Proof. intros a b. unfold cell_of. Z.div_mod_to_equations. lia. Qed.

#[local] Instance add7_inj : Inj (=) (=) (Z.add 7).
Proof. intros a b. lia. Qed.

Lemma cell_of_bounds init_day k :
  0 <= init_day <= 6 -> 0 <= k <= 30 ->
  0 <= cell_of init_day k /\ cell_of init_day k + 7 <= 83.
Proof. intros Hi Hk. unfold cell_of. Z.div_mod_to_equations. lia. Qed.

(** C1. For every month, the cursor starts at [init_day], the weekday of
    the first day of the month with Sunday = 0, which the code computes as
    [(dayofweek + 1) mod 7]; after a date whose [dayofweek] is 5, a Saturday
    with Monday = 0, the cursor advances by 8, after any other date by 1;
    and the illumination cells, at the cursor, and the tide cells, at the
    cursor plus 7, are pairwise distinct over the whole month. *)
Theorem grid_cursor_no_collision y m :
  valid_year_month y m ->
  exists init_day cells,
    to_datetime (year_month y m +:+ "-01") = Return (timestamp_at y m 1 0 0)
    /\ init_day_of (year_month y m) = Return init_day
    /\ init_day = (dayofweek (timestamp_at y m 1 0 0) + 1) mod 7
    /\ grid_indices (year_month y m) = Return cells
    /\ Z.of_nat (length cells) = month_length y m
    /\ cells !! 0%nat = Some init_day
    /\ (forall (k : nat) g g',
          cells !! k = Some g -> cells !! S k = Some g' ->
          to_datetime (date_string y m (1 + Z.of_nat k))
          = Return (timestamp_at y m (1 + Z.of_nat k) 0 0)
          /\ g' = if dayofweek (timestamp_at y m (1 + Z.of_nat k) 0 0) =? 5
                  then g + 8 else g + 1)
    /\ NoDup (cells ++ map (Z.add 7) cells).
Proof.
  intros Hv. pose proof Hv as [Hm Hym].
  pose proof (month_length_bounds y m Hm) as Hlen.
  destruct (init_day_of_year_month y m Hv) as [Hinit Hdow].
  set (init := ymd2ord y m 1 mod 7) in *.
  exists init, (map (cell_of init) (seqZ 0 (month_length y m))).
  assert (forall (k : nat) g,
            map (cell_of init) (seqZ 0 (month_length y m)) !! k = Some g ->
            g = cell_of init (Z.of_nat k) /\ Z.of_nat k < month_length y m) as Hcell.
  { intros k g Hk. rewrite list_lookup_fmap in Hk.
    destruct (seqZ 0 (month_length y m) !! k) as [d|] eqn:Hd; [|discriminate].
    apply lookup_seqZ in Hd as [-> Hlt]. injection Hk as <-. split; [f_equal; lia|lia]. }
  split.
  { change (year_month y m +:+ "-01") with (date_string y m 1).
    apply (to_datetime_date y m 1 0 0 "0" "0" "0" "0" Hv); (reflexivity || lia). }
  split; [exact Hinit|]. split; [exact Hdow|].
  split; [apply grid_indices_year_month; assumption|].
  split; [rewrite length_map, length_seqZ; lia|].
  split.
  { rewrite seqZ_cons by lia. cbn [map lookup list_lookup]. f_equal.
    unfold cell_of, init. Z.div_mod_to_equations. lia. }
  split.
  - intros k g g' Hk Hk'.
    apply Hcell in Hk as [-> Hlt]. apply Hcell in Hk' as [-> Hlt'].
    split.
    { apply (to_datetime_date y m (1 + Z.of_nat k) 0 0 "0" "0" "0" "0" Hv);
        (reflexivity || lia). }
    rewrite dayofweek_date by lia.
    replace (ymd2ord y m 1 + (1 + Z.of_nat k - 1) + 6) with (ymd2ord y m 1 + Z.of_nat k + 6)
      by lia.
    replace (Z.of_nat (S k)) with (Z.of_nat k + 1) by lia.
    unfold cell_of, init. generalize (ymd2ord y m 1) (Z.of_nat k). intros o j.
    destruct (Z.eqb_spec ((o + j + 6) mod 7) 5) as [E|E]; Z.div_mod_to_equations; lia.
  - apply NoDup_app. split; [|split].
    + apply (NoDup_fmap_2 _). apply NoDup_seqZ.
    + intros g Hg Hg'.
      apply list_elem_of_fmap in Hg as (k & -> & _).
      apply list_elem_of_fmap in Hg' as (g2 & E & Hg2).
      apply list_elem_of_fmap in Hg2 as (k2 & -> & _).
      revert E. unfold cell_of. Z.div_mod_to_equations. lia.
    + apply (NoDup_fmap_2 _). apply (NoDup_fmap_2 _). apply NoDup_seqZ.
Qed.

Lemma grid_cursor_no_collision_witness :
  exists init_day cells,
    to_datetime (year_month 2015 8 +:+ "-01") = Return (timestamp_at 2015 8 1 0 0)
    /\ init_day_of (year_month 2015 8) = Return init_day
    /\ init_day = (dayofweek (timestamp_at 2015 8 1 0 0) + 1) mod 7
    /\ grid_indices (year_month 2015 8) = Return cells
    /\ Z.of_nat (length cells) = month_length 2015 8
    /\ cells !! 0%nat = Some init_day
    /\ (forall (k : nat) g g',
          cells !! k = Some g -> cells !! S k = Some g' ->
          to_datetime (date_string 2015 8 (1 + Z.of_nat k))
          = Return (timestamp_at 2015 8 (1 + Z.of_nat k) 0 0)
          /\ g' = if dayofweek (timestamp_at 2015 8 (1 + Z.of_nat k) 0 0) =? 5
                  then g + 8 else g + 1)
    /\ NoDup (cells ++ map (Z.add 7) cells).
Proof. apply (grid_cursor_no_collision 2015 8). unfold valid_year_month. lia. Defined.

Lemma cell_in_grid y m j :
  valid_year_month y m -> 0 <= j < month_length y m ->
  0 <= cell_of (ymd2ord y m 1 mod 7) j /\ cell_of (ymd2ord y m 1 mod 7) j + 7 <= 83
  /\ gs_getitem (mkGridSpec 12 7) (cell_of (ymd2ord y m 1 mod 7) j)
     = Return (cell_of (ymd2ord y m 1 mod 7) j)
  /\ gs_getitem (mkGridSpec 12 7) (cell_of (ymd2ord y m 1 mod 7) j + 7)
     = Return (cell_of (ymd2ord y m 1 mod 7) j + 7).
Proof.
  intros [Hm Hym] Hj. pose proof (month_length_bounds y m Hm) as Hlen.
  assert (0 <= ymd2ord y m 1 mod 7 <= 6) as Hinit by (Z.div_mod_to_equations; lia).
  destruct (cell_of_bounds (ymd2ord y m 1 mod 7) j Hinit ltac:(lia)) as [H0 H83].
  generalize dependent (cell_of (ymd2ord y m 1 mod 7) j). intros g H0 H83.
  split; [exact H0|]. split; [exact H83|].
  unfold gs_getitem. cbn [nrows ncols].
  replace (g <? 0) with false by (symmetry; apply Z.ltb_ge; lia).
  replace (g + 7 <? 0) with false by (symmetry; apply Z.ltb_ge; lia).
  replace ((0 <=? g) && (g <? 12 * 7)) with true
    by (symmetry; rewrite andb_true_iff, Z.leb_le, Z.ltb_lt; lia).
  replace ((0 <=? g + 7) && (g + 7 <? 12 * 7)) with true
    by (symmetry; rewrite andb_true_iff, Z.leb_le, Z.ltb_lt; lia).
  split; reflexivity.
Qed.

(** C5. For every month, of any length and with any first weekday, each
    grid index that is used for an illumination cell, and the index 7
    further that is used for its tide cell, lies in the grid of 12 rows by
    7 columns: it is at least 0 and at most 83, so [gs[index]] and
    [gs[index + 7]] raise no [IndexError].  The bound holds for every first
    column 0 .. 6 and every day up to the 31st, so also for a month that
    spans six calendar weeks. *)
Theorem grid_indices_in_range y m :
  valid_year_month y m ->
  (exists init_day cells,
     init_day_of (year_month y m) = Return init_day
     /\ grid_indices (year_month y m) = Return cells
     /\ cells = map (cell_of init_day) (seqZ 0 (month_length y m))
     /\ forall g, g ∈ cells ->
          0 <= g /\ g + 7 <= 83
          /\ gs_getitem (mkGridSpec 12 7) g = Return g
          /\ gs_getitem (mkGridSpec 12 7) (g + 7) = Return (g + 7))
  /\ (forall init_day k, 0 <= init_day <= 6 -> 0 <= k <= 30 ->
        0 <= cell_of init_day k /\ cell_of init_day k + 7 <= 83).
Proof.
  intros Hv. split; [|apply cell_of_bounds].
  exists (ymd2ord y m 1 mod 7),
    (map (cell_of (ymd2ord y m 1 mod 7)) (seqZ 0 (month_length y m))).
  split; [apply init_day_of_year_month; assumption|].
  split; [apply grid_indices_year_month; assumption|].
  split; [reflexivity|].
  intros g Hg. apply list_elem_of_fmap in Hg as (k & -> & Hk).
  apply elem_of_seqZ in Hk. apply cell_in_grid; [assumption|lia].
Qed.

Lemma grid_indices_in_range_witness :
  (exists init_day cells,
     init_day_of (year_month 2015 8) = Return init_day
     /\ grid_indices (year_month 2015 8) = Return cells
     /\ cells = map (cell_of init_day) (seqZ 0 (month_length 2015 8))
     /\ forall g, g ∈ cells ->
          0 <= g /\ g + 7 <= 83
          /\ gs_getitem (mkGridSpec 12 7) g = Return g
          /\ gs_getitem (mkGridSpec 12 7) (g + 7) = Return (g + 7))
  /\ (forall init_day k, 0 <= init_day <= 6 -> 0 <= k <= 30 ->
        0 <= cell_of init_day k /\ cell_of init_day k + 7 <= 83).
Proof. apply (grid_indices_in_range 2015 8). unfold valid_year_month. lia. Defined.

(** ** The day-cell renderer *)

Lemma bind_Return {A B : Type} (m : result A) (k : A -> result B) r :
  m ≫= k = Return r -> exists a, m = Return a /\ k a = Return r.
Proof. destruct m as [a|e]; [|discriminate]. intros H. exists a. split; [reflexivity|exact H]. Qed.

Lemma bind_Raise {A B : Type} (m : result A) (k : A -> result B) e :
  m = Raise e -> m ≫= k = Raise e.
Proof. intros ->. reflexivity. Qed.

Lemma dict_get_Return {A : Type} (d : gmap string A) key v :
  dict_get d key = Return v -> d !! key = Some v.
Proof. unfold dict_get. destruct (d !! key); [|discriminate]. by intros [= ->]. Qed.

Lemma dict_get_None {A : Type} (d : gmap string A) key :
  d !! key = None -> dict_get d key = Raise (KeyError key).
Proof. unfold dict_get. by intros ->. Qed.

Lemma update_axes_last size l a cur txts ims pars f :
  update_axes (mkFigure size (l ++ [a]) cur txts ims pars) (length l) f
  = mkFigure size (l ++ [f a]) cur txts ims pars.
Proof.
  unfold update_axes. cbn [figsize fig_axes current_axes fig_texts fig_images subplotpars].
  f_equal. rewrite alter_app_r_alt by lia. rewrite Nat.sub_diag. reflexivity.
Qed.

Lemma plt_text_last size l a txts ims pars t :
  plt_text (mkFigure size (l ++ [a]) (length l) txts ims pars) t
  = mkFigure size (l ++ [add_text t a]) (length l) txts ims pars.
Proof. unfold plt_text. cbn [current_axes]. apply update_axes_last. Qed.

Lemma tz_localize_Return env t tz a :
  tz_localize env t tz = Return a ->
  exists off, tz_utcoffset env tz t = Return off /\ a = mkAware t tz off.
Proof.
  unfold tz_localize. intros H. apply bind_Return in H as (off & E & H).
  injection H as <-. by exists off.
Qed.

Lemma plt_subplot_Return fig gs i fig' ax :
  plt_subplot fig gs i = Return (fig', ax) ->
  exists cell, gs_getitem gs i = Return cell
    /\ ax = length (fig_axes fig)
    /\ fig' = mkFigure (figsize fig) (fig_axes fig ++ [new_axes cell]) ax
               (fig_texts fig) (fig_images fig) (subplotpars fig).
Proof.
  unfold plt_subplot. intros H. apply bind_Return in H as (cell & E & H).
  injection H as <- <-. by exists cell.
Qed.

Lemma fill_between_Return fig ax x y1 y2 color alpha fig' :
  fill_between fig ax x y1 y2 color alpha = Return fig' ->
  x <> [] /\ fig' = update_axes fig ax (add_fill x y1 y2 color alpha).
Proof.
  unfold fill_between. destruct x as [|t x]; [discriminate|].
  intros [= <-]. split; [discriminate|reflexivity].
Qed.

Lemma fill_between_samples fig ax (s : Series) y2 color alpha :
  samples s <> [] ->
  fill_between fig ax (index s) (values s) y2 color alpha
  = Return (update_axes fig ax (add_fill (index s) (values s) y2 color alpha)).
Proof.
  unfold fill_between, index. destruct (samples s) as [|[t v] rest]; [done|]. reflexivity.
Qed.

Lemma plot_a_date_Return env tide_o sun_o moon_o gs tide_min tide_max time_zone
    fig grid_index date fig' ax1 ax2 :
  _plot_a_date env tide_o sun_o moon_o gs tide_min tide_max time_zone fig grid_index date
  = Return (fig', ax1, ax2) ->
  exists day_of_sun day_of_moon day_of_tide t0 t1 off0 off1 first phase icon cell1 cell2,
    heights sun_o !! date = Some day_of_sun
    /\ heights moon_o !! date = Some day_of_moon
    /\ all_tides tide_o !! date = Some day_of_tide
    /\ to_datetime (date +:+ " 00:00") = Return t0
    /\ tz_utcoffset env time_zone t0 = Return off0
    /\ to_datetime (date +:+ " 23:59") = Return t1
    /\ tz_utcoffset env time_zone t1 = Return off1
    /\ gs_getitem gs grid_index = Return cell1
    /\ py_index (index day_of_sun) 0 = Return first
    /\ phase_day_num moon_o !! date = Some phase
    /\ py_index (list_ascii_of_string moon_icon) phase = Return icon
    /\ gs_getitem gs (grid_index + 7) = Return cell2
    /\ ax1 = length (fig_axes fig) /\ ax2 = S ax1
    /\ fig' = mkFigure (figsize fig)
                (fig_axes fig ++
                 [sun_moon_axes cell1 day_of_sun day_of_moon
                    (date2num env (mkAware t0 time_zone off0))
                    (date2num env (mkAware t1 time_zone off1)) first icon ax1;
                  tide_axes cell2 day_of_tide
                    (date2num env (mkAware t0 time_zone off0))
                    (date2num env (mkAware t1 time_zone off1)) tide_min tide_max])
                ax2 (fig_texts fig) (fig_images fig) (subplotpars fig).
Proof.
  unfold _plot_a_date. intros H.
  apply bind_Return in H as (day_of_sun & Hsun & H). apply dict_get_Return in Hsun.
  apply bind_Return in H as (day_of_moon & Hmoon & H). apply dict_get_Return in Hmoon.
  apply bind_Return in H as (day_of_tide & Htide & H). apply dict_get_Return in Htide.
  cbv zeta in H.
  apply bind_Return in H as (t0 & Ht0 & H).
  apply bind_Return in H as (a0 & Ha0 & H).
  apply tz_localize_Return in Ha0 as (off0 & Hoff0 & ->).
  apply bind_Return in H as (t1 & Ht1 & H).
  apply bind_Return in H as (a1 & Ha1 & H).
  apply tz_localize_Return in Ha1 as (off1 & Hoff1 & ->).
  apply bind_Return in H as ([fig1 ax1'] & Hsub1 & H).
  apply plt_subplot_Return in Hsub1 as (cell1 & Hcell1 & -> & ->).
  apply bind_Return in H as (f1 & Hf1 & H). apply fill_between_Return in Hf1 as [_ ->].
  apply bind_Return in H as (f2 & Hf2 & H). apply fill_between_Return in Hf2 as [_ ->].
  cbn [foldl] in H.
  rewrite !update_axes_last in H.
  apply bind_Return in H as (first & Hfirst & H).
  rewrite plt_text_last in H.
  apply bind_Return in H as (phase & Hphase & H). apply dict_get_Return in Hphase.
  apply bind_Return in H as (icon & Hicon & H).
  rewrite plt_text_last in H.
  apply bind_Return in H as ([fig2 ax2'] & Hsub2 & H).
  apply plt_subplot_Return in Hsub2 as (cell2 & Hcell2 & -> & ->).
  cbn [figsize fig_axes current_axes fig_texts fig_images subplotpars] in H.
  apply bind_Return in H as (f3 & Hf3 & H). apply fill_between_Return in Hf3 as [_ ->].
  cbn [foldl] in H.
  rewrite !update_axes_last in H.
  injection H as <- <- <-.
  exists day_of_sun, day_of_moon, day_of_tide, t0, t1, off0, off1, first, phase, icon,
    cell1, cell2.
  repeat (split; [assumption || reflexivity|]).
  split; [rewrite length_app; cbn [length]; lia|].
  rewrite <- app_assoc. cbn [app]. f_equal.
Qed.

Section day_loop.

Context (env : Env) (tide_o : Tides) (sun_o moon_o : Astro) (gs : GridSpec).
Context (tide_min tide_max : Q) (time_zone : string).

Let body := plot_day env tide_o sun_o moon_o gs tide_min tide_max time_zone.
Let done := rendered env tide_o sun_o moon_o gs tide_min tide_max time_zone.

Lemma plot_day_Return day fig daily_axes gridnum fig' daily_axes' gridnum' :
  body day (fig, daily_axes, gridnum) = Return (fig', daily_axes', gridnum') ->
  exists A1 A2,
    done day gridnum (length (fig_axes fig)) A1 A2
    /\ next_gridnum gridnum day = Return gridnum'
    /\ daily_axes' = daily_axes ++ [length (fig_axes fig)]
    /\ fig' = mkFigure (figsize fig) (fig_axes fig ++ [A1; A2])
                (S (length (fig_axes fig))) (fig_texts fig) (fig_images fig)
                (subplotpars fig).
Proof.
  unfold body, plot_day. intros H.
  apply bind_Return in H as ([[fig1 ax1] ax2] & Hplot & H).
  apply bind_Return in H as (g' & Hnext & H). injection H as <- <- <-.
  apply plot_a_date_Return in Hplot
    as (s & mo & ti & t0 & t1 & off0 & off1 & first & phase & icon & cell1 & cell2
        & H1 & H2 & H3 & H4 & H5 & H6 & H7 & H8 & H9 & H10 & H11 & H12 & -> & -> & ->).
  eexists _, _. split; [|split; [exact Hnext|split; reflexivity]].
  unfold done, rendered.
  exists s, mo, ti, t0, t1, off0, off1, first, phase, icon, cell1, cell2.
  repeat (split; [assumption|]). split; reflexivity.
Qed.

(** The loop over the days, when it ends normally: the cursor follows
    [cursor_step], and the figure gains the two axes of each day, in the
    order of the days. *)
Lemma plot_days_Return g : forall fig daily_axes gridnum fig' daily_axes' gridnum' cells,
  for_gen g body (fig, daily_axes, gridnum) = Return (fig', daily_axes', gridnum') ->
  exists trace rest,
    for_gen g cursor_step (cells, gridnum) = Return (cells ++ trace, gridnum')
    /\ fig_axes fig' = fig_axes fig ++ rest
    /\ length trace = length (gen_items g)
    /\ figsize fig' = figsize fig /\ fig_texts fig' = fig_texts fig
    /\ fig_images fig' = fig_images fig /\ subplotpars fig' = subplotpars fig
    /\ forall (k : nat) date, gen_items g !! k = Some date ->
         exists gk A1 A2,
           trace !! k = Some gk
           /\ rest !! (2 * k)%nat = Some A1 /\ rest !! (2 * k + 1)%nat = Some A2
           /\ done date gk (length (fig_axes fig) + 2 * k)%nat A1 A2.
Proof.
  induction g as [| e | day g IH]; intros fig daily gridnum fig' daily' gridnum' cells H.
  - injection H as <- <- <-. exists [], [].
    rewrite !app_nil_r. repeat (split; [reflexivity|]).
    intros k date Hk. discriminate.
  - discriminate.
  - cbn [for_gen] in H. apply bind_Return in H as ([[fig1 daily1] g1] & Hday & H).
    apply plot_day_Return in Hday as (A1 & A2 & Hdone & Hnext & -> & ->).
    destruct (IH _ _ _ _ _ _ (cells ++ [gridnum]) H)
      as (trace & rest & Hcur & Haxes & Hlen & Hsize & Htexts & Hims & Hpars & Hdays).
    cbn [fig_axes figsize fig_texts fig_images subplotpars] in *.
    exists (gridnum :: trace), (A1 :: A2 :: rest).
    split.
    { cbn [for_gen]. rewrite cursor_step_unfold, Hnext. cbn [mbind result_bind].
      rewrite Hcur, <- app_assoc. reflexivity. }
    split; [rewrite Haxes, <- app_assoc; reflexivity|].
    split; [cbn [length gen_items]; lia|].
    repeat (split; [assumption|]).
    intros [|k] date Hk; cbn [gen_items] in Hk.
    + injection Hk as <-. exists gridnum, A1, A2.
      repeat (split; [reflexivity|]).
      rewrite Nat.add_0_r. exact Hdone.
    + destruct (Hdays k date Hk) as (gk & B1 & B2 & Htr & Hr1 & Hr2 & Hd).
      exists gk, B1, B2. split; [exact Htr|].
      replace (2 * S k)%nat with (S (S (2 * k))) by lia.
      split; [exact Hr1|]. split; [exact Hr2|].
      rewrite length_app in Hd. cbn [length] in Hd.
      replace (length (fig_axes fig) + S (S (2 * k)))%nat
        with (length (fig_axes fig) + 2 + 2 * k)%nat by lia.
      exact Hd.
Qed.

End day_loop.

(** ** What the rest of [month_page] leaves of the daily axes *)

Lemma same_plot_refl a : same_plot a a.
Proof. unfold same_plot. repeat split; reflexivity. Qed.

Lemma same_plot_trans a b c : same_plot a b -> same_plot b c -> same_plot a c.
Proof.
  unfold same_plot. intros (H1 & H2 & H3 & H4 & H5 & H6 & H7 & H8 & H9)
    (G1 & G2 & G3 & G4 & G5 & G6 & G7 & G8 & G9).
  repeat split; try congruence. by etrans.
Qed.

Lemma same_plot_add_text t a : same_plot a (add_text t a).
Proof. unfold same_plot. cbn. repeat split; try reflexivity. by apply prefix_app_r. Qed.

Lemma grows_refl fig : grows fig fig.
Proof. intros i a H. exists a. split; [exact H|apply same_plot_refl]. Qed.

Lemma grows_trans f1 f2 f3 : grows f1 f2 -> grows f2 f3 -> grows f1 f3.
Proof.
  intros H12 H23 i a H. destruct (H12 i a H) as (b & Hb & Hab).
  destruct (H23 i b Hb) as (c & Hc & Hbc). exists c.
  split; [exact Hc|]. by apply (same_plot_trans a b c).
Qed.

Lemma grows_app fig fig' extra :
  fig_axes fig' = fig_axes fig ++ extra -> grows fig fig'.
Proof.
  intros E i a H. exists a. split; [|apply same_plot_refl].
  rewrite E. by apply lookup_app_l_Some.
Qed.

Lemma grows_plt_text fig t : grows fig (plt_text fig t).
Proof.
  intros i a H. unfold plt_text, update_axes. cbn [fig_axes].
  destruct (decide (current_axes fig = i)) as [->|Hne].
  - exists (add_text t a). split; [|apply same_plot_add_text].
    rewrite list_lookup_alter_eq, H. reflexivity.
  - exists a. split; [|apply same_plot_refl].
    rewrite list_lookup_alter_ne by assumption. exact H.
Qed.

Lemma for_list_grows {A : Type} (body : A -> Figure -> result Figure) items :
  (forall x fig fig', body x fig = Return fig' -> grows fig fig') ->
  forall fig fig', for_list items body fig = Return fig' -> grows fig fig'.
Proof.
  intros Hbody. induction items as [|x items IH]; intros fig fig' H.
  - injection H as <-. apply grows_refl.
  - cbn [for_list] in H. apply bind_Return in H as (fig1 & H1 & H).
    apply (grows_trans fig fig1 fig'); [by apply (Hbody x)|by apply IH].
Qed.

Lemma weekday_header_grows init_day daily_axes i fig fig' :
  weekday_header init_day daily_axes i fig = Return fig' -> grows fig fig'.
Proof.
  unfold weekday_header. intros H.
  apply bind_Return in H as (name & _ & H). apply bind_Return in H as (ax & _ & H).
  injection H as <-. apply grows_plt_text.
Qed.

Lemma kept_update l fig ax f :
  kept l fig -> (length l <= ax)%nat -> kept l (update_axes fig ax f).
Proof.
  intros [extra E] Hax. exists (alter f (ax - length l)%nat extra).
  unfold update_axes. cbn [fig_axes]. rewrite E.
  by apply alter_app_r_alt.
Qed.

Lemma kept_app l fig size extra cur txts ims pars :
  fig_axes fig = l ->
  kept l (mkFigure size (fig_axes fig ++ extra) cur txts ims pars).
Proof. intros <-. by exists extra. Qed.

Lemma blank_box_grows gs init_day i fig fig' :
  blank_box gs init_day i fig = Return fig' -> grows fig fig'.
Proof.
  unfold blank_box. intros H.
  apply bind_Return in H as ([fig1 temp_ax] & Hsub1 & H).
  apply plt_subplot_Return in Hsub1 as (cell1 & _ & -> & ->).
  apply bind_Return in H as ([fig2 temp2_ax] & Hsub2 & H).
  apply plt_subplot_Return in Hsub2 as (cell2 & _ & -> & ->).
  cbn [figsize fig_axes current_axes fig_texts fig_images subplotpars foldl] in H.
  apply bind_Return in H as (name & _ & H). injection H as <-.
  assert (kept (fig_axes fig)
            (mkFigure (figsize fig) ((fig_axes fig ++ [new_axes cell1]) ++ [new_axes cell2])
               (length (fig_axes fig ++ [new_axes cell1])) (fig_texts fig) (fig_images fig)
               (subplotpars fig))) as K0.
  { exists [new_axes cell1; new_axes cell2]. cbn [fig_axes]. by rewrite <- app_assoc. }
  assert (length (fig_axes fig)
          <= current_axes
               (mkFigure (figsize fig)
                  ((fig_axes fig ++ [new_axes cell1]) ++ [new_axes cell2])
                  (length (fig_axes fig ++ [new_axes cell1])) (fig_texts fig)
                  (fig_images fig) (subplotpars fig)))%nat as Hcur
    by (cbn [current_axes]; rewrite length_app; lia).
  assert (length (fig_axes fig) <= length (fig_axes fig ++ [new_axes cell1]))%nat as Hle
    by (rewrite length_app; lia).
  revert K0 Hcur Hle.
  generalize (mkFigure (figsize fig) ((fig_axes fig ++ [new_axes cell1]) ++ [new_axes cell2])
               (length (fig_axes fig ++ [new_axes cell1])) (fig_texts fig) (fig_images fig)
               (subplotpars fig)).
  generalize (length (fig_axes fig ++ [new_axes cell1])).
  intros ax2 F K0 Hcur Hle.
  assert (forall G, kept (fig_axes fig) G -> grows fig G) as Hgrow.
  { intros G [extra E]. by apply (grows_app fig G extra). }
  apply Hgrow. unfold plt_text.
  apply kept_update.
  - destruct (i =? 0), (i =? init_day - 1);
      repeat (apply kept_update; [|lia || reflexivity]); exact K0.
  - destruct (i =? 0), (i =? init_day - 1); cbn [current_axes update_axes]; exact Hcur.
Qed.

(** ** The page that [month_page] returns *)

(** The page of a month, day by day: when [month_page] returns a figure,
    the cursor has run through the days of the month, and the [k]-th day
    has its illumination axes at place [2 * k] and its tide axes at place
    [2 * k + 1] of the figure, as [_plot_a_date] left them. *)
Lemma month_page_days env month_string tide_o sun_o moon_o fig printed :
  month_page env month_string tide_o sun_o moon_o = Return (fig, printed) ->
  exists cells,
    grid_indices month_string = Return cells
    /\ forall (k : nat) date, gen_items (days_in_month month_string) !! k = Some date ->
         exists gk A1 A2 A1' A2',
           cells !! k = Some gk
           /\ rendered env tide_o sun_o moon_o (mkGridSpec 12 7)
                (annual_min tide_o) (annual_max tide_o) (timezone tide_o)
                date gk (2 * k)%nat A1 A2
           /\ fig_axes fig !! (2 * k)%nat = Some A1'
           /\ fig_axes fig !! (2 * k + 1)%nat = Some A2'
           /\ same_plot A1 A1' /\ same_plot A2 A2'.
Proof.
  unfold month_page. intros H.
  apply bind_Return in H as (fig1 & Hlayout & H).
  assert (fig_axes fig = fig_axes fig1) as Hfig.
  { destruct (place_logo env fig1) as [fig2|e] eqn:Hlogo.
    - injection H as <- <-. unfold place_logo in Hlogo.
      apply bind_Return in Hlogo as (logo & _ & Hlogo).
      apply bind_Return in Hlogo as (im & _ & Hlogo).
      apply bind_Return in Hlogo as (im' & _ & Hlogo).
      injection Hlogo as <-. reflexivity.
    - destruct (is_Exception e); [|discriminate].
      apply bind_Return in H as (message & _ & H). injection H as <- <-. reflexivity. }
  rewrite Hfig. clear H Hfig fig printed.
  unfold month_page_layout in Hlayout. cbv zeta in Hlayout.
  apply bind_Return in Hlayout as (month_title & _ & H).
  apply bind_Return in H as (init_day & Hinit & H).
  apply bind_Return in H as ([[fig0 daily_axes] gridnum] & Hloop & H).
  apply bind_Return in H as (fig2 & Hheaders & H).
  apply bind_Return in H as (fig3 & Hblanks & H).
  injection H as <-.
  destruct (plot_days_Return _ _ _ _ _ _ _ _ _ _ _ _ _ _ _ [] Hloop)
    as (trace & rest & Hcur & Haxes & Hlen & _ & _ & _ & _ & Hdays).
  cbn [plt_figure fig_axes app length] in Haxes, Hdays, Hcur.
  exists trace. split.
  { unfold grid_indices. rewrite Hinit. cbn [mbind result_bind]. rewrite Hcur. reflexivity. }
  assert (grows fig0 fig3) as Hgrow.
  { apply (grows_trans _ (subplots_adjust fig0
       [("left", 0.05%Q); ("right", 0.95%Q); ("bottom", 0.1%Q); ("top", 0.8%Q);
        ("hspace", 0.0%Q); ("wspace", 0.0%Q)]%string)).
    { apply (grows_app _ _ []). cbn [subplots_adjust fig_axes]. by rewrite app_nil_r. }
    apply (grows_trans _ fig2).
    { revert Hheaders. apply for_list_grows. intros x f f'. apply weekday_header_grows. }
    revert Hblanks. apply for_list_grows. intros x f f'. apply blank_box_grows. }
  intros k date Hk.
  destruct (Hdays k date Hk) as (gk & A1 & A2 & Htr & Hr1 & Hr2 & Hd).
  rewrite <- Haxes in Hr1, Hr2.
  destruct (Hgrow _ _ Hr1) as (A1' & HA1 & Hs1).
  destruct (Hgrow _ _ Hr2) as (A2' & HA2 & Hs2).
  exists gk, A1, A2, A1', A2'.
  repeat (split; [assumption|]). exact Hs2.
Qed.

(** The tide axes of each day of a page. *)
Lemma month_page_tide_axes env month_string tide_o sun_o moon_o fig printed :
  month_page env month_string tide_o sun_o moon_o = Return (fig, printed) ->
  forall (k : nat) date, gen_items (days_in_month month_string) !! k = Some date ->
    exists day_of_tide tide_ax,
      all_tides tide_o !! date = Some day_of_tide
      /\ fig_axes fig !! (2 * k + 1)%nat = Some tide_ax
      /\ fills tide_ax = [mkFill (index day_of_tide) (values day_of_tide)
                            (replicate (length (index day_of_tide)) 0%Q) "#52ABB7" 0.8%Q]
      /\ ylim tide_ax = Some (annual_min tide_o, annual_max tide_o).
Proof.
  intros H k date Hk.
  destruct (month_page_days _ _ _ _ _ _ _ H) as (cells & _ & Hdays).
  destruct (Hdays k date Hk) as (gk & A1 & A2 & A1' & A2' & _ & Hd & _ & HA2 & _ & Hs2).
  destruct Hd as (s & mo & ti & t0 & t1 & off0 & off1 & first & phase & icon & cell1 & cell2
                  & _ & _ & Hti & _ & _ & _ & _ & _ & _ & _ & _ & _ & _ & ->).
  destruct Hs2 as (_ & Hfills & _ & Hylim & _).
  exists ti, A2'. split; [exact Hti|]. split; [exact HA2|].
  rewrite <- Hfills, <- Hylim. split; reflexivity.
Qed.

(** The pages of the document are the pages of the months, in order. *)
Lemma save_months_Return env tide_obj sun_obj moon_obj g :
  forall pages stdout pages' stdout',
  for_gen g (save_month env tide_obj sun_obj moon_obj) (pages, stdout)
  = Return (pages', stdout') ->
  exists new,
    pages' = pages ++ new /\ length new = length (gen_items g)
    /\ forall (i : nat) month, gen_items g !! i = Some month ->
         exists page printed,
           new !! i = Some page
           /\ month_page env month tide_obj sun_obj moon_obj = Return (page, printed).
Proof.
  induction g as [| e | month g IH]; intros pages stdout pages' stdout' H.
  - injection H as <- <-. exists []. rewrite app_nil_r.
    repeat split. intros i month Hi. discriminate.
  - discriminate.
  - cbn [for_gen] in H. apply bind_Return in H as ([pages1 stdout1] & Hsave & H).
    unfold save_month in Hsave.
    apply bind_Return in Hsave as ([monthfig printed] & Hpage & Hsave).
    injection Hsave as <- <-.
    destruct (IH _ _ _ _ H) as (new & -> & Hlen & Hnew).
    exists (monthfig :: new). rewrite <- app_assoc.
    split; [reflexivity|]. split; [cbn [length gen_items]; lia|].
    intros [|i] mo Hi; cbn [gen_items] in Hi.
    + injection Hi as <-. by exists monthfig, printed.
    + by apply Hnew.
Qed.

(** C3. In the document that [generate_annual_calendar] writes, on the page
    of every month of the year and for every date of that month, the tide
    subplot of the date has its vertical range set to
    [(annual_min, annual_max)] of the tide context: one and the same range
    for all days of all months. *)
Theorem tide_ylim_is_annual_range env tide_obj sun_obj moon_obj file_name pdf stdout :
  generate_annual_calendar env tide_obj sun_obj moon_obj file_name = Return (pdf, stdout) ->
  length (pdf_pages pdf) = length (gen_items (months_in_year (year tide_obj)))
  /\ forall (i : nat) month,
       gen_items (months_in_year (year tide_obj)) !! i = Some month ->
       exists page,
         pdf_pages pdf !! i = Some page
         /\ forall (k : nat) date, gen_items (days_in_month month) !! k = Some date ->
              exists day_of_tide tide_ax,
                all_tides tide_obj !! date = Some day_of_tide
                /\ fig_axes page !! (2 * k + 1)%nat = Some tide_ax
                /\ fills tide_ax
                   = [mkFill (index day_of_tide) (values day_of_tide)
                        (replicate (length (index day_of_tide)) 0%Q) "#52ABB7" 0.8%Q]
                /\ ylim tide_ax = Some (annual_min tide_obj, annual_max tide_obj).
Proof.
  unfold generate_annual_calendar. intros H.
  apply bind_Return in H as ([pages out] & Hloop & H). injection H as <- <-.
  apply save_months_Return in Hloop as (new & -> & Hlen & Hnew).
  cbn [pdf_pages app]. split; [exact Hlen|].
  intros i month Hi. destruct (Hnew i month Hi) as (page & printed & Hpage & Hmonth).
  exists page. split; [exact Hpage|].
  by apply (month_page_tide_axes env month tide_obj sun_obj moon_obj page printed).
Qed.

(** C4. For every date of a month page, the illumination subplot and the
    tide subplot both have their horizontal range set to the pair made of
    00:00 and 23:59 of that date, localized to the time zone of the
    station; the series of the three contexts, and the time zones of their
    timestamps, have no part in it. *)
Theorem day_xlim_is_local_day env tide_o sun_o moon_o y m fig printed :
  valid_year_month y m ->
  month_page env (year_month y m) tide_o sun_o moon_o = Return (fig, printed) ->
  forall d, 1 <= d <= month_length y m ->
    exists off0 off1 ax1 ax2,
      tz_localize env (timestamp_at y m d 0 0) (timezone tide_o)
      = Return (mkAware (timestamp_at y m d 0 0) (timezone tide_o) off0)
      /\ tz_localize env (timestamp_at y m d 23 59) (timezone tide_o)
         = Return (mkAware (timestamp_at y m d 23 59) (timezone tide_o) off1)
      /\ fig_axes fig !! (2 * Z.to_nat (d - 1))%nat = Some ax1
      /\ fig_axes fig !! (2 * Z.to_nat (d - 1) + 1)%nat = Some ax2
      /\ xlim ax1
         = Some (date2num env (mkAware (timestamp_at y m d 0 0) (timezone tide_o) off0),
                 date2num env (mkAware (timestamp_at y m d 23 59) (timezone tide_o) off1))
      /\ xlim ax2 = xlim ax1.
Proof.
  intros Hv H d Hd.
  destruct (month_page_days _ _ _ _ _ _ _ H) as (cells & _ & Hdays).
  rewrite days_in_month_items, gen_items_of_list in Hdays by assumption.
  assert (map (date_string y m) (seqZ 1 (month_length y m)) !! Z.to_nat (d - 1)
          = Some (date_string y m d)) as Hk.
  { rewrite list_lookup_fmap.
    rewrite (proj2 (lookup_seqZ 1 (month_length y m) (Z.to_nat (d - 1)) d)) by lia.
    reflexivity. }
  destruct (Hdays _ _ Hk) as (gk & A1 & A2 & A1' & A2' & _ & Hdone & HA1 & HA2 & Hs1 & Hs2).
  destruct Hdone as (s & mo & ti & t0 & t1 & off0 & off1 & first & phase & icon & cell1 & cell2
                  & _ & _ & _ & Ht0 & Hoff0 & Ht1 & Hoff1 & _ & _ & _ & _ & _ & -> & ->).
  destruct (to_datetime_date y m d 0 0 "0" "0" "0" "0" Hv Hd) as [_ Ht0'];
    try (reflexivity || lia).
  destruct (to_datetime_date y m d 23 59 "2" "3" "5" "9" Hv Hd) as [_ Ht1'];
    try (reflexivity || lia).
  rewrite Ht0' in Ht0. rewrite Ht1' in Ht1. injection Ht0 as <-. injection Ht1 as <-.
  exists off0, off1, A1', A2'.
  unfold tz_localize. rewrite Hoff0, Hoff1.
  repeat (split; [reflexivity || assumption|]).
  destruct Hs1 as (_ & _ & Hx1 & _). destruct Hs2 as (_ & _ & Hx2 & _).
  rewrite <- Hx1, <- Hx2. split; reflexivity.
Qed.

(** C10, as amended. The number drawn in the illumination cell of a date
    is the day of the first timestamp of the Sun series of that date,
    [day_of_sun.index[0].day]; the date string has no part in it.  It is
    the day of the date itself exactly when the day of that first timestamp
    is: so it is when the first sample falls on the date, and, for a first
    sample in the month of the date, only then. *)
Theorem day_number_from_sun_series env month_string tide_o sun_o moon_o fig printed :
  month_page env month_string tide_o sun_o moon_o = Return (fig, printed) ->
  forall (k : nat) date, gen_items (days_in_month month_string) !! k = Some date ->
    exists day_of_sun first others ax1 label,
      heights sun_o !! date = Some day_of_sun
      /\ index day_of_sun = first :: others
      /\ fig_axes fig !! (2 * k)%nat = Some ax1
      /\ texts ax1 !! 0%nat = Some label
      /\ text_x label = 0.05%Q /\ text_y label = 0.73%Q
      /\ text_s label = PyInt (ts_day first)
      /\ (forall t, to_datetime date = Return t ->
            (text_s label = PyInt (ts_day t) <-> ts_day first = ts_day t)
            /\ (toordinal first = toordinal t -> text_s label = PyInt (ts_day t))
            /\ (ts_year first = ts_year t -> ts_month first = ts_month t ->
                text_s label = PyInt (ts_day t) -> toordinal first = toordinal t)).
Proof.
  intros H k date Hk.
  destruct (month_page_days _ _ _ _ _ _ _ H) as (cells & _ & Hdays).
  destruct (Hdays _ _ Hk) as (gk & A1 & A2 & A1' & A2' & _ & Hdone & HA1 & _ & Hs1 & _).
  destruct Hdone as (s & mo & ti & t0 & t1 & off0 & off1 & first & phase & icon & cell1 & cell2
                  & Hs & _ & _ & _ & _ & _ & _ & _ & Hfirst & _ & _ & _ & -> & _).
  destruct Hs1 as (_ & _ & _ & _ & _ & _ & _ & _ & [more Htexts]).
  assert (exists others, index s = first :: others) as [others Hidx].
  { unfold py_index in Hfirst. destruct (index s) as [|x others]; [discriminate|].
    cbn in Hfirst. injection Hfirst as <-. by exists others. }
  eexists s, first, others, A1', _.
  split; [exact Hs|]. split; [exact Hidx|]. split; [exact HA1|].
  split; [rewrite Htexts; reflexivity|].
  repeat (split; [reflexivity|]).
  intros t Ht. cbn [text_s]. split; [|split].
  - split; [intros [= E]; exact E|intros E; rewrite E; reflexivity].
  - intros E. unfold ts_day. rewrite E. reflexivity.
  - unfold ts_year, ts_month, ts_day. intros Hyear Hmonth [= Hday].
    pose proof (ymd2ord_ord2ymd (toordinal first)) as H1.
    pose proof (ymd2ord_ord2ymd (toordinal t)) as H2.
    destruct (ord2ymd (toordinal first)) as [[y1 m1] d1].
    destruct (ord2ymd (toordinal t)) as [[y2 m2] d2].
    cbn [fst snd] in Hyear, Hmonth, Hday. subst y2 m2 d2.
    destruct H1 as (_ & _ & <-). destruct H2 as (_ & _ & <-). reflexivity.
Qed.

(** ** The moon-phase glyph *)

(** C8. The glyph of a date is [moon_icon[phase]], the lookup table
    indexed by the integer phase of the date.  The table has 28 symbols:
    [0] at index 0, for the new moon, the letters [A] to [M] in order at
    the indices 1 to 13, the variant symbol [@] at index 14, for the full
    moon, and the letters [N] to [Z] in order at the indices 15 to 27. *)
Theorem moon_glyph_from_table env month_string tide_o sun_o moon_o fig printed :
  month_page env month_string tide_o sun_o moon_o = Return (fig, printed) ->
  String.length moon_icon = 28%nat
  /\ py_index (list_ascii_of_string moon_icon) 0 = Return "0"%char
  /\ py_index (list_ascii_of_string moon_icon) 14 = Return "@"%char
  /\ (forall i, 1 <= i <= 13 ->
        py_index (list_ascii_of_string moon_icon) i
        = Return (ascii_of_N (Z.to_N (Z.of_N (N_of_ascii "A") + (i - 1)))))
  /\ (forall i, 15 <= i <= 27 ->
        py_index (list_ascii_of_string moon_icon) i
        = Return (ascii_of_N (Z.to_N (Z.of_N (N_of_ascii "N") + (i - 15)))))
  /\ forall (k : nat) date, gen_items (days_in_month month_string) !! k = Some date ->
       exists phase icon ax1 glyph,
         phase_day_num moon_o !! date = Some phase
         /\ py_index (list_ascii_of_string moon_icon) phase = Return icon
         /\ fig_axes fig !! (2 * k)%nat = Some ax1
         /\ texts ax1 !! 1%nat = Some glyph
         /\ text_s glyph = PyStr (String icon EmptyString)
         /\ text_fontname glyph = "moon phases"%string.
Proof.
  intros H. split; [reflexivity|]. split; [reflexivity|]. split; [reflexivity|].
  split; [|split].
  - intros i Hi.
    assert (i = 1 \/ i = 2 \/ i = 3 \/ i = 4 \/ i = 5 \/ i = 6 \/ i = 7 \/ i = 8
            \/ i = 9 \/ i = 10 \/ i = 11 \/ i = 12 \/ i = 13) as Hc by lia.
    repeat (destruct Hc as [->|Hc]; [reflexivity|]). subst i. reflexivity.
  - intros i Hi.
    assert (i = 15 \/ i = 16 \/ i = 17 \/ i = 18 \/ i = 19 \/ i = 20 \/ i = 21 \/ i = 22
            \/ i = 23 \/ i = 24 \/ i = 25 \/ i = 26 \/ i = 27) as Hc by lia.
    repeat (destruct Hc as [->|Hc]; [reflexivity|]). subst i. reflexivity.
  - intros k date Hk.
    destruct (month_page_days _ _ _ _ _ _ _ H) as (cells & _ & Hdays).
    destruct (Hdays _ _ Hk) as (gk & A1 & A2 & A1' & A2' & _ & Hdone & HA1 & _ & Hs1 & _).
    destruct Hdone as (s & mo & ti & t0 & t1 & off0 & off1 & first & phase & icon & cell1
                       & cell2 & _ & _ & _ & _ & _ & _ & _ & _ & _ & Hphase & Hicon & _ & -> & _).
    destruct Hs1 as (_ & _ & _ & _ & _ & _ & _ & _ & [more Htexts]).
    eexists phase, icon, A1', _.
    split; [exact Hphase|]. split; [exact Hicon|]. split; [exact HA1|].
    split; [rewrite Htexts; reflexivity|]. split; reflexivity.
Qed.

(** ** The logo *)

(** C6, as the code has it. When the page is laid out and the loading of
    the logo raises an exception [e], [month_page] does not return the
    page. If [e] is an [Exception], the handler catches it and evaluates
    ['Could not load logo image. Error: ' + e], a string plus an exception,
    which raises [TypeError] before anything is printed; [TypeError] leaves
    [month_page]. Any other [e] leaves [month_page] itself. *)
Theorem logo_failure_escapes env month_string tide_o sun_o moon_o fig e :
  month_page_layout env month_string tide_o sun_o moon_o = Return fig ->
  place_logo env fig = Raise e ->
  month_page env month_string tide_o sun_o moon_o
  = Raise (if is_Exception e then TypeError else e).
Proof.
  intros Hlayout Hlogo. unfold month_page. rewrite Hlayout.
  cbn [mbind result_bind]. rewrite Hlogo.
  destruct (is_Exception e); reflexivity.
Qed.

(** ** Missing entries *)

Lemma py_index_first (s : Series) :
  samples s <> [] -> exists first, py_index (index s) 0 = Return first.
Proof.
  unfold index. destruct (samples s) as [|[t v] rest]; [done|]. intros _.
  exists t. reflexivity.
Qed.

Lemma py_index_moon_icon p :
  -28 <= p < 28 -> exists icon, py_index (list_ascii_of_string moon_icon) p = Return icon.
Proof.
  intros Hp. unfold py_index.
  change (Z.of_nat (length (list_ascii_of_string moon_icon))) with 28.
  set (j := if p <? 0 then p + 28 else p).
  assert (0 <= j < 28) as Hj by (unfold j; destruct (Z.ltb_spec p 0); lia).
  replace ((0 <=? j) && (j <? 28)) with true
    by (symmetry; rewrite andb_true_iff, Z.leb_le, Z.ltb_lt; lia).
  destruct (list_ascii_of_string moon_icon !! Z.to_nat j) as [icon|] eqn:E.
  - by exists icon.
  - apply lookup_ge_None in E. change (length (list_ascii_of_string moon_icon)) with 28%nat in E.
    lia.
Qed.

Section missing.

Context (env : Env) (tide_o : Tides) (sun_o moon_o : Astro).
Context (y m : Z) (Hv : valid_year_month y m).

Let gs := mkGridSpec 12 7.
Let init := ymd2ord y m 1 mod 7.
Let body := plot_day env tide_o sun_o moon_o gs (annual_min tide_o) (annual_max tide_o)
              (timezone tide_o).

Lemma gs_getitem_cell j :
  0 <= j < month_length y m ->
  gs_getitem gs (cell_of init j) = Return (cell_of init j)
  /\ gs_getitem gs (cell_of init j + 7) = Return (cell_of init j + 7).
Proof.
  intros Hj. destruct (cell_in_grid y m j Hv Hj) as (_ & _ & H1 & H2).
  split; assumption.
Qed.

Lemma plot_day_step j fig daily_axes :
  0 <= j < month_length y m ->
  well_formed env tide_o sun_o moon_o y m (1 + j) ->
  let date := date_string y m (1 + j) in
  (has_entries tide_o sun_o moon_o date ->
     exists fig' daily_axes',
       body date (fig, daily_axes, cell_of init j)
       = Return (fig', daily_axes', cell_of init (j + 1)))
  /\ (~ has_entries tide_o sun_o moon_o date ->
        body date (fig, daily_axes, cell_of init j) = Raise (KeyError date)).
Proof.
  intros Hj Hwf date.
  destruct Hwf as ([off0 Hoff0] & [off1 Hoff1] & Hsun & Hmoon & Htide & Hphase).
  fold date in Hsun, Hmoon, Htide, Hphase.
  destruct (to_datetime_date y m (1 + j) 0 0 "0" "0" "0" "0" Hv) as [_ Ht0];
    try (reflexivity || lia).
  destruct (to_datetime_date y m (1 + j) 23 59 "2" "3" "5" "9" Hv) as [_ Ht1];
    try (reflexivity || lia).
  destruct (gs_getitem_cell j Hj) as [Hg1 Hg2].
  pose proof (next_gridnum_date y m j Hv Hj) as Hnext.
  fold date in Ht0, Ht1, Hnext. fold init in Hnext.
  unfold has_entries, body, plot_day, _plot_a_date, dict_get, tz_localize, plt_subplot.
  destruct (heights sun_o !! date) as [s|] eqn:Es;
    [|split; [intros ([? [=]] & _)|reflexivity]].
  destruct (heights moon_o !! date) as [mo|] eqn:Em;
    [|split; [intros (_ & [? [=]] & _)|reflexivity]].
  destruct (all_tides tide_o !! date) as [ti|] eqn:Et;
    [|split; [intros (_ & _ & [? [=]] & _)|reflexivity]].
  cbn [mbind result_bind]. cbv zeta.
  rewrite Ht0, Ht1. cbn [mbind result_bind].
  rewrite Hoff0, Hoff1. cbn [mbind result_bind].
  fold gs. rewrite Hg1. cbn [mbind result_bind].
  rewrite (fill_between_samples _ _ s) by (by apply Hsun). cbn [mbind result_bind].
  rewrite (fill_between_samples _ _ mo) by (by apply Hmoon). cbn [mbind result_bind].
  destruct (py_index_first s (Hsun _ eq_refl)) as [first ->].
  cbn [mbind result_bind].
  destruct (phase_day_num moon_o !! date) as [p|] eqn:Ep;
    [|split; [intros (_ & _ & _ & [? [=]])|reflexivity]].
  cbn [mbind result_bind].
  destruct (py_index_moon_icon p (Hphase _ eq_refl)) as [icon ->].
  cbn [mbind result_bind current_axes figsize fig_axes fig_texts fig_images subplotpars
       plt_text update_axes].
  rewrite Hg2. cbn [mbind result_bind].
  rewrite (fill_between_samples _ _ ti) by (by apply Htide). cbn [mbind result_bind].
  rewrite Hnext. cbn [mbind result_bind].
  split; [intros _; eexists _, _; reflexivity|].
  intros Hno. exfalso. apply Hno. repeat split; eexists; reflexivity.
Qed.

Lemma plot_days_first_missing jm (k : nat) : forall j fig daily_axes,
  0 <= j <= jm -> jm < month_length y m -> j + Z.of_nat k = month_length y m ->
  (forall i, j <= i <= jm -> well_formed env tide_o sun_o moon_o y m (1 + i)) ->
  (forall i, j <= i < jm -> has_entries tide_o sun_o moon_o (date_string y m (1 + i))) ->
  ~ has_entries tide_o sun_o moon_o (date_string y m (1 + jm)) ->
  for_gen (gen_of_list (map (date_string y m) (seqZ (1 + j) (Z.of_nat k)))) body
    (fig, daily_axes, cell_of init j)
  = Raise (KeyError (date_string y m (1 + jm))).
Proof.
  induction k as [|k IH]; intros j fig daily Hj Hjm Hjk Hwf Hbefore Hmissing; [lia|].
  rewrite seqZ_cons by lia. cbn [map gen_of_list foldr for_gen].
  destruct (plot_day_step j fig daily ltac:(lia) (Hwf j ltac:(lia))) as [Hok Hfail].
  destruct (decide (j = jm)) as [->|Hne].
  - rewrite (Hfail Hmissing). reflexivity.
  - destruct (Hok (Hbefore j ltac:(lia))) as (fig' & daily' & ->).
    cbn [mbind result_bind].
    replace (Z.succ (1 + j)) with (1 + (j + 1)) by lia.
    replace (Z.pred (Z.of_nat (S k))) with (Z.of_nat k) by lia.
    apply (IH (j + 1)); try lia; try assumption.
    + intros i Hi. apply Hwf. lia.
    + intros i Hi. apply Hbefore. lia.
Qed.

End missing.

(** C7. If one of the per-day lookups (the tide series, the Sun series, the
    Moon series and phase) has no entry for a date of the requested month,
    [month_page] returns no page: it ends with an exception, and nothing is
    drawn in place of the date.  The exception is the [KeyError] that names
    the date when the date is the first of the month to miss an entry and
    nothing else stops the page before: up to the date, 00:00 and 23:59 of
    each day are localized by the time zone of the station, the series that
    are there have samples, and the phase indices that are there are
    indices of the table of glyphs. *)
Theorem missing_entry_aborts env tide_o sun_o moon_o y m d :
  valid_year_month y m -> 1 <= d <= month_length y m ->
  ~ has_entries tide_o sun_o moon_o (date_string y m d) ->
  (exists e, month_page env (year_month y m) tide_o sun_o moon_o = Raise e)
  /\ ((forall d', 1 <= d' <= d -> well_formed env tide_o sun_o moon_o y m d') ->
      (forall d', 1 <= d' < d -> has_entries tide_o sun_o moon_o (date_string y m d')) ->
      month_page env (year_month y m) tide_o sun_o moon_o
      = Raise (KeyError (date_string y m d))).
Proof.
  intros Hv Hd Hmissing. pose proof Hv as [Hm Hym]. split.
  - destruct (month_page env (year_month y m) tide_o sun_o moon_o) as [[fig printed]|e] eqn:H;
      [|by exists e].
    exfalso. apply Hmissing.
    destruct (month_page_days _ _ _ _ _ _ _ H) as (cells & _ & Hdays).
    rewrite days_in_month_items, gen_items_of_list in Hdays by assumption.
    assert (map (date_string y m) (seqZ 1 (month_length y m)) !! Z.to_nat (d - 1)
            = Some (date_string y m d)) as Hk.
    { rewrite list_lookup_fmap.
      rewrite (proj2 (lookup_seqZ 1 (month_length y m) (Z.to_nat (d - 1)) d)) by lia.
      reflexivity. }
    destruct (Hdays _ _ Hk) as (gk & A1 & A2 & A1' & A2' & _ & Hdone & _).
    destruct Hdone as (s & mo & ti & t0 & t1 & off0 & off1 & first & phase & icon & cell1
                       & cell2 & H1 & H2 & H3 & _ & _ & _ & _ & _ & _ & H4 & _).
    unfold has_entries. rewrite H1, H2, H3, H4. repeat split; eexists; reflexivity.
  - intros Hwf Hbefore. unfold month_page, month_page_layout. cbv zeta.
    rewrite to_datetime_year_month by assumption. cbn [mbind result_bind].
    destruct (init_day_of_year_month y m Hv) as [-> _]. cbn [mbind result_bind].
    rewrite days_in_month_items by assumption.
    pose proof (plot_days_first_missing env tide_o sun_o moon_o y m Hv (d - 1)
                  (Z.to_nat (month_length y m)) 0 (plt_figure (8.5%Q, 11%Q)) []) as Hloop.
    rewrite Z2Nat.id in Hloop by lia.
    replace (cell_of (ymd2ord y m 1 mod 7) 0) with (ymd2ord y m 1 mod 7) in Hloop
      by (unfold cell_of; Z.div_mod_to_equations; lia).
    replace (1 + (d - 1)) with d in Hloop by lia. change (1 + 0) with 1 in Hloop.
    rewrite Hloop; [reflexivity|lia|lia|lia| | |assumption].
    + intros i Hi. apply Hwf. lia.
    + intros i Hi. apply Hbefore. lia.
Qed.

(** ** A station, a year of data, and the calendar made from them *)

Lemma example_lookup_value {A : Type} (v : A) date x :
  example_lookup v !! date = Some x -> x = v.
Proof.
  unfold example_lookup. intros H. apply elem_of_list_to_map_2 in H.
  apply list_elem_of_fmap in H as (d & [= _ ->] & _). reflexivity.
Qed.

Lemma example_well_formed y m d :
  well_formed example_env example_tides_gap example_sun example_moon y m d.
Proof.
  split; [by exists (-480)|]. split; [by exists (-480)|].
  split; [|split; [|split]].
  - intros s H. unfold example_sun in H. cbn [heights] in H.
    apply (example_lookup_value example_series) in H. subst s. discriminate.
  - intros s H. unfold example_moon in H. cbn [heights] in H.
    apply (example_lookup_value example_series) in H. subst s. discriminate.
  - intros s H. unfold example_tides_gap in H. cbn [all_tides] in H.
    apply lookup_delete_Some in H as [_ H].
    apply (example_lookup_value example_series) in H. subst s. discriminate.
  - intros p H. unfold example_moon in H. cbn [phase_day_num] in H.
    apply (example_lookup_value 14) in H. lia.
Qed.

Lemma tide_ylim_is_annual_range_witness :
  exists pdf stdout,
    generate_annual_calendar example_env example_tides example_sun example_moon "testcal"
    = Return (pdf, stdout)
    /\ length (pdf_pages pdf) = length (gen_items (months_in_year (year example_tides)))
    /\ forall (i : nat) month,
         gen_items (months_in_year (year example_tides)) !! i = Some month ->
         exists page,
           pdf_pages pdf !! i = Some page
           /\ forall (k : nat) date, gen_items (days_in_month month) !! k = Some date ->
                exists day_of_tide tide_ax,
                  all_tides example_tides !! date = Some day_of_tide
                  /\ fig_axes page !! (2 * k + 1)%nat = Some tide_ax
                  /\ fills tide_ax
                     = [mkFill (index day_of_tide) (values day_of_tide)
                          (replicate (length (index day_of_tide)) 0%Q) "#52ABB7" 0.8%Q]
                  /\ ylim tide_ax = Some (annual_min example_tides, annual_max example_tides).
Proof.
  destruct (generate_annual_calendar example_env example_tides example_sun example_moon
              "testcal") as [[pdf stdout]|e] eqn:E; [|vm_compute in E; discriminate].
  exists pdf, stdout. split; [reflexivity|].
  exact (tide_ylim_is_annual_range _ _ _ _ _ _ _ E).
Defined.

Lemma day_xlim_is_local_day_witness :
  exists fig printed off0 off1 ax1 ax2,
    month_page example_env (year_month 2015 2) example_tides example_sun example_moon
    = Return (fig, printed)
    /\ tz_localize example_env (timestamp_at 2015 2 14 0 0) (timezone example_tides)
       = Return (mkAware (timestamp_at 2015 2 14 0 0) (timezone example_tides) off0)
    /\ tz_localize example_env (timestamp_at 2015 2 14 23 59) (timezone example_tides)
       = Return (mkAware (timestamp_at 2015 2 14 23 59) (timezone example_tides) off1)
    /\ fig_axes fig !! (2 * Z.to_nat (14 - 1))%nat = Some ax1
    /\ fig_axes fig !! (2 * Z.to_nat (14 - 1) + 1)%nat = Some ax2
    /\ xlim ax1
       = Some (date2num example_env
                 (mkAware (timestamp_at 2015 2 14 0 0) (timezone example_tides) off0),
               date2num example_env
                 (mkAware (timestamp_at 2015 2 14 23 59) (timezone example_tides) off1))
    /\ xlim ax2 = xlim ax1.
Proof.
  destruct (month_page example_env (year_month 2015 2) example_tides example_sun example_moon)
    as [[fig printed]|e] eqn:E; [|vm_compute in E; discriminate].
  assert (valid_year_month 2015 2) as Hv by (unfold valid_year_month; lia).
  assert (1 <= 14 <= month_length 2015 2) as Hd by (vm_compute; split; discriminate).
  destruct (day_xlim_is_local_day example_env example_tides example_sun example_moon
              2015 2 fig printed Hv E 14 Hd) as (off0 & off1 & ax1 & ax2 & H).
  exists fig, printed, off0, off1, ax1, ax2. split; [reflexivity|exact H].
Defined.

Lemma day_number_from_sun_series_witness :
  exists fig printed day_of_sun first others ax1 label,
    month_page example_env "2015-02" example_tides example_sun example_moon
    = Return (fig, printed)
    /\ heights example_sun !! "2015-02-14"%string = Some day_of_sun
    /\ index day_of_sun = first :: others
    /\ fig_axes fig !! (2 * 13)%nat = Some ax1
    /\ texts ax1 !! 0%nat = Some label
    /\ text_x label = 0.05%Q /\ text_y label = 0.73%Q
    /\ text_s label = PyInt (ts_day first)
    /\ (forall t, to_datetime "2015-02-14" = Return t ->
          (text_s label = PyInt (ts_day t) <-> ts_day first = ts_day t)
          /\ (toordinal first = toordinal t -> text_s label = PyInt (ts_day t))
          /\ (ts_year first = ts_year t -> ts_month first = ts_month t ->
              text_s label = PyInt (ts_day t) -> toordinal first = toordinal t)).
Proof.
  destruct (month_page example_env "2015-02" example_tides example_sun example_moon)
    as [[fig printed]|e] eqn:E; [|vm_compute in E; discriminate].
  assert (gen_items (days_in_month "2015-02") !! 13%nat = Some "2015-02-14"%string) as Hk
    by (vm_compute; reflexivity).
  destruct (day_number_from_sun_series example_env "2015-02" example_tides example_sun
              example_moon fig printed E 13%nat "2015-02-14"%string Hk)
    as (s & first & others & ax1 & label & H).
  exists fig, printed, s, first, others, ax1, label. split; [reflexivity|exact H].
Defined.

(** In the example every Sun series starts on the first of February, so
    the cell of the fourteenth of February is numbered 1. *)
Lemma day_number_example :
  exists fig printed ax1 label,
    month_page example_env "2015-02" example_tides example_sun example_moon
    = Return (fig, printed)
    /\ fig_axes fig !! 26%nat = Some ax1
    /\ texts ax1 !! 0%nat = Some label
    /\ text_s label = PyInt 1.
Proof.
  destruct (month_page example_env "2015-02" example_tides example_sun example_moon)
    as [[fig printed]|e] eqn:E; [|vm_compute in E; discriminate].
  vm_compute in E. injection E as <- <-.
  eexists _, _, _, _. split; [reflexivity|]. split; [reflexivity|]. split; reflexivity.
Qed.

(** A Sun series of the 14th of February that begins with a sample of the
    14th of March: the cell of the 14th of February is numbered 14, the day
    of the date, and the first sample does not fall on the date. *)
Lemma day_number_other_month :
  exists fig printed day_of_sun first others ax1 label,
    month_page example_env "2015-02" example_tides example_sun_march example_moon
    = Return (fig, printed)
    /\ heights example_sun_march !! "2015-02-14"%string = Some day_of_sun
    /\ index day_of_sun = first :: others
    /\ fig_axes fig !! 26%nat = Some ax1
    /\ texts ax1 !! 0%nat = Some label
    /\ to_datetime "2015-02-14" = Return (timestamp_at 2015 2 14 0 0)
    /\ text_s label = PyInt (ts_day (timestamp_at 2015 2 14 0 0))
    /\ toordinal first <> toordinal (timestamp_at 2015 2 14 0 0).
Proof.
  destruct (month_page example_env "2015-02" example_tides example_sun_march example_moon)
    as [[fig printed]|e] eqn:E; [|vm_compute in E; discriminate].
  vm_compute in E. injection E as <- <-.
  eexists _, _, _, _, _, _, _. split; [reflexivity|].
  split; [vm_compute; reflexivity|]. split; [vm_compute; reflexivity|].
  split; [reflexivity|]. split; [reflexivity|].
  split; [vm_compute; reflexivity|]. split; [vm_compute; reflexivity|].
  vm_compute. discriminate.
Qed.

Lemma moon_glyph_from_table_witness :
  exists fig printed,
    month_page example_env "2015-02" example_tides example_sun example_moon
    = Return (fig, printed)
    /\ String.length moon_icon = 28%nat
    /\ py_index (list_ascii_of_string moon_icon) 0 = Return "0"%char
    /\ py_index (list_ascii_of_string moon_icon) 14 = Return "@"%char
    /\ (forall i, 1 <= i <= 13 ->
          py_index (list_ascii_of_string moon_icon) i
          = Return (ascii_of_N (Z.to_N (Z.of_N (N_of_ascii "A") + (i - 1)))))
    /\ (forall i, 15 <= i <= 27 ->
          py_index (list_ascii_of_string moon_icon) i
          = Return (ascii_of_N (Z.to_N (Z.of_N (N_of_ascii "N") + (i - 15)))))
    /\ forall (k : nat) date, gen_items (days_in_month "2015-02") !! k = Some date ->
         exists phase icon ax1 glyph,
           phase_day_num example_moon !! date = Some phase
           /\ py_index (list_ascii_of_string moon_icon) phase = Return icon
           /\ fig_axes fig !! (2 * k)%nat = Some ax1
           /\ texts ax1 !! 1%nat = Some glyph
           /\ text_s glyph = PyStr (String icon EmptyString)
           /\ text_fontname glyph = "moon phases"%string.
Proof.
  destruct (month_page example_env "2015-02" example_tides example_sun example_moon)
    as [[fig printed]|e] eqn:E; [|vm_compute in E; discriminate].
  exists fig, printed. split; [reflexivity|].
  exact (moon_glyph_from_table _ _ _ _ _ _ _ E).
Defined.

Lemma logo_failure_escapes_witness :
  month_page example_env_no_logo "2015-02" example_tides example_sun example_moon
  = Raise TypeError.
Proof.
  destruct (month_page_layout example_env_no_logo "2015-02" example_tides example_sun
              example_moon) as [fig|e] eqn:E; [|vm_compute in E; discriminate].
  exact (logo_failure_escapes example_env_no_logo "2015-02" example_tides example_sun
           example_moon fig (OtherException "FileNotFoundError") E eq_refl).
Defined.

Lemma missing_entry_aborts_witness :
  (exists e, month_page example_env (year_month 2015 2) example_tides_gap example_sun
               example_moon = Raise e)
  /\ month_page example_env (year_month 2015 2) example_tides_gap example_sun example_moon
     = Raise (KeyError (date_string 2015 2 10)).
Proof.
  assert (valid_year_month 2015 2) as Hv by (unfold valid_year_month; lia).
  assert (1 <= 10 <= month_length 2015 2) as Hd by (vm_compute; split; discriminate).
  assert (~ has_entries example_tides_gap example_sun example_moon (date_string 2015 2 10))
    as Hgap.
  { intros (_ & _ & [x Hx] & _). vm_compute in Hx. discriminate. }
  destruct (missing_entry_aborts example_env example_tides_gap example_sun example_moon
              2015 2 10 Hv Hd Hgap) as [Habort Hkey].
  split; [exact Habort|]. apply Hkey; [intros d' _; apply example_well_formed|].
  intros d' Hd'.
  assert (d' = 1 \/ d' = 2 \/ d' = 3 \/ d' = 4 \/ d' = 5 \/ d' = 6 \/ d' = 7 \/ d' = 8
          \/ d' = 9) as Hc by lia.
  repeat (destruct Hc as [->|Hc];
          [repeat split; vm_compute; eexists; reflexivity|]).
  subst d'. repeat split; vm_compute; eexists; reflexivity.
Defined.

(** ** The weekday headers and the empty boxes *)

Lemma py_index_lookup {A : Type} (seq : list A) i x :
  0 <= i -> seq !! Z.to_nat i = Some x -> py_index seq i = Return x.
Proof.
  intros Hi Hx. pose proof (lookup_lt_Some _ _ _ Hx) as Hlt.
  unfold py_index.
  replace (i <? 0) with false by (symmetry; apply Z.ltb_ge; lia).
  replace ((0 <=? i) && (i <? Z.of_nat (length seq))) with true
    by (symmetry; rewrite andb_true_iff, Z.leb_le, Z.ltb_lt; lia).
  rewrite Hx. reflexivity.
Qed.

Lemma py_index_day_name i :
  0 <= i <= 6 ->
  day_names !! Z.to_nat i = Some (day_name i) /\ py_index day_names i = Return (day_name i).
Proof.
  intros Hi.
  assert (i = 0 \/ i = 1 \/ i = 2 \/ i = 3 \/ i = 4 \/ i = 5 \/ i = 6) as Hc by lia.
  destruct Hc as [->|[->|[->|[->|[->|[->| ->]]]]]]; split; reflexivity.
Qed.

Lemma gs_getitem_in_range i :
  0 <= i < 84 -> gs_getitem (mkGridSpec 12 7) i = Return i.
Proof.
  intros Hi. unfold gs_getitem. cbn [nrows ncols].
  replace (i <? 0) with false by (symmetry; apply Z.ltb_ge; lia).
  replace ((0 <=? i) && (i <? 12 * 7)) with true
    by (symmetry; rewrite andb_true_iff, Z.leb_le, Z.ltb_lt; lia).
  reflexivity.
Qed.

Lemma add_texts_fields ts : forall a,
  subplotspec (add_texts ts a) = subplotspec a
  /\ texts (add_texts ts a) = texts a ++ ts
  /\ same_plot a (add_texts ts a).
Proof.
  induction ts as [|t ts IH]; intros a.
  - cbn. rewrite app_nil_r. repeat split; reflexivity.
  - change (add_texts (t :: ts) a) with (add_texts ts (add_text t a)).
    destruct (IH (add_text t a)) as (H1 & H2 & H3).
    rewrite H1, H2. cbn [add_text subplotspec texts]. rewrite <- app_assoc.
    split; [reflexivity|]. split; [reflexivity|].
    apply (same_plot_trans _ (add_text t a)); [apply same_plot_add_text|exact H3].
Qed.

(** A run of [plt.text] calls attaches its texts to the current axes. *)
Lemma foldl_plt_text ts : forall fig,
  foldl plt_text fig ts
  = mkFigure (figsize fig) (alter (add_texts ts) (current_axes fig) (fig_axes fig))
      (current_axes fig) (fig_texts fig) (fig_images fig) (subplotpars fig).
Proof.
  induction ts as [|t ts IH]; intros fig.
  - cbn [foldl]. destruct fig as [size l cur txts ims pars].
    cbn [figsize fig_axes current_axes fig_texts fig_images subplotpars]. f_equal.
    symmetry. apply list_alter_id. reflexivity.
  - cbn [foldl]. rewrite IH. unfold plt_text, update_axes.
    cbn [figsize fig_axes current_axes fig_texts fig_images subplotpars]. f_equal.
    apply (list_alter_alter_eq (add_texts ts) (add_text t)).
Qed.

Lemma weekday_header_at init_day daily_axes i ax fig :
  0 <= i <= 6 -> init_day <= i -> daily_axes !! Z.to_nat (i - init_day) = Some ax ->
  weekday_header init_day daily_axes i fig
  = Return (plt_text fig (header_text (day_name i) ax)).
Proof.
  intros Hi Hinit Hax. unfold weekday_header.
  destruct (py_index_day_name i Hi) as [_ ->]. cbn [mbind result_bind].
  rewrite (py_index_lookup daily_axes (i - init_day) ax) by (lia || assumption).
  reflexivity.
Qed.

Lemma weekday_headers_loop init_day daily_axes (k : nat) : forall j fig,
  init_day <= j -> 0 <= j -> j + Z.of_nat k <= 7 ->
  (forall i, j <= i < j + Z.of_nat k ->
     daily_axes !! Z.to_nat (i - init_day) = Some (2 * Z.to_nat (i - init_day))%nat) ->
  for_list (seqZ j (Z.of_nat k)) (weekday_header init_day daily_axes) fig
  = Return (foldl plt_text fig
              (map (fun i => header_text (day_name i) (2 * Z.to_nat (i - init_day)))
                 (seqZ j (Z.of_nat k)))).
Proof.
  induction k as [|k IH]; intros j fig Hinit Hj Hjk Hdaily; [reflexivity|].
  rewrite seqZ_cons by lia. cbn [for_list map foldl].
  rewrite (weekday_header_at init_day daily_axes j (2 * Z.to_nat (j - init_day)))
    by (lia || (apply Hdaily; lia)).
  cbn [mbind result_bind].
  replace (Z.pred (Z.of_nat (S k))) with (Z.of_nat k) by lia.
  apply (IH (Z.succ j)); try lia.
  intros i Hi. apply Hdaily. lia.
Qed.

Lemma update_axes_fst size l a b cur txts ims pars f :
  update_axes (mkFigure size (l ++ [a; b]) cur txts ims pars) (length l) f
  = mkFigure size (l ++ [f a; b]) cur txts ims pars.
Proof.
  unfold update_axes. cbn [figsize fig_axes current_axes fig_texts fig_images subplotpars].
  f_equal. rewrite alter_app_r_alt by lia. rewrite Nat.sub_diag. reflexivity.
Qed.

Lemma update_axes_snd size l a b cur txts ims pars f :
  update_axes (mkFigure size (l ++ [a; b]) cur txts ims pars) (S (length l)) f
  = mkFigure size (l ++ [a; f b]) cur txts ims pars.
Proof.
  unfold update_axes. cbn [figsize fig_axes current_axes fig_texts fig_images subplotpars].
  f_equal. rewrite alter_app_r_alt by lia.
  replace (S (length l) - length l)%nat with 1%nat by lia. reflexivity.
Qed.

(** One pair of empty boxes: two further axes, on the cells [i] and
    [i + 7], the second of which holds the header of column [i], placed over
    the first. *)
Lemma blank_box_shape init_day i fig :
  0 <= i <= 6 ->
  exists B1 B2,
    blank_box (mkGridSpec 12 7) init_day i fig
    = Return (mkFigure (figsize fig) (fig_axes fig ++ [B1; B2]) (S (length (fig_axes fig)))
                (fig_texts fig) (fig_images fig) (subplotpars fig))
    /\ subplotspec B1 = i /\ subplotspec B2 = i + 7
    /\ texts B1 = []
    /\ texts B2 = [header_text (day_name i) (length (fig_axes fig))].
Proof.
  intros Hi. unfold blank_box, plt_subplot.
  rewrite (gs_getitem_in_range i) by lia. cbn [mbind result_bind].
  cbn [figsize fig_axes current_axes fig_texts fig_images subplotpars].
  rewrite (gs_getitem_in_range (i + 7)) by lia. cbn [mbind result_bind].
  destruct (py_index_day_name i Hi) as [_ ->]. cbn [mbind result_bind].
  rewrite <- app_assoc, length_app. cbn [app length]. rewrite Nat.add_1_r.
  cbn [foldl]. unfold plt_text.
  destruct (i =? 0), (i =? init_day - 1);
    repeat (rewrite update_axes_fst || rewrite update_axes_snd);
    cbn [current_axes];
    (eexists _, _; split; [reflexivity|]); cbn; repeat split; reflexivity.
Qed.

Lemma blank_boxes_loop init_day (k : nat) : forall j fig,
  0 <= j -> j + Z.of_nat k <= 7 ->
  exists blanks cur,
    for_list (seqZ j (Z.of_nat k)) (blank_box (mkGridSpec 12 7) init_day) fig
    = Return (mkFigure (figsize fig) (fig_axes fig ++ blanks) cur
                (fig_texts fig) (fig_images fig) (subplotpars fig))
    /\ length blanks = (2 * k)%nat
    /\ map subplotspec blanks = concat (map (fun i => [i; i + 7]) (seqZ j (Z.of_nat k)))
    /\ length (concat (map texts blanks)) = k
    /\ forall i : nat, (i < k)%nat ->
         exists B1 B2,
           blanks !! (2 * i)%nat = Some B1 /\ blanks !! (2 * i + 1)%nat = Some B2
           /\ subplotspec B1 = j + Z.of_nat i
           /\ texts B2 = [header_text (day_name (j + Z.of_nat i))
                            (length (fig_axes fig) + 2 * i)%nat].
Proof.
  induction k as [|k IH]; intros j fig Hj Hjk.
  - exists [], (current_axes fig). rewrite app_nil_r.
    split; [destruct fig; reflexivity|].
    repeat (split; [reflexivity|]). intros i Hi. lia.
  - rewrite seqZ_cons by lia. cbn [for_list].
    destruct (blank_box_shape init_day j fig ltac:(lia))
      as (B1 & B2 & -> & Hc1 & Hc2 & Ht1 & Ht2).
    cbn [mbind result_bind].
    replace (Z.pred (Z.of_nat (S k))) with (Z.of_nat k) by lia.
    destruct (IH (Z.succ j)
                (mkFigure (figsize fig) (fig_axes fig ++ [B1; B2]) (S (length (fig_axes fig)))
                   (fig_texts fig) (fig_images fig) (subplotpars fig))
                ltac:(lia) ltac:(lia))
      as (blanks & cur & -> & Hlen & Hcells & Htexts & Hblanks).
    cbn [figsize fig_axes current_axes fig_texts fig_images subplotpars] in *.
    exists (B1 :: B2 :: blanks), cur. rewrite <- app_assoc. cbn [app].
    split; [reflexivity|]. split; [cbn [length]; lia|].
    split; [cbn [map concat app]; rewrite Hc1, Hc2, Hcells; reflexivity|].
    split; [cbn [map concat]; rewrite Ht1, Ht2; cbn [app length]; lia|].
    intros [|i] Hi.
    + exists B1, B2. rewrite Z.add_0_r, Nat.add_0_r.
      repeat (split; [reflexivity || assumption|]). exact Ht2.
    + destruct (Hblanks i ltac:(lia)) as (C1 & C2 & H1 & H2 & H3 & H4).
      exists C1, C2. replace (2 * S i)%nat with (S (S (2 * i))) by lia.
      split; [exact H1|]. split; [exact H2|].
      split; [lia|]. rewrite H4. do 2 f_equal; [f_equal; lia|].
      rewrite length_app. cbn [length]. lia.
Qed.

(** ** What stays of a figure while axes are drawn *)

Lemma same_furniture_refl fig : same_furniture fig fig.
Proof. repeat split. Qed.

Lemma same_furniture_trans f1 f2 f3 :
  same_furniture f1 f2 -> same_furniture f2 f3 -> same_furniture f1 f3.
Proof.
  unfold same_furniture. intros (H1 & H2 & H3 & H4) (G1 & G2 & G3 & G4).
  repeat split; congruence.
Qed.

Lemma for_list_furniture {A : Type} (body : A -> Figure -> result Figure) items :
  (forall x fig fig', body x fig = Return fig' -> same_furniture fig fig') ->
  forall fig fig', for_list items body fig = Return fig' -> same_furniture fig fig'.
Proof.
  intros Hbody. induction items as [|x items IH]; intros fig fig' H.
  - injection H as <-. apply same_furniture_refl.
  - cbn [for_list] in H. apply bind_Return in H as (fig1 & H1 & H).
    apply (same_furniture_trans fig fig1 fig'); [by apply (Hbody x)|by apply IH].
Qed.

Lemma weekday_header_furniture init_day daily_axes i fig fig' :
  weekday_header init_day daily_axes i fig = Return fig' -> same_furniture fig fig'.
Proof.
  unfold weekday_header. intros H.
  apply bind_Return in H as (name & _ & H). apply bind_Return in H as (ax & _ & H).
  injection H as <-. repeat split.
Qed.

Lemma blank_box_furniture gs init_day i fig fig' :
  blank_box gs init_day i fig = Return fig' -> same_furniture fig fig'.
Proof.
  unfold blank_box. intros H.
  apply bind_Return in H as ([fig1 temp_ax] & Hsub1 & H).
  apply plt_subplot_Return in Hsub1 as (cell1 & _ & -> & ->).
  apply bind_Return in H as ([fig2 temp2_ax] & Hsub2 & H).
  apply plt_subplot_Return in Hsub2 as (cell2 & _ & -> & ->).
  apply bind_Return in H as (name & _ & H). injection H as <-.
  destruct (i =? 0), (i =? init_day - 1); repeat split.
Qed.

(** ** The loop over the days of a month *)

Section days_of_month.

Context (env : Env) (tide_o : Tides) (sun_o moon_o : Astro).
Context (y m : Z) (Hv : valid_year_month y m).

Let gs := mkGridSpec 12 7.
Let init := ymd2ord y m 1 mod 7.
Let body := plot_day env tide_o sun_o moon_o gs (annual_min tide_o) (annual_max tide_o)
              (timezone tide_o).

(** When the loop ends normally from day [1 + j] on, the figure has gained
    the two axes of each day, on the cells of the closed form, with the day
    number and the glyph on the first of them. *)
Lemma plot_days_month (k : nat) : forall j fig daily_axes fig' daily_axes' gridnum',
  0 <= j -> j + Z.of_nat k <= month_length y m ->
  for_gen (gen_of_list (map (date_string y m) (seqZ (1 + j) (Z.of_nat k)))) body
    (fig, daily_axes, cell_of init j)
  = Return (fig', daily_axes', gridnum') ->
  exists rest cur,
    fig' = mkFigure (figsize fig) (fig_axes fig ++ rest) cur
             (fig_texts fig) (fig_images fig) (subplotpars fig)
    /\ cur = match k with
             | O => current_axes fig
             | S _ => (length (fig_axes fig) + 2 * k - 1)%nat
             end
    /\ daily_axes'
       = daily_axes ++ map (fun i => (length (fig_axes fig) + 2 * i)%nat) (seq 0 k)
    /\ length rest = (2 * k)%nat
    /\ map subplotspec rest
       = concat (map (fun i => [cell_of init i; cell_of init i + 7]) (seqZ j (Z.of_nat k)))
    /\ length (concat (map texts rest)) = (2 * k)%nat
    /\ forall i : nat, (i < k)%nat ->
         exists A1, rest !! (2 * i)%nat = Some A1
           /\ subplotspec A1 = cell_of init (j + Z.of_nat i).
Proof.
  induction k as [|k IH]; intros j fig daily fig' daily' gridnum' Hj Hjk H.
  - injection H as <- <- _. exists [], (current_axes fig). rewrite !app_nil_r.
    split; [destruct fig; reflexivity|].
    repeat (split; [reflexivity|]). intros i Hi. lia.
  - rewrite seqZ_cons in H by lia. cbn [map gen_of_list foldr for_gen] in H.
    apply bind_Return in H as ([[fig1 daily1] g1] & Hday & H).
    apply plot_day_Return in Hday as (A1 & A2 & Hdone & Hnext & -> & ->).
    pose proof (next_gridnum_date y m j Hv ltac:(lia)) as Hn. fold init in Hn.
    rewrite Hn in Hnext. injection Hnext as <-. clear Hn.
    replace (Z.succ (1 + j)) with (1 + (j + 1)) in H by lia.
    replace (Z.pred (Z.of_nat (S k))) with (Z.of_nat k) in H by lia.
    fold (gen_of_list (map (date_string y m) (seqZ (1 + (j + 1)) (Z.of_nat k)))) in H.
    apply (IH (j + 1)) in H as (rest & cur & -> & Hcur & -> & Hlen & Hcells & Htexts & Hrest);
      [|lia|lia].
    cbn [figsize fig_axes current_axes fig_texts fig_images subplotpars] in *.
    rewrite ?length_app in Hcur |- *. cbn [length] in Hcur |- *.
    destruct Hdone as (s & mo & ti & t0 & t1 & off0 & off1 & first & phase & icon & cell1
                       & cell2 & _ & _ & _ & _ & _ & _ & _ & Hg1 & _ & _ & _ & Hg2 & -> & ->).
    destruct (cell_in_grid y m j Hv ltac:(lia)) as (_ & _ & Hc1 & Hc2).
    fold init in Hc1, Hc2. fold gs in Hc1, Hc2.
    rewrite Hc1 in Hg1. rewrite Hc2 in Hg2. injection Hg1 as <-. injection Hg2 as <-.
    eexists (_ :: _ :: rest), cur. rewrite <- !app_assoc. cbn [app].
    split; [reflexivity|].
    split; [rewrite Hcur; destruct k; lia|].
    split.
    { f_equal. cbn [seq map]. rewrite Nat.add_0_r. f_equal.
      rewrite <- fmap_S_seq, <- list_fmap_compose. apply list_fmap_ext.
      intros ? i ?. cbn. lia. }
    split; [cbn [length]; lia|].
    split.
    { rewrite (seqZ_cons j) by lia. cbn [map concat app subplotspec sun_moon_axes tide_axes].
      replace (Z.succ j) with (j + 1) by lia.
      replace (Z.pred (Z.of_nat (S k))) with (Z.of_nat k) by lia.
      rewrite Hcells. reflexivity. }
    split; [cbn [map concat]; rewrite !length_app, Htexts; cbn; lia|].
    intros [|i] Hi.
    + eexists. split; [reflexivity|]. rewrite Z.add_0_r. reflexivity.
    + destruct (Hrest i ltac:(lia)) as (B1 & HB1 & HB2).
      exists B1. replace (2 * S i)%nat with (S (S (2 * i))) by lia.
      split; [exact HB1|]. rewrite HB2. f_equal. lia.
Qed.

End days_of_month.

Lemma plot_days_complete env tide_o sun_o moon_o y m (k : nat) :
  valid_year_month y m ->
  forall j fig daily_axes,
  0 <= j -> j + Z.of_nat k <= month_length y m ->
  (forall i, j <= i < j + Z.of_nat k ->
     well_formed env tide_o sun_o moon_o y m (1 + i)) ->
  (forall i, j <= i < j + Z.of_nat k ->
     has_entries tide_o sun_o moon_o (date_string y m (1 + i))) ->
  exists fig' daily_axes' gridnum',
    for_gen (gen_of_list (map (date_string y m) (seqZ (1 + j) (Z.of_nat k))))
      (plot_day env tide_o sun_o moon_o (mkGridSpec 12 7) (annual_min tide_o)
         (annual_max tide_o) (timezone tide_o))
      (fig, daily_axes, cell_of (ymd2ord y m 1 mod 7) j)
    = Return (fig', daily_axes', gridnum').
Proof.
  intros Hv. induction k as [|k IH]; intros j fig daily Hj Hjk Hwf Hall.
  - eexists _, _, _. reflexivity.
  - rewrite seqZ_cons by lia. cbn [map gen_of_list foldr for_gen].
    destruct (plot_day_step env tide_o sun_o moon_o y m Hv j fig daily ltac:(lia)
                (Hwf j ltac:(lia))) as [Hok _].
    destruct (Hok (Hall j ltac:(lia))) as (fig1 & daily1 & ->).
    cbn [mbind result_bind].
    replace (Z.succ (1 + j)) with (1 + (j + 1)) by lia.
    replace (Z.pred (Z.of_nat (S k))) with (Z.of_nat k) by lia.
    apply (IH (j + 1)); try lia.
    + intros i Hi. apply Hwf. lia.
    + intros i Hi. apply Hall. lia.
Qed.

Lemma strftime_month_name y m :
  valid_year_month y m -> strftime "%B" (timestamp_at y m 1 0 0) = month_name m.
Proof.
  intros [Hm _]. pose proof (month_length_bounds y m Hm) as Hlen.
  destruct (fields_at y m 1 0 (timestamp_at y m 1 0 0)) as (_ & Hmonth & _);
    [lia|lia|lia|unfold timestamp_at; f_equal; lia|].
  cbn [strftime]. change (Ascii.eqb "%" "%") with true. cbv iota.
  unfold directive. change (Ascii.eqb "B" "Y") with false.
  change (Ascii.eqb "B" "m") with false. change (Ascii.eqb "B" "d") with false.
  change (Ascii.eqb "B" "B") with true. cbv iota. rewrite Hmonth.
  assert (m = 1 \/ m = 2 \/ m = 3 \/ m = 4 \/ m = 5 \/ m = 6 \/ m = 7 \/ m = 8
          \/ m = 9 \/ m = 10 \/ m = 11 \/ m = 12) as Hc by lia.
  destruct Hc as [->|[->|[->|[->|[->|[->|[->|[->|[->|[->|[->| ->]]]]]]]]]]]; reflexivity.
Qed.

(** ** The page of a month, put together *)

Section page_of_month.

Context (env : Env) (tide_o : Tides) (sun_o moon_o : Astro).
Context (y m : Z) (Hv : valid_year_month y m).

Let n := Z.to_nat (month_length y m).
Let init := ymd2ord y m 1 mod 7.
Let body := plot_day env tide_o sun_o moon_o (mkGridSpec 12 7) (annual_min tide_o)
              (annual_max tide_o) (timezone tide_o).
Let headers := map (fun i => header_text (day_name i) (2 * Z.to_nat (i - init)))
                 (seqZ init (7 - init)).
Let titles :=
  [mkText 0.05%Q 0.875%Q (PyStr (month_name m)) "left" (PyStr "72") "Foglihten" transFigure;
   mkText 0.92%Q 0.875%Q (PyStr (year tide_o)) "right" (PyStr "72") "Foglihten" transFigure;
   mkText 0.92%Q 0.1%Q (PyStr (station_name tide_o +:+ ", " +:+ state tide_o)) "right"
     (PyStr "16") "Foglihten" transFigure;
   mkText 0.92%Q 0.13%Q (PyStr "Sun * Moon * Tide") "right" (PyStr "36") "FoglihtenNo01"
     transFigure].
Let margins : list (string * Q) :=
  [("left", 0.05%Q); ("right", 0.95%Q); ("bottom", 0.1%Q); ("top", 0.8%Q);
   ("hspace", 0.0%Q); ("wspace", 0.0%Q)]%string.

Lemma init_day_range : 0 <= init <= 6.
Proof. unfold init. Z.div_mod_to_equations. lia. Qed.

Lemma month_page_layout_loop :
  month_page_layout env (year_month y m) tide_o sun_o moon_o
  = '(fig, daily_axes, gridnum) ←
      for_gen (gen_of_list (map (date_string y m) (seqZ 1 (month_length y m)))) body
        (plt_figure (8.5%Q, 11%Q), [], init);
    fig ← for_list (range init 7) (weekday_header init daily_axes)
            (subplots_adjust fig margins);
    fig ← for_list (range 0 init) (blank_box (mkGridSpec 12 7) init) fig;
    Return (mkFigure (figsize fig) (fig_axes fig) (current_axes fig)
              (fig_texts fig ++ titles) (fig_images fig) (subplotpars fig)).
Proof.
  unfold month_page_layout. cbv zeta.
  rewrite to_datetime_year_month by assumption. cbn [mbind result_bind].
  destruct (init_day_of_year_month y m Hv) as [-> _]. cbn [mbind result_bind].
  rewrite days_in_month_items by assumption. rewrite strftime_month_name by assumption.
  fold init. fold body.
  destruct (for_gen _ body _) as [[[fig daily] g]|e]; [|reflexivity].
  cbn [mbind result_bind]. fold margins.
  destruct (for_list (range init 7) _ _) as [fig2|e]; [|reflexivity].
  cbn [mbind result_bind].
  destruct (for_list (range 0 init) _ _) as [fig3|e]; [|reflexivity].
  cbn [mbind result_bind]. f_equal. unfold fig_text, titles.
  cbn [figsize fig_axes current_axes fig_texts fig_images subplotpars].
  rewrite <- !app_assoc. reflexivity.
Qed.

Lemma month_page_layout_after_days fig0 daily_axes gridnum :
  for_gen (gen_of_list (map (date_string y m) (seqZ 1 (month_length y m)))) body
    (plt_figure (8.5%Q, 11%Q), [], init)
  = Return (fig0, daily_axes, gridnum) ->
  exists days blanks cur,
    month_page_layout env (year_month y m) tide_o sun_o moon_o
    = Return (mkFigure (8.5%Q, 11%Q)
                (alter (add_texts headers) (2 * n - 1)%nat days ++ blanks) cur
                titles [] (Some margins))
    /\ length days = (2 * n)%nat
    /\ map subplotspec days = day_cells init (month_length y m)
    /\ length (concat (map texts days)) = (2 * n)%nat
    /\ (forall i : nat, (i < n)%nat ->
          exists A1, days !! (2 * i)%nat = Some A1
            /\ subplotspec A1 = cell_of init (Z.of_nat i))
    /\ length blanks = (2 * Z.to_nat init)%nat
    /\ map subplotspec blanks = blank_cells init
    /\ length (concat (map texts blanks)) = Z.to_nat init
    /\ (forall i : nat, (i < Z.to_nat init)%nat ->
          exists B1 B2,
            blanks !! (2 * i)%nat = Some B1 /\ blanks !! (2 * i + 1)%nat = Some B2
            /\ subplotspec B1 = Z.of_nat i
            /\ texts B2 = [header_text (day_name (Z.of_nat i)) (2 * n + 2 * i)%nat]).
Proof.
  intros H. pose proof Hv as [Hm _].
  pose proof (month_length_bounds y m Hm) as Hlen. pose proof init_day_range as Hinit.
  assert (Z.of_nat n = month_length y m) as Hn by (unfold n; lia).
  rewrite month_page_layout_loop, H. cbn [mbind result_bind].
  assert (cell_of init 0 = init) as Hcell0
    by (unfold cell_of; Z.div_mod_to_equations; lia).
  change 1 with (1 + 0) in H at 1. rewrite <- Hcell0 in H.
  rewrite <- (Z2Nat.id (month_length y m)) in H by lia. fold n in H.
  apply plot_days_month in H as (days & cur & -> & Hcur & -> & Hdlen & Hdcells & Hdtexts & Hdays);
    [|assumption|lia|lia].
  cbn [plt_figure figsize fig_axes current_axes fig_texts fig_images subplotpars app
       subplots_adjust length] in *.
  assert (cur = (2 * n - 1)%nat) as ->.
  { rewrite Hcur. assert (exists k, n = S k) as [k Hk] by (exists (pred n); lia).
    rewrite Hk. cbv beta iota. lia. }
  unfold range.
  rewrite <- (Z2Nat.id (7 - init)) by lia.
  rewrite (weekday_headers_loop init _ (Z.to_nat (7 - init)) init); try lia.
  2:{ intros i Hi. rewrite list_lookup_fmap.
      rewrite (proj2 (lookup_seq 0 n (Z.to_nat (i - init)) (Z.to_nat (i - init))))
        by (split; lia). reflexivity. }
  cbn [mbind result_bind]. rewrite foldl_plt_text.
  cbn [subplots_adjust figsize fig_axes current_axes fig_texts fig_images subplotpars].
  rewrite (Z2Nat.id (7 - init)) by lia. fold headers.
  replace (init - 0) with (Z.of_nat (Z.to_nat init)) by lia.
  destruct (blank_boxes_loop init (Z.to_nat init) 0
              (mkFigure (8.5%Q, 11%Q) (alter (add_texts headers) (2 * n - 1)%nat days)
                 (2 * n - 1)%nat [] [] (Some margins)) ltac:(lia) ltac:(lia))
    as (blanks & cur' & -> & Hblen & Hbcells & Hbtexts & Hblanks).
  cbn [mbind result_bind figsize fig_axes current_axes fig_texts fig_images subplotpars app]
    in *.
  exists days, blanks, cur'. split; [reflexivity|].
  split; [exact Hdlen|].
  split; [rewrite Hdcells, Hn; reflexivity|].
  split; [exact Hdtexts|].
  split.
  { intros i Hi. destruct (Hdays i Hi) as (A1 & HA1 & Hc). exists A1.
    split; [exact HA1|]. rewrite Hc. f_equal; lia. }
  split; [exact Hblen|].
  split; [rewrite Hbcells; unfold blank_cells; rewrite Z2Nat.id by lia; reflexivity|].
  split; [exact Hbtexts|].
  intros i Hi. destruct (Hblanks i Hi) as (B1 & B2 & H1 & H2 & H3 & H4).
  exists B1, B2. split; [exact H1|]. split; [exact H2|]. split; [lia|].
  rewrite H4, length_alter, Hdlen. reflexivity.
Qed.

(** The page as it is laid out, whenever it is. *)
Lemma month_page_layout_shape fig :
  month_page_layout env (year_month y m) tide_o sun_o moon_o = Return fig ->
  exists days blanks,
    fig_axes fig = alter (add_texts headers) (2 * n - 1)%nat days ++ blanks
    /\ length days = (2 * n)%nat
    /\ map subplotspec days = day_cells init (month_length y m)
    /\ length (concat (map texts days)) = (2 * n)%nat
    /\ (forall i : nat, (i < n)%nat ->
          exists A1, days !! (2 * i)%nat = Some A1
            /\ subplotspec A1 = cell_of init (Z.of_nat i))
    /\ length blanks = (2 * Z.to_nat init)%nat
    /\ map subplotspec blanks = blank_cells init
    /\ length (concat (map texts blanks)) = Z.to_nat init
    /\ (forall i : nat, (i < Z.to_nat init)%nat ->
          exists B1 B2,
            blanks !! (2 * i)%nat = Some B1 /\ blanks !! (2 * i + 1)%nat = Some B2
            /\ subplotspec B1 = Z.of_nat i
            /\ texts B2 = [header_text (day_name (Z.of_nat i)) (2 * n + 2 * i)%nat])
    /\ figsize fig = (8.5%Q, 11%Q) /\ fig_texts fig = titles
    /\ fig_images fig = [] /\ subplotpars fig = Some margins.
Proof.
  intros H.
  destruct (for_gen (gen_of_list (map (date_string y m) (seqZ 1 (month_length y m)))) body
              (plt_figure (8.5%Q, 11%Q), [], init)) as [[[fig0 daily] g]|e] eqn:Hloop.
  - destruct (month_page_layout_after_days _ _ _ Hloop)
      as (days & blanks & cur & E & H1 & H2 & H3 & H4 & H5 & H6 & H7 & H8).
    rewrite E in H. injection H as <-. exists days, blanks.
    cbn [figsize fig_axes fig_texts fig_images subplotpars].
    repeat (split; [assumption || reflexivity|]). reflexivity.
  - rewrite month_page_layout_loop, Hloop in H. discriminate.
Qed.

(** With an entry for every day, and entries that are well formed, the
    page is laid out. *)
Lemma month_page_layout_complete :
  (forall d, 1 <= d <= month_length y m -> well_formed env tide_o sun_o moon_o y m d) ->
  (forall d, 1 <= d <= month_length y m ->
     has_entries tide_o sun_o moon_o (date_string y m d)) ->
  exists fig, month_page_layout env (year_month y m) tide_o sun_o moon_o = Return fig.
Proof.
  intros Hwf Hall. pose proof Hv as [Hm _].
  pose proof (month_length_bounds y m Hm) as Hlen.
  destruct (plot_days_complete env tide_o sun_o moon_o y m n Hv 0
              (plt_figure (8.5%Q, 11%Q)) []) as (fig0 & daily & g & Hloop).
  - lia.
  - unfold n. lia.
  - intros i Hi. apply Hwf. unfold n in Hi. lia.
  - intros i Hi. apply Hall. unfold n in Hi. lia.
  - unfold n in Hloop. rewrite Z2Nat.id in Hloop by lia.
    replace (cell_of (ymd2ord y m 1 mod 7) 0) with init in Hloop
      by (unfold cell_of, init; Z.div_mod_to_equations; lia).
    destruct (month_page_layout_after_days _ _ _ Hloop) as (days & blanks & cur & E & _).
    eexists. exact E.
Qed.

End page_of_month.

(** ** The page and the logo *)

Lemma place_logo_Return env fig fig' :
  place_logo env fig = Return fig' ->
  exists logo pixels,
    get_data env "cal_draw" "graphics/logo.png" = Return logo
    /\ Image_open env (default [] logo) = Return pixels
    /\ np_float env = true
    /\ fig' = figimage fig (map (map (fun px => (inject_Z px / 255)%Q)) pixels) 505 70.
Proof.
  unfold place_logo. intros H.
  apply bind_Return in H as (logo & Hlogo & H).
  apply bind_Return in H as (pixels & Hopen & H).
  apply bind_Return in H as (im & Him & H). injection H as <-.
  destruct (np_float env); [|discriminate]. injection Him as <-.
  by exists logo, pixels.
Qed.

Lemma month_page_Return env month_string tide_o sun_o moon_o fig printed :
  month_page env month_string tide_o sun_o moon_o = Return (fig, printed) ->
  exists fig1,
    month_page_layout env month_string tide_o sun_o moon_o = Return fig1
    /\ place_logo env fig1 = Return fig /\ printed = [].
Proof.
  unfold month_page. intros H. apply bind_Return in H as (fig1 & Hlayout & H).
  exists fig1. split; [exact Hlayout|].
  destruct (place_logo env fig1) as [fig2|e].
  - injection H as <- <-. split; reflexivity.
  - destruct (is_Exception e); discriminate.
Qed.

(** The layout places no image, whatever the month string. *)
Lemma month_page_layout_images env month_string tide_o sun_o moon_o fig :
  month_page_layout env month_string tide_o sun_o moon_o = Return fig ->
  fig_images fig = [].
Proof.
  unfold month_page_layout. cbv zeta. intros H.
  apply bind_Return in H as (month_title & _ & H).
  apply bind_Return in H as (init_day & _ & H).
  apply bind_Return in H as ([[fig0 daily_axes] gridnum] & Hloop & H).
  apply bind_Return in H as (fig2 & Hheaders & H).
  apply bind_Return in H as (fig3 & Hblanks & H).
  injection H as <-.
  destruct (plot_days_Return _ _ _ _ _ _ _ _ _ _ _ _ _ _ _ [] Hloop)
    as (_ & _ & _ & _ & _ & _ & _ & Hims & _).
  apply (for_list_furniture _ _ (weekday_header_furniture init_day daily_axes))
    in Hheaders as (_ & _ & Hims2 & _).
  apply (for_list_furniture _ _ (blank_box_furniture (mkGridSpec 12 7) init_day))
    in Hblanks as (_ & _ & Hims3 & _).
  cbn [fig_text fig_images]. rewrite Hims3, Hims2. cbn [subplots_adjust fig_images].
  rewrite Hims. reflexivity.
Qed.

(** Whenever [month_page] returns a page, it has printed nothing, and the
    page carries the logo: the bytes of [graphics/logo.png], decoded,
    scaled by 1/255 with [np.float] at hand, and placed at the offset
    (505, 70).  No page is returned without the logo. *)
Theorem month_page_returns_with_logo env month_string tide_o sun_o moon_o fig printed :
  month_page env month_string tide_o sun_o moon_o = Return (fig, printed) ->
  printed = []
  /\ np_float env = true
  /\ exists logo pixels,
       get_data env "cal_draw" "graphics/logo.png" = Return logo
       /\ Image_open env (default [] logo) = Return pixels
       /\ fig_images fig
          = [(map (map (fun px => (inject_Z px / 255)%Q)) pixels, 505, 70)].
Proof.
  intros H. apply month_page_Return in H as (fig1 & Hlayout & Hlogo & ->).
  apply place_logo_Return in Hlogo as (logo & pixels & Hdata & Hopen & Hfloat & ->).
  split; [reflexivity|]. split; [exact Hfloat|].
  exists logo, pixels. split; [exact Hdata|]. split; [exact Hopen|].
  cbn [figimage fig_images].
  rewrite (month_page_layout_images _ _ _ _ _ _ Hlayout). reflexivity.
Qed.

(** With, for every day of the month, an entry in each lookup, a series
    with samples in each of the three, a phase index within the table of
    glyphs, and 00:00 and 23:59 of the day localized by the time zone of the
    station, and with a logo that loads, [month_page] returns a page and
    prints nothing. *)
Theorem month_page_complete env tide_o sun_o moon_o y m logo pixels :
  valid_year_month y m ->
  (forall d, 1 <= d <= month_length y m -> well_formed env tide_o sun_o moon_o y m d) ->
  (forall d, 1 <= d <= month_length y m ->
     has_entries tide_o sun_o moon_o (date_string y m d)) ->
  get_data env "cal_draw" "graphics/logo.png" = Return logo ->
  Image_open env (default [] logo) = Return pixels ->
  np_float env = true ->
  exists fig, month_page env (year_month y m) tide_o sun_o moon_o = Return (fig, []).
Proof.
  intros Hv Hwf Hall Hdata Hopen Hfloat.
  destruct (month_page_layout_complete env tide_o sun_o moon_o y m Hv Hwf Hall)
    as [fig1 Hlayout].
  unfold month_page. rewrite Hlayout. cbn [mbind result_bind].
  unfold place_logo. rewrite Hdata. cbn [mbind result_bind].
  rewrite Hopen. cbn [mbind result_bind]. rewrite Hfloat. cbn [mbind result_bind].
  eexists. reflexivity.
Qed.

(** ** A series without samples *)

Lemma fill_between_empty fig ax (s : Series) y2 color alpha :
  samples s = [] ->
  fill_between fig ax (index s) (values s) y2 color alpha = Raise TypeError.
Proof. unfold fill_between, index. intros ->. reflexivity. Qed.

Lemma plot_day_empty_series env tide_o sun_o moon_o y m j fig daily_axes s mo ti p :
  valid_year_month y m -> 0 <= j < month_length y m ->
  (exists off, tz_utcoffset env (timezone tide_o) (timestamp_at y m (1 + j) 0 0)
               = Return off) ->
  (exists off, tz_utcoffset env (timezone tide_o) (timestamp_at y m (1 + j) 23 59)
               = Return off) ->
  heights sun_o !! date_string y m (1 + j) = Some s ->
  heights moon_o !! date_string y m (1 + j) = Some mo ->
  all_tides tide_o !! date_string y m (1 + j) = Some ti ->
  phase_day_num moon_o !! date_string y m (1 + j) = Some p -> -28 <= p < 28 ->
  samples s = [] \/ samples mo = [] \/ samples ti = [] ->
  plot_day env tide_o sun_o moon_o (mkGridSpec 12 7) (annual_min tide_o) (annual_max tide_o)
    (timezone tide_o) (date_string y m (1 + j))
    (fig, daily_axes, cell_of (ymd2ord y m 1 mod 7) j)
  = Raise TypeError.
Proof.
  intros Hv Hj [off0 Hoff0] [off1 Hoff1] Hs Hmo Hti Hp Hrange Hempty.
  destruct (to_datetime_date y m (1 + j) 0 0 "0" "0" "0" "0" Hv) as [_ Ht0];
    try (reflexivity || lia).
  destruct (to_datetime_date y m (1 + j) 23 59 "2" "3" "5" "9" Hv) as [_ Ht1];
    try (reflexivity || lia).
  destruct (cell_in_grid y m j Hv Hj) as (_ & _ & Hg1 & Hg2).
  unfold plot_day, _plot_a_date, dict_get, tz_localize, plt_subplot.
  rewrite Hs, Hmo, Hti. cbn [mbind result_bind]. cbv zeta.
  rewrite Ht0, Ht1. cbn [mbind result_bind].
  rewrite Hoff0, Hoff1. cbn [mbind result_bind].
  rewrite Hg1. cbn [mbind result_bind].
  destruct (decide (samples s = [])) as [Es|Es];
    [rewrite (fill_between_empty _ _ s) by exact Es; reflexivity|].
  rewrite (fill_between_samples _ _ s) by exact Es. cbn [mbind result_bind].
  destruct (decide (samples mo = [])) as [Em|Em];
    [rewrite (fill_between_empty _ _ mo) by exact Em; reflexivity|].
  rewrite (fill_between_samples _ _ mo) by exact Em. cbn [mbind result_bind].
  destruct Hempty as [?|[?|Et]]; [done|done|].
  destruct (py_index_first s Es) as [first ->]. cbn [mbind result_bind].
  rewrite Hp. cbn [mbind result_bind].
  destruct (py_index_moon_icon p Hrange) as [icon ->].
  cbn [mbind result_bind current_axes figsize fig_axes fig_texts fig_images subplotpars
       plt_text update_axes].
  rewrite Hg2. cbn [mbind result_bind].
  rewrite (fill_between_empty _ _ ti) by exact Et. reflexivity.
Qed.

Lemma plot_days_first_failure env tide_o sun_o moon_o y m jm e (k : nat) :
  valid_year_month y m ->
  forall j fig daily_axes,
  0 <= j <= jm -> jm < month_length y m -> j + Z.of_nat k = month_length y m ->
  (forall i, j <= i < jm -> well_formed env tide_o sun_o moon_o y m (1 + i)) ->
  (forall i, j <= i < jm -> has_entries tide_o sun_o moon_o (date_string y m (1 + i))) ->
  (forall fig daily_axes,
     plot_day env tide_o sun_o moon_o (mkGridSpec 12 7) (annual_min tide_o)
       (annual_max tide_o) (timezone tide_o) (date_string y m (1 + jm))
       (fig, daily_axes, cell_of (ymd2ord y m 1 mod 7) jm)
     = Raise e) ->
  for_gen (gen_of_list (map (date_string y m) (seqZ (1 + j) (Z.of_nat k))))
    (plot_day env tide_o sun_o moon_o (mkGridSpec 12 7) (annual_min tide_o)
       (annual_max tide_o) (timezone tide_o))
    (fig, daily_axes, cell_of (ymd2ord y m 1 mod 7) j)
  = Raise e.
Proof.
  intros Hv. induction k as [|k IH]; intros j fig daily Hj Hjm Hjk Hwf Hbefore Hfail; [lia|].
  rewrite seqZ_cons by lia. cbn [map gen_of_list foldr for_gen].
  destruct (decide (j = jm)) as [->|Hne].
  - rewrite Hfail. reflexivity.
  - destruct (plot_day_step env tide_o sun_o moon_o y m Hv j fig daily ltac:(lia)
                (Hwf j ltac:(lia))) as [Hok _].
    destruct (Hok (Hbefore j ltac:(lia))) as (fig' & daily' & ->).
    cbn [mbind result_bind].
    replace (Z.succ (1 + j)) with (1 + (j + 1)) by lia.
    replace (Z.pred (Z.of_nat (S k))) with (Z.of_nat k) by lia.
    apply (IH (j + 1)); try lia; try assumption.
    + intros i Hi. apply Hwf. lia.
    + intros i Hi. apply Hbefore. lia.
Qed.

(** A series that is there but has no sample stops the page: when the days
    before a date are drawn, the date has its four entries, its phase index
    is an index of the table and its 00:00 and 23:59 are localized, and the
    series of the Sun, of the Moon or of the tide of the date is empty, then
    [fill_between] raises [TypeError] and [month_page] ends with it. *)
Theorem empty_series_aborts env tide_o sun_o moon_o y m d s mo ti p :
  valid_year_month y m -> 1 <= d <= month_length y m ->
  (forall d', 1 <= d' < d -> well_formed env tide_o sun_o moon_o y m d') ->
  (forall d', 1 <= d' < d -> has_entries tide_o sun_o moon_o (date_string y m d')) ->
  (exists off, tz_utcoffset env (timezone tide_o) (timestamp_at y m d 0 0) = Return off) ->
  (exists off, tz_utcoffset env (timezone tide_o) (timestamp_at y m d 23 59) = Return off) ->
  heights sun_o !! date_string y m d = Some s ->
  heights moon_o !! date_string y m d = Some mo ->
  all_tides tide_o !! date_string y m d = Some ti ->
  phase_day_num moon_o !! date_string y m d = Some p -> -28 <= p < 28 ->
  samples s = [] \/ samples mo = [] \/ samples ti = [] ->
  month_page env (year_month y m) tide_o sun_o moon_o = Raise TypeError.
Proof.
  intros Hv Hd Hwf Hbefore Htz0 Htz1 Hs Hmo Hti Hp Hrange Hempty.
  pose proof Hv as [Hm _]. pose proof (month_length_bounds y m Hm) as Hlen.
  unfold month_page, month_page_layout. cbv zeta.
  rewrite to_datetime_year_month by assumption. cbn [mbind result_bind].
  destruct (init_day_of_year_month y m Hv) as [-> _]. cbn [mbind result_bind].
  rewrite days_in_month_items by assumption.
  pose proof (plot_days_first_failure env tide_o sun_o moon_o y m (d - 1) TypeError
                (Z.to_nat (month_length y m)) Hv 0 (plt_figure (8.5%Q, 11%Q)) []) as Hloop.
  rewrite Z2Nat.id in Hloop by lia.
  replace (cell_of (ymd2ord y m 1 mod 7) 0) with (ymd2ord y m 1 mod 7) in Hloop
    by (unfold cell_of; Z.div_mod_to_equations; lia).
  replace (1 + (d - 1)) with d in Hloop by lia. change (1 + 0) with 1 in Hloop.
  rewrite Hloop; [reflexivity|lia|lia|lia| | |].
  - intros i Hi. apply Hwf. lia.
  - intros i Hi. apply Hbefore. lia.
  - intros fig daily.
    pose proof (plot_day_empty_series env tide_o sun_o moon_o y m (d - 1) fig daily
                  s mo ti p Hv ltac:(lia)) as Hday.
    replace (1 + (d - 1)) with d in Hday by lia.
    apply Hday; assumption.
Qed.

(** ** The cells of a page *)

Lemma alter_add_texts_cells ts l : forall i,
  map subplotspec (alter (add_texts ts) i l) = map subplotspec l.
Proof.
  induction l as [|a l IH]; intros [|i]; try reflexivity.
  - cbn. f_equal. apply add_texts_fields.
  - cbn. f_equal. apply IH.
Qed.

Lemma alter_add_texts_count ts l : forall i,
  (i < length l)%nat ->
  length (concat (map texts (alter (add_texts ts) i l)))
  = (length (concat (map texts l)) + length ts)%nat.
Proof.
  induction l as [|a l IH]; intros [|i] Hi; cbn [length] in Hi; try lia.
  - cbn. destruct (add_texts_fields ts a) as (_ & -> & _).
    rewrite !length_app. lia.
  - cbn. rewrite !length_app. rewrite (IH i) by lia. lia.
Qed.

Lemma pairs_Permutation {A : Type} (f g : Z -> A) l :
  concat (map (fun k => [f k; g k]) l) ≡ₚ map f l ++ map g l.
Proof.
  induction l as [|a l IH]; [reflexivity|].
  cbn. rewrite IH. constructor. apply Permutation_middle.
Qed.

Lemma elem_of_day_cells init_day n c :
  c ∈ day_cells init_day n
  <-> exists k, 0 <= k < n /\ (c = cell_of init_day k \/ c = cell_of init_day k + 7).
Proof.
  unfold day_cells. rewrite pairs_Permutation, elem_of_app, !list_elem_of_fmap.
  split.
  - intros [(k & -> & Hk)|(k & -> & Hk)]; apply elem_of_seqZ in Hk; exists k;
      (split; [lia|]); [left|right]; reflexivity.
  - intros (k & Hk & [->| ->]); [left|right]; exists k;
      (split; [reflexivity|]); apply elem_of_seqZ; lia.
Qed.

Lemma elem_of_blank_cells init_day c :
  c ∈ blank_cells init_day <-> exists i, 0 <= i < init_day /\ (c = i \/ c = i + 7).
Proof.
  unfold blank_cells. rewrite pairs_Permutation, elem_of_app, !list_elem_of_fmap.
  split.
  - intros [(k & -> & Hk)|(k & -> & Hk)]; apply elem_of_seqZ in Hk; exists k;
      (split; [lia|]); [left|right]; reflexivity.
  - intros (k & Hk & [->| ->]); [left|right]; exists k;
      (split; [reflexivity|]); apply elem_of_seqZ; lia.
Qed.

Lemma NoDup_pairs (f g : Z -> Z) l :
  NoDup l ->
  (forall a b, f a = f b -> a = b) -> (forall a b, g a = g b -> a = b) ->
  (forall a b, a ∈ l -> b ∈ l -> f a <> g b) ->
  NoDup (concat (map (fun k => [f k; g k]) l)).
Proof.
  intros Hl Hf Hg Hfg. rewrite pairs_Permutation. apply NoDup_app. split; [|split].
  - apply NoDup_fmap_2_strong; [|exact Hl]. intros a b _ _. apply Hf.
  - intros c Hc Hc'. apply list_elem_of_fmap in Hc as (a & -> & Ha).
    apply list_elem_of_fmap in Hc' as (b & E & Hb). by apply (Hfg a b).
  - apply NoDup_fmap_2_strong; [|exact Hl]. intros a b _ _. apply Hg.
Qed.

Lemma NoDup_page_cells init_day n :
  0 <= init_day <= 6 -> NoDup (day_cells init_day n ++ blank_cells init_day).
Proof.
  intros Hinit. apply NoDup_app. split; [|split].
  - apply NoDup_pairs; [apply NoDup_seqZ|intros a b|intros a b|intros a b _ _];
      unfold cell_of; Z.div_mod_to_equations; lia.
  - intros c Hc Hc'. apply elem_of_day_cells in Hc as (k & Hk & Hc).
    apply elem_of_blank_cells in Hc' as (i & Hi & Hc').
    revert Hc Hc'. unfold cell_of. Z.div_mod_to_equations. lia.
  - apply NoDup_pairs; [apply NoDup_seqZ|intros a b; lia|intros a b; lia|].
    intros a b Ha Hb. apply elem_of_seqZ in Ha. apply elem_of_seqZ in Hb. lia.
Qed.

Lemma dayofweek_range t : 0 <= dayofweek t <= 6.
Proof. unfold dayofweek. Z.div_mod_to_equations. lia. Qed.

(** The axes of a month page, in the order of their creation, occupy the
    cells of the days, two for each day by the closed form of the cursor,
    followed by the cells of the empty boxes, one pair for each column
    before the first day.  The page has two axes for each day of the month
    and two for each empty column; it has no empty box exactly when the
    month begins on a Sunday. *)
Theorem month_page_axes_cells env tide_o sun_o moon_o y m fig printed :
  valid_year_month y m ->
  month_page env (year_month y m) tide_o sun_o moon_o = Return (fig, printed) ->
  exists init_day,
    init_day_of (year_month y m) = Return init_day
    /\ 0 <= init_day <= 6
    /\ cells_of fig = day_cells init_day (month_length y m) ++ blank_cells init_day
    /\ Z.of_nat (length (fig_axes fig)) = 2 * month_length y m + 2 * init_day
    /\ (init_day = 0 <-> dayofweek (timestamp_at y m 1 0 0) = 6).
Proof.
  intros Hv H. pose proof Hv as [Hm _].
  pose proof (month_length_bounds y m Hm) as Hlen.
  apply month_page_Return in H as (fig1 & Hlayout & Hlogo & _).
  apply place_logo_Return in Hlogo as (_ & pixels & _ & _ & _ & ->).
  destruct (month_page_layout_shape env tide_o sun_o moon_o y m Hv fig1 Hlayout)
    as (days & blanks & Haxes & Hdlen & Hdcells & _ & _ & Hblen & Hbcells & _).
  destruct (init_day_of_year_month y m Hv) as [Hinit Hdow].
  pose proof (dayofweek_range (timestamp_at y m 1 0 0)) as Hrange.
  exists (ymd2ord y m 1 mod 7). split; [exact Hinit|].
  split; [Z.div_mod_to_equations; lia|].
  unfold cells_of. cbn [figimage fig_axes]. rewrite Haxes.
  split; [rewrite map_app, alter_add_texts_cells, Hdcells, Hbcells; reflexivity|].
  split; [rewrite length_app, length_alter, Hdlen, Hblen; Z.div_mod_to_equations; lia|].
  rewrite Hdow. Z.div_mod_to_equations. lia.
Qed.

(** No two axes of a month page share a cell of the grid; every cell
    that is used lies in the grid of 84 cells; and the first two rows of the
    grid, the week in which the month begins, are filled completely, by the
    days of that week and by the empty boxes before them. *)
Theorem month_page_no_overlap env tide_o sun_o moon_o y m fig printed :
  valid_year_month y m ->
  month_page env (year_month y m) tide_o sun_o moon_o = Return (fig, printed) ->
  NoDup (cells_of fig)
  /\ (forall c, c ∈ cells_of fig -> 0 <= c <= 83)
  /\ (forall c, 0 <= c <= 13 -> c ∈ cells_of fig).
Proof.
  intros Hv H. pose proof Hv as [Hm _].
  pose proof (month_length_bounds y m Hm) as Hlen.
  apply month_page_Return in H as (fig1 & Hlayout & Hlogo & _).
  apply place_logo_Return in Hlogo as (_ & pixels & _ & _ & _ & ->).
  destruct (month_page_layout_shape env tide_o sun_o moon_o y m Hv fig1 Hlayout)
    as (days & blanks & Haxes & _ & Hdcells & _ & _ & _ & Hbcells & _).
  assert (0 <= ymd2ord y m 1 mod 7 <= 6) as Hinit by (Z.div_mod_to_equations; lia).
  unfold cells_of. cbn [figimage fig_axes].
  rewrite Haxes, map_app, alter_add_texts_cells, Hdcells, Hbcells.
  clear Haxes Hdcells Hbcells. revert Hinit.
  generalize (ymd2ord y m 1 mod 7). intros init Hinit.
  split; [by apply NoDup_page_cells|]. split.
  - intros c Hc. apply elem_of_app in Hc as [Hc|Hc].
    + apply elem_of_day_cells in Hc as (k & Hk & Hc).
      destruct (cell_of_bounds init k Hinit ltac:(lia)). lia.
    + apply elem_of_blank_cells in Hc as (i & Hi & Hc). lia.
  - intros c Hc. apply elem_of_app.
    destruct (decide (c < init \/ 7 <= c < 7 + init)) as [Hb|Hd].
    + right. apply elem_of_blank_cells.
      destruct (decide (c < init)); [exists c|exists (c - 7)]; lia.
    + left. apply elem_of_day_cells.
      destruct (decide (c <= 6)).
      * exists (c - init). split; [lia|]. left.
        unfold cell_of. Z.div_mod_to_equations. lia.
      * exists (c - 7 - init). split; [lia|]. right.
        unfold cell_of. Z.div_mod_to_equations. lia.
Qed.

(** ** The weekday headers *)

(** Each of the seven weekday names is drawn once above the first row:
    for every column [c] from Sunday, 0, to Saturday, 6, a text
    [day_names[c]] is on the page at (0.5, 1.08) in the coordinates of the
    axes that occupies cell [c], centered, in Foglihten at size 12.  With the
    day number and the glyph of each day these are all the texts of the
    axes: twice the number of days, and seven. *)
Theorem month_page_weekday_headers env tide_o sun_o moon_o y m fig printed :
  valid_year_month y m ->
  month_page env (year_month y m) tide_o sun_o moon_o = Return (fig, printed) ->
  Z.of_nat (length (axes_texts fig)) = 2 * month_length y m + 7
  /\ forall c, 0 <= c <= 6 ->
       exists name owner a ax,
         py_index day_names c = Return name
         /\ fig_axes fig !! owner = Some a
         /\ mkText 0.5%Q 1.08%Q (PyStr name) "center" (PyInt 12) "Foglihten" (transAxes ax)
            ∈ texts a
         /\ cells_of fig !! ax = Some c.
Proof.
  intros Hv H. pose proof Hv as [Hm _].
  pose proof (month_length_bounds y m Hm) as Hlen.
  apply month_page_Return in H as (fig1 & Hlayout & Hlogo & _).
  apply place_logo_Return in Hlogo as (_ & pixels & _ & _ & _ & ->).
  destruct (month_page_layout_shape env tide_o sun_o moon_o y m Hv fig1 Hlayout)
    as (days & blanks & Haxes & Hdlen & _ & Hdtexts & Hdays & Hblen & _ & Hbtexts & Hblanks & _).
  assert (0 <= ymd2ord y m 1 mod 7 <= 6) as Hinit by (Z.div_mod_to_equations; lia).
  unfold cells_of, axes_texts. cbn [figimage fig_axes]. rewrite Haxes.
  clear Haxes Hlayout. revert Hdays Hblen Hbtexts Hblanks Hinit.
  generalize (ymd2ord y m 1 mod 7). intros init Hdays Hblen Hbtexts Hblanks Hinit.
  set (n := Z.to_nat (month_length y m)) in *.
  assert (Z.of_nat n = month_length y m) as Hn by (unfold n; lia).
  split.
  { rewrite map_app, concat_app, length_app, alter_add_texts_count by lia.
    rewrite Hdtexts, Hbtexts, length_map, length_seqZ. lia. }
  intros c Hc. destruct (py_index_day_name c Hc) as [_ Hname].
  exists (day_name c). destruct (decide (init <= c)) as [Hday|Hblank].
  - destruct (lookup_lt_is_Some_2 days (2 * n - 1)%nat ltac:(lia)) as [A HA].
    destruct (Hdays (Z.to_nat (c - init)) ltac:(lia)) as (A1 & HA1 & Hcell).
    eexists (2 * n - 1)%nat, _, (2 * Z.to_nat (c - init))%nat.
    split; [exact Hname|]. split; [|split].
    + rewrite lookup_app_l by (rewrite length_alter; lia).
      rewrite list_lookup_alter_eq, HA. reflexivity.
    + destruct (add_texts_fields
                  (map (fun i => header_text (day_name i) (2 * Z.to_nat (i - init)))
                     (seqZ init (7 - init))) A) as (_ & -> & _).
      apply elem_of_app. right. apply list_elem_of_fmap. exists c.
      split; [reflexivity|]. apply elem_of_seqZ. lia.
    + rewrite list_lookup_fmap, lookup_app_l by (rewrite length_alter; lia).
      rewrite list_lookup_alter_ne by lia. rewrite HA1. cbn. f_equal. rewrite Hcell.
      unfold cell_of. Z.div_mod_to_equations. lia.
  - destruct (Hblanks (Z.to_nat c) ltac:(lia)) as (B1 & B2 & HB1 & HB2 & Hcell & Htexts).
    exists (2 * n + (2 * Z.to_nat c + 1))%nat, B2, (2 * n + 2 * Z.to_nat c)%nat.
    split; [exact Hname|]. split; [|split].
    + rewrite lookup_app_r by (rewrite length_alter; lia).
      rewrite length_alter, Hdlen.
      replace (2 * n + (2 * Z.to_nat c + 1) - 2 * n)%nat with (2 * Z.to_nat c + 1)%nat by lia.
      exact HB2.
    + rewrite Htexts, Z2Nat.id by lia. apply list_elem_of_singleton. reflexivity.
    + rewrite list_lookup_fmap, lookup_app_r by (rewrite length_alter; lia).
      rewrite length_alter, Hdlen.
      replace (2 * n + 2 * Z.to_nat c - 2 * n)%nat with (2 * Z.to_nat c)%nat by lia.
      rewrite HB1. cbn. f_equal. lia.
Qed.

(** ** The place of a day *)

(** On a month page every date is drawn in the column of its weekday,
    Sunday being column 0 and Saturday column 6, and in the pair of rows of
    its week: the illumination axes of day [d] is on the cell whose column
    is [(dayofweek + 1) mod 7] and whose row is twice the number of the
    week, [(init_day + d - 1) / 7], and the tide axes is on the cell right
    below it. *)
Theorem month_page_day_columns env tide_o sun_o moon_o y m fig printed :
  valid_year_month y m ->
  month_page env (year_month y m) tide_o sun_o moon_o = Return (fig, printed) ->
  forall d, 1 <= d <= month_length y m ->
    exists init_day ax1 ax2,
      init_day_of (year_month y m) = Return init_day
      /\ fig_axes fig !! (2 * Z.to_nat (d - 1))%nat = Some ax1
      /\ fig_axes fig !! (2 * Z.to_nat (d - 1) + 1)%nat = Some ax2
      /\ subplotspec ax1 mod 7 = (dayofweek (timestamp_at y m d 0 0) + 1) mod 7
      /\ subplotspec ax1 / 7 = 2 * ((init_day + d - 1) / 7)
      /\ subplotspec ax2 = subplotspec ax1 + 7.
Proof.
  intros Hv H d Hd. pose proof Hv as [Hm _].
  destruct (month_page_days _ _ _ _ _ _ _ H) as (cells & Hcells & Hdays).
  rewrite grid_indices_year_month in Hcells by assumption. injection Hcells as <-.
  rewrite days_in_month_items, gen_items_of_list in Hdays by assumption.
  assert (map (date_string y m) (seqZ 1 (month_length y m)) !! Z.to_nat (d - 1)
          = Some (date_string y m d)) as Hk.
  { rewrite list_lookup_fmap.
    rewrite (proj2 (lookup_seqZ 1 (month_length y m) (Z.to_nat (d - 1)) d)) by lia.
    reflexivity. }
  destruct (Hdays _ _ Hk) as (gk & A1 & A2 & A1' & A2' & Hgk & Hdone & HA1 & HA2 & Hs1 & Hs2).
  rewrite list_lookup_fmap in Hgk.
  rewrite (proj2 (lookup_seqZ 0 (month_length y m) (Z.to_nat (d - 1)) (d - 1))) in Hgk by lia.
  injection Hgk as <-.
  destruct Hdone as (s & mo & ti & t0 & t1 & off0 & off1 & first & phase & icon & cell1 & cell2
                  & _ & _ & _ & _ & _ & _ & _ & Hg1 & _ & _ & _ & Hg2 & -> & ->).
  destruct (cell_in_grid y m (d - 1) Hv ltac:(lia)) as (_ & _ & Hc1 & Hc2).
  rewrite Hc1 in Hg1. rewrite Hc2 in Hg2. injection Hg1 as <-. injection Hg2 as <-.
  destruct Hs1 as (Hsp1 & _). destruct Hs2 as (Hsp2 & _).
  cbn [subplotspec sun_moon_axes tide_axes add_text set_invisible set_linewidth set_yticks
       set_xticks set_ylim set_xlim add_fill new_axes] in Hsp1, Hsp2.
  exists (ymd2ord y m 1 mod 7), A1', A2'.
  split; [apply init_day_of_year_month; assumption|].
  split; [exact HA1|]. split; [exact HA2|].
  rewrite <- Hsp1, <- Hsp2. rewrite dayofweek_date by lia.
  unfold cell_of. generalize (ymd2ord y m 1). intros o.
  repeat split; Z.div_mod_to_equations; lia.
Qed.

(** ** The titles *)

(** The texts of the figure itself are four, in this order: the English
    name of the month of [month_string], the year string of the tide
    context, whatever the year of [month_string] is, the place as
    [station_name, state], and the words [Sun * Moon * Tide].  The page is
    8.5 by 11 inches with the margins 0.05, 0.95, 0.1 and 0.8 and no space
    between the cells. *)
Theorem month_page_titles env tide_o sun_o moon_o y m fig printed :
  valid_year_month y m ->
  month_page env (year_month y m) tide_o sun_o moon_o = Return (fig, printed) ->
  fig_texts fig
  = [mkText 0.05%Q 0.875%Q (PyStr (month_name m)) "left" (PyStr "72") "Foglihten"
       transFigure;
     mkText 0.92%Q 0.875%Q (PyStr (year tide_o)) "right" (PyStr "72") "Foglihten"
       transFigure;
     mkText 0.92%Q 0.1%Q (PyStr (station_name tide_o +:+ ", " +:+ state tide_o)) "right"
       (PyStr "16") "Foglihten" transFigure;
     mkText 0.92%Q 0.13%Q (PyStr "Sun * Moon * Tide") "right" (PyStr "36")
       "FoglihtenNo01" transFigure]
  /\ figsize fig = (8.5%Q, 11%Q)
  /\ subplotpars fig
     = Some [("left", 0.05%Q); ("right", 0.95%Q); ("bottom", 0.1%Q); ("top", 0.8%Q);
             ("hspace", 0.0%Q); ("wspace", 0.0%Q)]%string.
Proof.
  intros Hv H.
  apply month_page_Return in H as (fig1 & Hlayout & Hlogo & _).
  apply place_logo_Return in Hlogo as (_ & pixels & _ & _ & _ & ->).
  destruct (month_page_layout_shape env tide_o sun_o moon_o y m Hv fig1 Hlayout)
    as (_ & _ & _ & _ & _ & _ & _ & _ & _ & _ & _ & Hsize & Htitles & _ & Hpars).
  cbn [figimage fig_texts figsize subplotpars].
  split; [exact Htitles|]. split; [exact Hsize|exact Hpars].
Qed.

(** ** The days of a year *)

Lemma months_in_year_items y :
  1678 <= y <= 2261 ->
  months_in_year (pad4 y) = gen_of_list (map (year_month y) (seqZ 1 12)).
Proof.
  intros Hy. unfold months_in_year.
  change (pad4 y +:+ "-01") with (year_month y 1).
  rewrite to_datetime_year_month by (unfold valid_year_month; lia).
  cbn [gen_bind]. rewrite ts_add_months_first by lia.
  change ((1 - 1 + 12) / 12) with 1. change ((1 - 1 + 12) mod 12 + 1) with 1.
  rewrite (make_timestamp_first (y + 1) 1) by (unfold valid_year_month; lia).
  cbn [gen_bind]. apply (months_loop_within_year y 12 1); lia.
Qed.

Lemma ymd2ord_month_13 y : ymd2ord y 13 1 = ymd2ord (y + 1) 1 1.
Proof.
  pose proof (ymd2ord_next_month y 12 ltac:(lia)) as H.
  change (12 / 12) with 1 in H. change (12 mod 12 + 1) with 1 in H.
  rewrite H. unfold ymd2ord, days_before_month, days_before_month_leap, month_length.
  destruct (isleap y); cbn; lia.
Qed.

Lemma ymd2ord_succ_month y m :
  1 <= m <= 12 -> ymd2ord y (m + 1) 1 = ymd2ord y m 1 + month_length y m.
Proof.
  intros Hm. destruct (decide (m = 12)) as [->|Hne].
  - change (12 + 1) with 13. rewrite ymd2ord_month_13.
    pose proof (ymd2ord_next_month y 12 ltac:(lia)) as H.
    change (12 / 12) with 1 in H. change (12 mod 12 + 1) with 1 in H. exact H.
  - pose proof (ymd2ord_next_month y m Hm) as H.
    rewrite Z.div_small, Z.mod_small in H by lia.
    replace (y + 0) with y in H by lia. exact H.
Qed.

Lemma month_dates_ordinals y m :
  valid_year_month y m ->
  Forall2 (fun date o => to_datetime date = Return (mkTimestamp (o * 1440))
                     /\ strftime "%Y-%m-%d" (mkTimestamp (o * 1440)) = date)
    (map (date_string y m) (seqZ 1 (month_length y m)))
    (seqZ (ymd2ord y m 1) (month_length y m)).
Proof.
  intros Hv. pose proof Hv as [Hm _].
  apply Forall2_same_length_lookup_2; [by rewrite length_map, !length_seqZ|].
  intros i date o Hdate Ho. rewrite list_lookup_fmap in Hdate.
  destruct (seqZ 1 (month_length y m) !! i) as [d|] eqn:Hd; [|discriminate].
  injection Hdate as <-. apply lookup_seqZ in Hd as [-> Hi]. apply lookup_seqZ in Ho as [-> _].
  destruct (to_datetime_date y m (1 + Z.of_nat i) 0 0 "0" "0" "0" "0" Hv) as [-> _];
    try (reflexivity || lia).
  replace ((ymd2ord y m 1 + Z.of_nat i) * 1440)
    with (ymd2ord y m (1 + Z.of_nat i) * 1440 + 0)
    by (rewrite (ymd2ord_day y m (1 + Z.of_nat i)); lia).
  split; [unfold timestamp_at; do 2 f_equal; lia|].
  apply strftime_date; lia.
Qed.

Lemma year_dates_ordinals y (k : nat) : forall m,
  1678 <= y <= 2261 -> 1 <= m -> m + Z.of_nat k = 13 ->
  Forall2 (fun date o => to_datetime date = Return (mkTimestamp (o * 1440))
                     /\ strftime "%Y-%m-%d" (mkTimestamp (o * 1440)) = date)
    (concat (map (fun m => map (date_string y m) (seqZ 1 (month_length y m)))
               (seqZ m (Z.of_nat k))))
    (seqZ (ymd2ord y m 1) (ymd2ord (y + 1) 1 1 - ymd2ord y m 1)).
Proof.
  induction k as [|k IH]; intros m Hy Hm Hmk.
  - replace m with 13 by lia. rewrite ymd2ord_month_13, Z.sub_diag. constructor.
  - pose proof (month_length_bounds y m ltac:(lia)) as Hlen.
    pose proof (ymd2ord_succ_month y m ltac:(lia)) as Hnext.
    assert (ymd2ord y (m + 1) 1 <= ymd2ord (y + 1) 1 1) as Hle.
    { rewrite <- ymd2ord_month_13. unfold ymd2ord.
      pose proof (days_before_month_bounds y 13).
      destruct (decide (m = 12)) as [->|Hne]; [change (12 + 1) with 13; lia|].
      pose proof (days_before_month_mono y (m + 1) 12 ltac:(lia) ltac:(lia) ltac:(lia)).
      pose proof (ymd2ord_succ_month y 12 ltac:(lia)) as H12.
      change (12 + 1) with 13 in H12. unfold ymd2ord in H12.
      pose proof (month_length_bounds y 12 ltac:(lia)). lia. }
    rewrite seqZ_cons by lia. cbn [map concat].
    replace (ymd2ord (y + 1) 1 1 - ymd2ord y m 1)
      with (month_length y m + (ymd2ord (y + 1) 1 1 - ymd2ord y (m + 1) 1)) by lia.
    rewrite seqZ_app by lia. apply Forall2_app.
    + apply month_dates_ordinals. unfold valid_year_month. lia.
    + rewrite <- Hnext. replace (Z.succ m) with (m + 1) by lia.
      replace (Z.pred (Z.of_nat (S k))) with (Z.of_nat k) by lia.
      apply IH; lia.
Qed.

Lemma year_dates_items y :
  1678 <= y <= 2261 ->
  concat (map (fun month => gen_items (days_in_month month))
            (gen_items (months_in_year (pad4 y))))
  = concat (map (fun m => map (date_string y m) (seqZ 1 (month_length y m))) (seqZ 1 12)).
Proof.
  intros Hy. rewrite months_in_year_items, gen_items_of_list by assumption.
  rewrite map_map. f_equal. apply map_ext_in. intros m Hm.
  apply list_elem_of_In, elem_of_seqZ in Hm.
  rewrite days_in_month_items by (unfold valid_year_month; lia).
  apply gen_items_of_list.
Qed.

(** [months_in_year] and [days_in_month], one in the other as
    [generate_annual_calendar] and [month_page] run them, go through every
    day of the year once and in order: the dates they yield are as many as
    the year has days, 366 in a leap year and 365 otherwise, and the date at
    place [i] is the day that comes [i] days after the first of January,
    written as [%Y-%m-%d]. *)
Theorem year_of_days y :
  1678 <= y <= 2261 ->
  let dates := concat (map (fun month => gen_items (days_in_month month))
                         (gen_items (months_in_year (pad4 y)))) in
  Z.of_nat (length dates) = (if isleap y then 366 else 365)
  /\ forall (i : nat) date, dates !! i = Some date ->
       exists t, to_datetime date = Return t
         /\ value t = (ymd2ord y 1 1 + Z.of_nat i) * 1440
         /\ strftime "%Y-%m-%d" t = date.
Proof.
  intros Hy dates.
  assert (dates = concat (map (fun m => map (date_string y m) (seqZ 1 (month_length y m)))
                           (seqZ 1 12))) as Hdates.
  { apply year_dates_items. assumption. }
  assert (ymd2ord (y + 1) 1 1 - ymd2ord y 1 1 = if isleap y then 366 else 365) as Hdays.
  { unfold ymd2ord. rewrite days_before_year_succ.
    unfold days_before_month, days_before_month_leap. cbn [DAYS_BEFORE_MONTH].
    change (1 >? 2) with false. cbn [andb]. destruct (isleap y); lia. }
  pose proof (year_dates_ordinals y 12 1 Hy ltac:(lia) ltac:(lia)) as Hall.
  change (Z.of_nat 12) with 12 in Hall. rewrite <- Hdates, Hdays in Hall.
  split.
  - rewrite (Forall2_length _ _ _ Hall), length_seqZ. destruct (isleap y); lia.
  - intros i date Hi.
    destruct (Forall2_lookup_l _ _ _ _ _ Hall Hi) as (o & Ho & Hparse & Hformat).
    apply lookup_seqZ in Ho as [-> Hlt].
    eexists. split; [exact Hparse|]. split; [reflexivity|exact Hformat].
Qed.

(** ** Years that timestamps cannot hold *)

Lemma to_datetime_january y :
  1 <= y <= 9999 ->
  to_datetime (pad4 y +:+ "-01") = make_timestamp (ymd2ord y 1 1 * 1440 + 0 * 60 + 0).
Proof.
  intros Hy. change (pad4 y +:+ "-01") with (year_month y 1).
  apply to_datetime_fields; try lia.
  - apply parse_iso_year_month; lia.
  - pose proof (month_length_bounds y 1 ltac:(lia)). lia.
Qed.

(** For a year before 1678 or after 2262, [months_in_year] yields no month:
    the first of January lies outside [Timestamp.min .. Timestamp.max], and
    [pd.to_datetime] raises [OutOfBoundsDatetime] before the loop begins.
    [generate_annual_calendar] then raises it too, with no page made,
    whatever the data. *)
Theorem year_out_of_bounds y :
  1 <= y <= 1677 \/ 2263 <= y <= 9999 ->
  months_in_year (pad4 y) = GRaise OutOfBoundsDatetime
  /\ forall env tide_obj sun_obj moon_obj file_name,
       year tide_obj = pad4 y ->
       generate_annual_calendar env tide_obj sun_obj moon_obj file_name
       = Raise OutOfBoundsDatetime.
Proof.
  intros Hy.
  assert (months_in_year (pad4 y) = GRaise OutOfBoundsDatetime) as Hmonths.
  { unfold months_in_year. rewrite to_datetime_january by lia.
    assert (in_bounds (ymd2ord y 1 1 * 1440 + 0 * 60 + 0) = false) as Hout.
    { unfold in_bounds. rewrite TS_MIN_value, TS_MAX_value.
      assert (ymd2ord y 1 1 = days_before_year y + 1) as ->.
      { unfold ymd2ord, days_before_month, days_before_month_leap.
        cbn [DAYS_BEFORE_MONTH]. change (1 >? 2) with false. cbn [andb]. lia. }
      apply andb_false_iff. destruct Hy as [Hy|Hy].
      - left. apply Z.leb_gt.
        pose proof (days_before_year_mono y 1677 ltac:(lia)) as H.
        change (days_before_year 1677) with 612147 in H. lia.
      - right. apply Z.leb_gt.
        pose proof (days_before_year_mono 2263 y ltac:(lia)) as H.
        change (days_before_year 2263) with 826178 in H. lia. }
    unfold make_timestamp. rewrite Hout. reflexivity. }
  split; [exact Hmonths|].
  intros env tide_obj sun_obj moon_obj file_name Hyear.
  unfold generate_annual_calendar. rewrite Hyear, Hmonths. reflexivity.
Qed.

(** ** The document of a year *)

Lemma save_months_output env tide_obj sun_obj moon_obj months :
  forall pages stdout pages' stdout',
  for_gen (gen_of_list months) (save_month env tide_obj sun_obj moon_obj) (pages, stdout)
  = Return (pages', stdout') ->
  length pages' = (length pages + length months)%nat
  /\ stdout'
     = stdout ++ concat (map (fun month =>
                               [PyStr (month +:+ " figure created, now saving...");
                                PyStr ("Saved " +:+ month)]) months).
Proof.
  induction months as [|month months IH]; intros pages stdout pages' stdout' H.
  - injection H as <- <-. rewrite app_nil_r. split; [cbn; lia|reflexivity].
  - cbn [gen_of_list foldr for_gen] in H.
    apply bind_Return in H as ([pages1 stdout1] & Hsave & H).
    unfold save_month in Hsave.
    apply bind_Return in Hsave as ([monthfig printed] & Hpage & Hsave).
    injection Hsave as <- <-.
    apply month_page_Return in Hpage as (_ & _ & _ & ->).
    apply IH in H as [Hlen ->]. split.
    + rewrite Hlen, length_app. cbn [length]. lia.
    + cbn [map concat app]. rewrite <- !app_assoc. reflexivity.
Qed.

Lemma save_month_unfold env tide_obj sun_obj moon_obj month pages stdout :
  save_month env tide_obj sun_obj moon_obj month (pages, stdout)
  = match month_page env month tide_obj sun_obj moon_obj with
    | Return (monthfig, printed) =>
        Return (pages ++ [monthfig],
                (stdout ++ printed ++ [PyStr (month +:+ " figure created, now saving...")])
                ++ [PyStr ("Saved " +:+ month)])
    | Raise e => Raise e
    end.
Proof.
  unfold save_month.
  destruct (month_page env month tide_obj sun_obj moon_obj) as [[monthfig printed]|e];
    reflexivity.
Qed.

(** The loop over the months stops at the first month whose page is not
    made, with the exception of that month. *)
Lemma save_months_first_failure env tide_obj sun_obj moon_obj y mf e (k : nat) :
  forall m pages stdout,
  1 <= m <= mf -> m + Z.of_nat k = 13 ->
  (forall m', m <= m' < mf ->
     exists page printed,
       month_page env (year_month y m') tide_obj sun_obj moon_obj = Return (page, printed)) ->
  month_page env (year_month y mf) tide_obj sun_obj moon_obj = Raise e ->
  mf <= 12 ->
  for_gen (gen_of_list (map (year_month y) (seqZ m (Z.of_nat k))))
    (save_month env tide_obj sun_obj moon_obj) (pages, stdout)
  = Raise e.
Proof.
  induction k as [|k IH]; intros m pages stdout Hm Hmk Hbefore Hfail Hmf; [lia|].
  rewrite seqZ_cons by lia. cbn [map gen_of_list foldr for_gen].
  destruct (decide (m = mf)) as [->|Hne].
  - rewrite save_month_unfold, Hfail. reflexivity.
  - destruct (Hbefore m ltac:(lia)) as (page & printed & Hpage).
    rewrite save_month_unfold, Hpage. cbn [mbind result_bind].
    replace (Z.pred (Z.of_nat (S k))) with (Z.of_nat k) by lia.
    apply (IH (Z.succ m)); try lia; try assumption.
    intros m' Hm'. apply Hbefore. lia.
Qed.

Lemma save_months_complete env tide_obj sun_obj moon_obj months :
  (forall month, month ∈ months ->
     exists page printed,
       month_page env month tide_obj sun_obj moon_obj = Return (page, printed)) ->
  forall pages stdout,
  exists pages' stdout',
    for_gen (gen_of_list months) (save_month env tide_obj sun_obj moon_obj) (pages, stdout)
    = Return (pages', stdout').
Proof.
  induction months as [|month months IH]; intros Hall pages stdout.
  - eexists _, _. reflexivity.
  - cbn [gen_of_list foldr for_gen].
    destruct (Hall month ltac:(left)) as (page & printed & Hpage).
    rewrite save_month_unfold, Hpage. cbn [mbind result_bind].
    apply IH. intros mo Hmo. apply Hall. by right.
Qed.

Lemma annual_calendar_output_lines env tide_obj sun_obj moon_obj file_name y pdf stdout :
  1678 <= y <= 2261 -> year tide_obj = pad4 y ->
  generate_annual_calendar env tide_obj sun_obj moon_obj file_name = Return (pdf, stdout) ->
  length (pdf_pages pdf) = 12%nat
  /\ stdout
     = concat (map (fun m => [PyStr (year_month y m +:+ " figure created, now saving...");
                              PyStr ("Saved " +:+ year_month y m)]) (seqZ 1 12)).
Proof.
  intros Hy Hyear H. unfold generate_annual_calendar in H.
  rewrite Hyear, months_in_year_items in H by assumption.
  apply bind_Return in H as ([pages out] & Hloop & H). injection H as <- <-.
  apply save_months_output in Hloop as [Hlen ->]. cbn [pdf_pages].
  split; [rewrite Hlen; reflexivity|].
  cbn [app]. rewrite map_map. reflexivity.
Qed.

(** When [generate_annual_calendar] returns for a year of 1678 to 2261,
    the document has twelve pages and keeps the file name as it was given,
    with no [.pdf] added; what was printed is, month after month from
    January to December, the line that the figure was created and the line
    that it was saved, and nothing else; and the information dictionary
    holds the title with the year string, the author, the station and the
    time of the clock. *)
Theorem annual_calendar_output env tide_obj sun_obj moon_obj file_name y pdf stdout :
  1678 <= y <= 2261 -> year tide_obj = pad4 y ->
  generate_annual_calendar env tide_obj sun_obj moon_obj file_name = Return (pdf, stdout) ->
  length (pdf_pages pdf) = 12%nat
  /\ stdout
     = concat (map (fun m => [PyStr (year_month y m +:+ " figure created, now saving...");
                              PyStr ("Saved " +:+ year_month y m)]) (seqZ 1 12))
  /\ pdf_file_name pdf = file_name
  /\ pdf_Title pdf = "Sun * Moon * Tide " +:+ pad4 y +:+ " Calendar"
  /\ pdf_Author pdf = "Sara Hendrix, CruzViz"%string
  /\ pdf_Subject pdf = station_name tide_obj +:+ ", " +:+ state tide_obj
  /\ pdf_CreationDate pdf = Some (timestamp_now env).
Proof.
  intros Hy Hyear H.
  destruct (annual_calendar_output_lines _ _ _ _ _ _ _ _ Hy Hyear H) as [Hlen Hout].
  split; [exact Hlen|]. split; [exact Hout|].
  unfold generate_annual_calendar in H.
  apply bind_Return in H as ([pages out] & _ & H). injection H as <- _.
  cbn [pdf_file_name pdf_Title pdf_Author pdf_Subject pdf_CreationDate].
  rewrite Hyear. repeat split.
Qed.

(** [generate_annual_calendar] catches nothing: the exception of the first
    month whose page [month_page] does not return is the exception of the
    whole call, and no later month is drawn. *)
Theorem annual_calendar_first_failure env tide_obj sun_obj moon_obj file_name y m e :
  1678 <= y <= 2261 -> year tide_obj = pad4 y -> 1 <= m <= 12 ->
  (forall m', 1 <= m' < m ->
     exists page printed,
       month_page env (year_month y m') tide_obj sun_obj moon_obj = Return (page, printed)) ->
  month_page env (year_month y m) tide_obj sun_obj moon_obj = Raise e ->
  generate_annual_calendar env tide_obj sun_obj moon_obj file_name = Raise e.
Proof.
  intros Hy Hyear Hm Hbefore Hfail. unfold generate_annual_calendar.
  rewrite Hyear, months_in_year_items by assumption.
  rewrite (save_months_first_failure env tide_obj sun_obj moon_obj y m e 12 1);
    (reflexivity || lia || assumption).
Qed.

(** With the year string of a year of 1678 to 2261 and, for every day of
    that year, an entry in each lookup, a series with samples in each of the
    three, a phase index within the table of glyphs, and 00:00 and 23:59 of
    the day localized by the time zone of the station, and with a logo that
    loads, [generate_annual_calendar] returns the document. *)
Theorem annual_calendar_complete env tide_obj sun_obj moon_obj file_name y logo pixels :
  1678 <= y <= 2261 -> year tide_obj = pad4 y ->
  (forall m d, 1 <= m <= 12 -> 1 <= d <= month_length y m ->
     well_formed env tide_obj sun_obj moon_obj y m d) ->
  (forall m d, 1 <= m <= 12 -> 1 <= d <= month_length y m ->
     has_entries tide_obj sun_obj moon_obj (date_string y m d)) ->
  get_data env "cal_draw" "graphics/logo.png" = Return logo ->
  Image_open env (default [] logo) = Return pixels ->
  np_float env = true ->
  exists pdf stdout,
    generate_annual_calendar env tide_obj sun_obj moon_obj file_name = Return (pdf, stdout)
    /\ length (pdf_pages pdf) = 12%nat.
Proof.
  intros Hy Hyear Hwf Hall Hdata Hopen Hfloat. unfold generate_annual_calendar.
  rewrite Hyear, months_in_year_items by assumption.
  destruct (save_months_complete env tide_obj sun_obj moon_obj
              (map (year_month y) (seqZ 1 12))) with (pages := @nil Figure)
              (stdout := @nil pyval) as (pages & out & Hloop).
  { intros month Hmonth. apply list_elem_of_fmap in Hmonth as (m & -> & Hm).
    apply elem_of_seqZ in Hm.
    assert (valid_year_month y m) as Hv by (unfold valid_year_month; lia).
    destruct (month_page_layout_complete env tide_obj sun_obj moon_obj y m Hv)
      as [fig1 Hlayout];
      [intros d Hd; apply Hwf; lia|intros d Hd; apply Hall; lia|].
    unfold month_page. rewrite Hlayout. cbn [mbind result_bind].
    unfold place_logo. rewrite Hdata. cbn [mbind result_bind].
    rewrite Hopen. cbn [mbind result_bind]. rewrite Hfloat. cbn [mbind result_bind].
    eexists _, _. reflexivity. }
  rewrite Hloop. cbn [mbind result_bind]. eexists _, _. split; [reflexivity|].
  cbn [pdf_pages]. apply save_months_output in Hloop as [-> _]. reflexivity.
Qed.

(** ** The two subplots of a date *)

(** [_plot_a_date], on whatever figure it is called: when it returns, the
    figure has exactly two axes more, the handles it returns are theirs, the
    second of them is the current axes, and nothing that was on the figure
    before has changed.  The first of the two holds the curve of the Sun and,
    over it, the curve of the Moon, between 0 and 1, with its bottom spine
    hidden and the two texts of the day; the second holds the tide curve
    between [tide_min] and [tide_max] and no text; both span the same
    horizontal range and have no ticks. *)
Theorem plot_a_date_appends env tide_o sun_o moon_o gs tide_min tide_max time_zone
    fig grid_index date fig' ax1 ax2 :
  _plot_a_date env tide_o sun_o moon_o gs tide_min tide_max time_zone fig grid_index date
  = Return (fig', ax1, ax2) ->
  ax1 = length (fig_axes fig) /\ ax2 = S ax1 /\ current_axes fig' = ax2
  /\ same_furniture fig fig'
  /\ exists A1 A2,
       fig_axes fig' = fig_axes fig ++ [A1; A2]
       /\ gs_getitem gs grid_index = Return (subplotspec A1)
       /\ gs_getitem gs (grid_index + 7) = Return (subplotspec A2)
       /\ map fill_color (fills A1) = ["#FFEB00"; "#D7A8A8"]%string
       /\ map fill_color (fills A2) = ["#52ABB7"]%string
       /\ ylim A1 = Some (0%Q, 1%Q) /\ ylim A2 = Some (tide_min, tide_max)
       /\ xlim A1 = xlim A2 /\ is_Some (xlim A1)
       /\ xticks A1 = Some [] /\ yticks A1 = Some []
       /\ xticks A2 = Some [] /\ yticks A2 = Some []
       /\ spine_hidden A1 = [spine_bottom] /\ spine_hidden A2 = []
       /\ length (texts A1) = 2%nat /\ texts A2 = [].
Proof.
  intros H. apply plot_a_date_Return in H
    as (s & mo & ti & t0 & t1 & off0 & off1 & first & phase & icon & cell1 & cell2
        & _ & _ & _ & _ & _ & _ & _ & Hg1 & _ & _ & _ & Hg2 & -> & -> & ->).
  cbn [current_axes]. do 3 (split; [reflexivity|]).
  split; [repeat split|].
  eexists _, _. cbn [fig_axes]. split; [reflexivity|].
  cbn. repeat (split; [assumption || reflexivity || (eexists; reflexivity)|]).
  reflexivity.
Qed.

(** ** The script *)

(** A run of the script that completes: the path named a file; the Sun
    and the Moon were computed for the latitude, the longitude, the time
    zone and the year of the tide context; the document was written under
    the name [testcal], which is not the [testcal.pdf] of the last line
    printed.  For a year of 1678 to 2261 the document has twelve pages, and
    the lines printed are the five of the preparation, the two of each month
    from January to December, and the last one. *)
Theorem main_output world env filename stdout pdf :
  main world env filename = inr (stdout, pdf) ->
  isfile world filename = true
  /\ pdf_file_name pdf = "testcal"%string
  /\ exists tides sun moon,
       new_Tides world filename = Return tides
       /\ new_Astro world (latitude tides) (longitude tides) (timezone tides) (year tides)
            "Sun" = Return sun
       /\ new_Astro world (latitude tides) (longitude tides) (timezone tides) (year tides)
            "Moon" = Return moon
       /\ forall y, 1678 <= y <= 2261 -> year tides = pad4 y ->
            length (pdf_pages pdf) = 12%nat
            /\ stdout
               = [PyStr ("Making Sun * Moon * Tides Calendar with input file " +:+ filename);
                  PyStr ((station_name tides +:+ ", ") +:+ state tides);
                  PyStr "Sun calculations complete";
                  PyStr "Moon calculations complete";
                  PyStr "Starting to draw calendar now."]
                 ++ concat (map (fun m =>
                                   [PyStr (year_month y m +:+ " figure created, now saving...");
                                    PyStr ("Saved " +:+ year_month y m)]) (seqZ 1 12))
                 ++ [PyStr "Calendar complete. Find output testcal.pdf @@@@"].
Proof.
  unfold main. intros H.
  destruct (isfile world filename); [|discriminate]. cbn [negb] in H.
  destruct (new_Tides world filename) as [tides|e] eqn:Htides; [|discriminate].
  destruct (new_Astro world _ _ _ _ "Sun") as [sun|e] eqn:Hsun; [|discriminate].
  destruct (new_Astro world _ _ _ _ "Moon") as [moon|e] eqn:Hmoon; [|discriminate].
  destruct (generate_annual_calendar env tides sun moon "testcal")
    as [[pdf' printed]|e] eqn:Hcal; [|discriminate].
  injection H. intros <- <-.
  split; [reflexivity|]. split.
  { unfold generate_annual_calendar in Hcal.
    apply bind_Return in Hcal as ([pages out] & _ & Hcal). injection Hcal as <- _.
    reflexivity. }
  exists tides, sun, moon. split; [reflexivity|]. split; [exact Hsun|]. split; [exact Hmoon|].
  intros y Hy Hyear.
  destruct (annual_calendar_output_lines env tides sun moon "testcal" y pdf' printed Hy Hyear Hcal)
    as [Hlen ->].
  split; [exact Hlen|]. reflexivity.
Qed.

(** A logo that fails to load ends the whole run: when the data are read
    and the page of January is laid out, an [Exception] of the logo step
    turns into the [TypeError] of the handler, which leaves [month_page],
    [generate_annual_calendar] and the script; the run does not complete. *)
Theorem main_logo_failure world env filename tides sun moon y fig e :
  isfile world filename = true ->
  new_Tides world filename = Return tides ->
  new_Astro world (latitude tides) (longitude tides) (timezone tides) (year tides) "Sun"
  = Return sun ->
  new_Astro world (latitude tides) (longitude tides) (timezone tides) (year tides) "Moon"
  = Return moon ->
  1678 <= y <= 2261 -> year tides = pad4 y ->
  month_page_layout env (year_month y 1) tides sun moon = Return fig ->
  place_logo env fig = Raise e -> is_Exception e = true ->
  main world env filename = inl (Uncaught TypeError).
Proof.
  intros Hfile Htides Hsun Hmoon Hy Hyear Hlayout Hlogo He.
  unfold main. rewrite Hfile, Htides, Hsun, Hmoon. cbn [negb].
  assert (generate_annual_calendar env tides sun moon "testcal" = Raise TypeError) as ->;
    [|reflexivity].
  unfold generate_annual_calendar. rewrite Hyear, months_in_year_items by assumption.
  rewrite (save_months_first_failure env tides sun moon y 1 TypeError 12 1);
    try (reflexivity || lia).
  unfold month_page. rewrite Hlayout. cbn [mbind result_bind]. rewrite Hlogo, He.
  reflexivity.
Qed.

(** ** The example, once more *)

Lemma example_lookup_date {A : Type} (v : A) m d :
  1 <= m <= 12 -> 1 <= d <= month_length 2015 m ->
  example_lookup v !! date_string 2015 m d = Some v.
Proof.
  intros Hm Hd. unfold example_lookup. apply elem_of_list_to_map_1'.
  - intros x Hx. apply list_elem_of_fmap in Hx as (date & [= _ ->] & _). reflexivity.
  - apply list_elem_of_fmap. exists (date_string 2015 m d). split; [reflexivity|].
    unfold example_dates. change "2015"%string with (pad4 2015).
    rewrite year_dates_items by lia.
    apply list_elem_of_In, in_concat.
    exists (map (date_string 2015 m) (seqZ 1 (month_length 2015 m))). split.
    + apply in_map_iff. exists m. split; [reflexivity|].
      apply list_elem_of_In, elem_of_seqZ. lia.
    + apply in_map_iff. exists d. split; [reflexivity|].
      apply list_elem_of_In, elem_of_seqZ. lia.
Qed.

Lemma example_has_entries m d :
  1 <= m <= 12 -> 1 <= d <= month_length 2015 m ->
  has_entries example_tides example_sun example_moon (date_string 2015 m d).
Proof.
  intros Hm Hd. unfold has_entries, example_tides, example_sun, example_moon.
  cbn [heights all_tides phase_day_num].
  rewrite !example_lookup_date by assumption. repeat split; eexists; reflexivity.
Qed.

Lemma example_data_well_formed y m d :
  well_formed example_env example_tides example_sun example_moon y m d.
Proof.
  split; [by exists (-480)|]. split; [by exists (-480)|].
  split; [|split; [|split]].
  - intros s H. unfold example_sun in H. cbn [heights] in H.
    apply (example_lookup_value example_series) in H. subst s. discriminate.
  - intros s H. unfold example_moon in H. cbn [heights] in H.
    apply (example_lookup_value example_series) in H. subst s. discriminate.
  - intros s H. unfold example_tides in H. cbn [all_tides] in H.
    apply (example_lookup_value example_series) in H. subst s. discriminate.
  - intros p H. unfold example_moon in H. cbn [phase_day_num] in H.
    apply (example_lookup_value 14) in H. lia.
Qed.

Lemma month_page_returns_with_logo_witness :
  exists fig printed,
    month_page example_env "2015-08" example_tides example_sun example_moon
    = Return (fig, printed)
    /\ printed = []
    /\ np_float example_env = true
    /\ exists logo pixels,
         get_data example_env "cal_draw" "graphics/logo.png" = Return logo
         /\ Image_open example_env (default [] logo) = Return pixels
         /\ fig_images fig
            = [(map (map (fun px => (inject_Z px / 255)%Q)) pixels, 505, 70)].
Proof.
  destruct (month_page example_env "2015-08" example_tides example_sun example_moon)
    as [[fig printed]|e] eqn:E; [|vm_compute in E; discriminate].
  exists fig, printed. split; [reflexivity|].
  exact (month_page_returns_with_logo _ _ _ _ _ _ _ E).
Defined.

Lemma month_page_complete_witness :
  exists fig,
    month_page example_env (year_month 2015 8) example_tides example_sun example_moon
    = Return (fig, []).
Proof.
  apply (month_page_complete example_env example_tides example_sun example_moon 2015 8
           (Some [137; 80; 78; 71]) [[137; 80; 78; 71]]).
  - unfold valid_year_month. lia.
  - intros d Hd. apply example_data_well_formed.
  - intros d Hd. apply example_has_entries; [lia|exact Hd].
  - reflexivity.
  - reflexivity.
  - reflexivity.
Defined.

Lemma month_page_axes_cells_witness :
  exists fig printed init_day,
    month_page example_env (year_month 2015 8) example_tides example_sun example_moon
    = Return (fig, printed)
    /\ init_day_of (year_month 2015 8) = Return init_day
    /\ 0 <= init_day <= 6
    /\ cells_of fig = day_cells init_day (month_length 2015 8) ++ blank_cells init_day
    /\ Z.of_nat (length (fig_axes fig)) = 2 * month_length 2015 8 + 2 * init_day
    /\ (init_day = 0 <-> dayofweek (timestamp_at 2015 8 1 0 0) = 6).
Proof.
  destruct (month_page example_env (year_month 2015 8) example_tides example_sun
              example_moon) as [[fig printed]|e] eqn:E; [|vm_compute in E; discriminate].
  destruct (month_page_axes_cells example_env example_tides example_sun example_moon
              2015 8 fig printed) as (init_day & H); [unfold valid_year_month; lia|exact E|].
  exists fig, printed, init_day. split; [reflexivity|exact H].
Defined.

Lemma month_page_no_overlap_witness :
  exists fig printed,
    month_page example_env (year_month 2015 8) example_tides example_sun example_moon
    = Return (fig, printed)
    /\ NoDup (cells_of fig)
    /\ (forall c, c ∈ cells_of fig -> 0 <= c <= 83)
    /\ (forall c, 0 <= c <= 13 -> c ∈ cells_of fig).
Proof.
  destruct (month_page example_env (year_month 2015 8) example_tides example_sun
              example_moon) as [[fig printed]|e] eqn:E; [|vm_compute in E; discriminate].
  exists fig, printed. split; [reflexivity|].
  apply (month_page_no_overlap example_env example_tides example_sun example_moon
           2015 8 fig printed); [unfold valid_year_month; lia|exact E].
Defined.

Lemma month_page_weekday_headers_witness :
  exists fig printed,
    month_page example_env (year_month 2015 8) example_tides example_sun example_moon
    = Return (fig, printed)
    /\ Z.of_nat (length (axes_texts fig)) = 2 * month_length 2015 8 + 7
    /\ forall c, 0 <= c <= 6 ->
         exists name owner a ax,
           py_index day_names c = Return name
           /\ fig_axes fig !! owner = Some a
           /\ mkText 0.5%Q 1.08%Q (PyStr name) "center" (PyInt 12) "Foglihten" (transAxes ax)
              ∈ texts a
           /\ cells_of fig !! ax = Some c.
Proof.
  destruct (month_page example_env (year_month 2015 8) example_tides example_sun
              example_moon) as [[fig printed]|e] eqn:E; [|vm_compute in E; discriminate].
  exists fig, printed. split; [reflexivity|].
  apply (month_page_weekday_headers example_env example_tides example_sun example_moon
           2015 8 fig printed); [unfold valid_year_month; lia|exact E].
Defined.

Lemma month_page_day_columns_witness :
  exists fig printed init_day ax1 ax2,
    month_page example_env (year_month 2015 8) example_tides example_sun example_moon
    = Return (fig, printed)
    /\ init_day_of (year_month 2015 8) = Return init_day
    /\ fig_axes fig !! (2 * Z.to_nat (31 - 1))%nat = Some ax1
    /\ fig_axes fig !! (2 * Z.to_nat (31 - 1) + 1)%nat = Some ax2
    /\ subplotspec ax1 mod 7 = (dayofweek (timestamp_at 2015 8 31 0 0) + 1) mod 7
    /\ subplotspec ax1 / 7 = 2 * ((init_day + 31 - 1) / 7)
    /\ subplotspec ax2 = subplotspec ax1 + 7.
Proof.
  destruct (month_page example_env (year_month 2015 8) example_tides example_sun
              example_moon) as [[fig printed]|e] eqn:E; [|vm_compute in E; discriminate].
  destruct (month_page_day_columns example_env example_tides example_sun example_moon
              2015 8 fig printed) with (d := 31) as (init_day & ax1 & ax2 & H);
    [unfold valid_year_month; lia|exact E|vm_compute; split; discriminate|].
  exists fig, printed, init_day, ax1, ax2. split; [reflexivity|exact H].
Defined.

Lemma month_page_titles_witness :
  exists fig printed,
    month_page example_env (year_month 2015 8) example_tides example_sun example_moon
    = Return (fig, printed)
    /\ fig_texts fig
       = [mkText 0.05%Q 0.875%Q (PyStr (month_name 8)) "left" (PyStr "72") "Foglihten"
            transFigure;
          mkText 0.92%Q 0.875%Q (PyStr (year example_tides)) "right" (PyStr "72")
            "Foglihten" transFigure;
          mkText 0.92%Q 0.1%Q
            (PyStr (station_name example_tides +:+ ", " +:+ state example_tides)) "right"
            (PyStr "16") "Foglihten" transFigure;
          mkText 0.92%Q 0.13%Q (PyStr "Sun * Moon * Tide") "right" (PyStr "36")
            "FoglihtenNo01" transFigure]
    /\ figsize fig = (8.5%Q, 11%Q)
    /\ subplotpars fig
       = Some [("left", 0.05%Q); ("right", 0.95%Q); ("bottom", 0.1%Q); ("top", 0.8%Q);
               ("hspace", 0.0%Q); ("wspace", 0.0%Q)]%string.
Proof.
  destruct (month_page example_env (year_month 2015 8) example_tides example_sun
              example_moon) as [[fig printed]|e] eqn:E; [|vm_compute in E; discriminate].
  exists fig, printed. split; [reflexivity|].
  apply (month_page_titles example_env example_tides example_sun example_moon
           2015 8 fig printed); [unfold valid_year_month; lia|exact E].
Defined.

Lemma year_of_days_witness :
  let dates := concat (map (fun month => gen_items (days_in_month month))
                         (gen_items (months_in_year (pad4 2016)))) in
  Z.of_nat (length dates) = (if isleap 2016 then 366 else 365)
  /\ forall (i : nat) date, dates !! i = Some date ->
       exists t, to_datetime date = Return t
         /\ value t = (ymd2ord 2016 1 1 + Z.of_nat i) * 1440
         /\ strftime "%Y-%m-%d" t = date.
Proof. apply (year_of_days 2016). lia. Defined.

Lemma year_out_of_bounds_witness :
  months_in_year (pad4 1492) = GRaise OutOfBoundsDatetime
  /\ forall env tide_obj sun_obj moon_obj file_name,
       year tide_obj = pad4 1492 ->
       generate_annual_calendar env tide_obj sun_obj moon_obj file_name
       = Raise OutOfBoundsDatetime.
Proof. apply (year_out_of_bounds 1492). lia. Defined.

Lemma annual_calendar_output_witness :
  exists pdf stdout,
    generate_annual_calendar example_env example_tides example_sun example_moon "testcal"
    = Return (pdf, stdout)
    /\ length (pdf_pages pdf) = 12%nat
    /\ stdout
       = concat (map (fun m =>
                        [PyStr (year_month 2015 m +:+ " figure created, now saving...");
                         PyStr ("Saved " +:+ year_month 2015 m)]) (seqZ 1 12))
    /\ pdf_file_name pdf = "testcal"%string
    /\ pdf_Title pdf = "Sun * Moon * Tide " +:+ pad4 2015 +:+ " Calendar"
    /\ pdf_Author pdf = "Sara Hendrix, CruzViz"%string
    /\ pdf_Subject pdf = station_name example_tides +:+ ", " +:+ state example_tides
    /\ pdf_CreationDate pdf = Some (timestamp_now example_env).
Proof.
  destruct (generate_annual_calendar example_env example_tides example_sun example_moon
              "testcal") as [[pdf stdout]|e] eqn:E; [|vm_compute in E; discriminate].
  exists pdf, stdout. split; [reflexivity|].
  apply (annual_calendar_output example_env example_tides example_sun example_moon
           "testcal" 2015 pdf stdout); [lia|reflexivity|exact E].
Defined.

Lemma annual_calendar_first_failure_witness :
  generate_annual_calendar example_env example_tides_gap example_sun example_moon "testcal"
  = Raise (KeyError "2015-02-10").
Proof.
  apply (annual_calendar_first_failure example_env example_tides_gap example_sun
           example_moon "testcal" 2015 2 (KeyError "2015-02-10")).
  - lia.
  - reflexivity.
  - lia.
  - intros m' Hm'. assert (m' = 1) as -> by lia.
    destruct (month_page example_env (year_month 2015 1) example_tides_gap example_sun
                example_moon) as [[fig printed]|e] eqn:E; [|vm_compute in E; discriminate].
    exists fig, printed. reflexivity.
  - vm_compute. reflexivity.
Defined.

Lemma annual_calendar_complete_witness :
  exists pdf stdout,
    generate_annual_calendar example_env example_tides example_sun example_moon "testcal"
    = Return (pdf, stdout)
    /\ length (pdf_pages pdf) = 12%nat.
Proof.
  apply (annual_calendar_complete example_env example_tides example_sun example_moon
           "testcal" 2015 (Some [137; 80; 78; 71]) [[137; 80; 78; 71]]).
  - lia.
  - reflexivity.
  - intros m d Hm Hd. apply example_data_well_formed.
  - intros m d Hm Hd. apply example_has_entries; assumption.
  - reflexivity.
  - reflexivity.
  - reflexivity.
Defined.

Lemma plot_a_date_appends_witness :
  exists fig' ax1 ax2,
    _plot_a_date example_env example_tides example_sun example_moon (mkGridSpec 12 7)
      (annual_min example_tides) (annual_max example_tides) (timezone example_tides)
      (plt_figure (8.5%Q, 11%Q)) 6 "2015-08-01"
    = Return (fig', ax1, ax2)
    /\ ax1 = length (fig_axes (plt_figure (8.5%Q, 11%Q))) /\ ax2 = S ax1
    /\ current_axes fig' = ax2
    /\ same_furniture (plt_figure (8.5%Q, 11%Q)) fig'
    /\ exists A1 A2,
         fig_axes fig' = fig_axes (plt_figure (8.5%Q, 11%Q)) ++ [A1; A2]
         /\ gs_getitem (mkGridSpec 12 7) 6 = Return (subplotspec A1)
         /\ gs_getitem (mkGridSpec 12 7) (6 + 7) = Return (subplotspec A2)
         /\ map fill_color (fills A1) = ["#FFEB00"; "#D7A8A8"]%string
         /\ map fill_color (fills A2) = ["#52ABB7"]%string
         /\ ylim A1 = Some (0%Q, 1%Q)
         /\ ylim A2 = Some (annual_min example_tides, annual_max example_tides)
         /\ xlim A1 = xlim A2 /\ is_Some (xlim A1)
         /\ xticks A1 = Some [] /\ yticks A1 = Some []
         /\ xticks A2 = Some [] /\ yticks A2 = Some []
         /\ spine_hidden A1 = [spine_bottom] /\ spine_hidden A2 = []
         /\ length (texts A1) = 2%nat /\ texts A2 = [].
Proof.
  destruct (_plot_a_date example_env example_tides example_sun example_moon
              (mkGridSpec 12 7) (annual_min example_tides) (annual_max example_tides)
              (timezone example_tides) (plt_figure (8.5%Q, 11%Q)) 6 "2015-08-01")
    as [[[fig' ax1] ax2]|e] eqn:E; [|vm_compute in E; discriminate].
  exists fig', ax1, ax2. split; [reflexivity|].
  exact (plot_a_date_appends _ _ _ _ _ _ _ _ _ _ _ _ _ _ E).
Defined.

Lemma main_output_witness :
  exists stdout pdf,
    main example_world example_env "9413745_annual.txt" = inr (stdout, pdf)
    /\ isfile example_world "9413745_annual.txt" = true
    /\ pdf_file_name pdf = "testcal"%string
    /\ exists tides sun moon,
         new_Tides example_world "9413745_annual.txt" = Return tides
         /\ new_Astro example_world (latitude tides) (longitude tides) (timezone tides)
              (year tides) "Sun" = Return sun
         /\ new_Astro example_world (latitude tides) (longitude tides) (timezone tides)
              (year tides) "Moon" = Return moon
         /\ forall y, 1678 <= y <= 2261 -> year tides = pad4 y ->
              length (pdf_pages pdf) = 12%nat
              /\ stdout
                 = [PyStr ("Making Sun * Moon * Tides Calendar with input file "
                           +:+ "9413745_annual.txt");
                    PyStr ((station_name tides +:+ ", ") +:+ state tides);
                    PyStr "Sun calculations complete";
                    PyStr "Moon calculations complete";
                    PyStr "Starting to draw calendar now."]
                   ++ concat (map (fun m =>
                                     [PyStr (year_month y m
                                             +:+ " figure created, now saving...");
                                      PyStr ("Saved " +:+ year_month y m)]) (seqZ 1 12))
                   ++ [PyStr "Calendar complete. Find output testcal.pdf @@@@"].
Proof.
  destruct (main example_world example_env "9413745_annual.txt")
    as [e|[stdout pdf]] eqn:E; [vm_compute in E; discriminate|].
  exists stdout, pdf. split; [reflexivity|].
  exact (main_output _ _ _ _ _ E).
Defined.

Lemma main_logo_failure_witness :
  main example_world example_env_no_logo "9413745_annual.txt" = inl (Uncaught TypeError).
Proof.
  destruct (month_page_layout example_env_no_logo (year_month 2015 1) example_tides
              example_sun example_moon) as [fig|e] eqn:E; [|vm_compute in E; discriminate].
  apply (main_logo_failure example_world example_env_no_logo "9413745_annual.txt"
           example_tides example_sun example_moon 2015 fig
           (OtherException "FileNotFoundError")).
  - reflexivity.
  - reflexivity.
  - reflexivity.
  - reflexivity.
  - lia.
  - reflexivity.
  - exact E.
  - reflexivity.
  - reflexivity.
Defined.

Lemma empty_series_aborts_witness :
  month_page example_env (year_month 2015 2) example_tides_empty example_sun example_moon
  = Raise TypeError.
Proof.
  apply (empty_series_aborts example_env example_tides_empty example_sun example_moon
           2015 2 1 example_series example_series (mkSeries (Some "UTC"%string) []) 14).
  - unfold valid_year_month. lia.
  - vm_compute. split; discriminate.
  - intros d' Hd'. lia.
  - intros d' Hd'. lia.
  - by exists (-480).
  - by exists (-480).
  - vm_compute. reflexivity.
  - vm_compute. reflexivity.
  - vm_compute. reflexivity.
  - vm_compute. reflexivity.
  - lia.
  - right. right. reflexivity.
Defined.
